(** * TrackMyLife: the weekly habit tracker

    A shallow embedding of the tracker page of the repository
    (types, seed data, storage helpers, progress helpers and the three
    state updaters of [TrackMyLifePage]) together with the properties
    its specification states about them.

    Conventions of the embedding:
    - an array is a list, read with stdpp's lookup [!!]; its length is a
      [nat], handed to arithmetic as a [Z];
    - the fractional numbers of the page (steps, blocks, percentages)
      are exact rationals [Q], and [==] is their numerical equality.
      The page holds binary64 numbers instead: module [Binary64] gives
      the steps, their sum and [totalBlocks] on these, and section
      "The blocks of a goal on binary64 numbers" shows that over a week
      of seven days the blocks of the page are the binary64 number
      nearest to the exact ones, the rounding of [toFixed(2)] taking
      away what the additions drift;
    - the numbers of the life timeline are whole in the seed data, but a
      week span comes from [Number(prompt(...))] and can be any number:
      module [Timeline] has a type [number] of its own for them;
    - a thrown exception is the [Throw] case of [result];
    - what the platform provides ([Set], [sort], [toFixed], [JSON],
      [localStorage], the calendar) is modelled in section
      "Language-level helpers" and next to its use. *)

From Stdlib Require Import ZArith QArith Qround Qminmax Qabs Lqa Lia String.
From Stdlib Require Import DecimalString Sorted SpecFloat.
From stdpp Require Import base list gmap strings.

Open Scope Q_scope.

(* ================================================================== *)
(** * Language-level helpers *)
(* ================================================================== *)

Module Js.

(** The exceptions the modelled code can meet. *)
Inductive exn : Type :=
| TypeError
| RangeError
| ReferenceError
| SyntaxError
| SecurityError
| QuotaExceededError.

(** A computation that returns a value or throws. *)
Inductive result (A : Type) : Type :=
| Ok (a : A)
| Throw (e : exn).
Arguments Ok {A} a.
Arguments Throw {A} e.

Definition bind {A B : Type} (m : result A) (k : A -> result B) : result B :=
  match m with
  | Ok a => k a
  | Throw e => Throw e
  end.

(** [try { m } catch { h }] *)
Definition try_catch {A : Type} (m : result A) (h : result A) : result A :=
  match m with
  | Ok a => Ok a
  | Throw _ => h
  end.

(** The length of an array, as a number. *)
Definition len {A : Type} (l : list A) : Z := Z.of_nat (length l).

(** [Number(x.toFixed(2))]: the multiple of 1/100 nearest to [x], the
    one of larger magnitude when two are equally near; a magnitude of
    10^21 or more is printed in full and so returned unchanged. *)
Definition toFixed2 (x : Q) : Q :=
  if Qle_bool (10 ^ 21) (Qabs x) then x
  else if Qle_bool 0 x
       then inject_Z (Qfloor (x * 100 + (1 # 2))) / 100
       else - (inject_Z (Qfloor ((- x) * 100 + (1 # 2))) / 100).

(** [Math.min(a, b)] *)
Definition Math_min (a b : Q) : Q := Qmin a b.

(** [new Set(array)]: the elements in order of first occurrence. *)
Fixpoint Set_from (seen l : list string) : list string :=
  match l with
  | [] => seen
  | x :: l' => if bool_decide (x ∈ seen) then Set_from seen l'
               else Set_from (seen ++ [x]) l'
  end.
Definition new_Set (l : list string) : list string := Set_from [] l.

Definition Set_has (s : list string) (x : string) : bool :=
  bool_decide (x ∈ s).

Definition Set_delete (s : list string) (x : string) : list string :=
  filter (fun y => y <> x) s.

Definition Set_add (s : list string) (x : string) : list string :=
  if Set_has s x then s else s ++ [x].

(** [Array.from(set)]: the members in insertion order. *)
Definition Array_from (s : list string) : list string := s.

(** [array.sort(cmp)]: the sort is stable, so its result is the one
    of insertion sort.  [cmp a b] is the sign test [cmp(a, b) <= 0]. *)
Section Sort.
Context {A : Type} (cmp_le : A -> A -> bool).

Fixpoint sort_insert (x : A) (l : list A) : list A :=
  match l with
  | [] => [x]
  | y :: l' => if cmp_le x y then x :: y :: l'
               else y :: sort_insert x l'
  end.

Definition sort (l : list A) : list A := foldr sort_insert [] l.
End Sort.

End Js.
Export Js.

(* ================================================================== *)
(** * Types and constants *)
(* ================================================================== *)

Inductive GoalSection : Type := Studies | PersonalLife.

Record TaskTemplate : Type := mkTask {
  task_id : string;
  task_label : string
}.

(** [note] is optional in the source type: [None] is an absent note. *)
Record DayState : Type := mkDay {
  completedTasks : list string;
  note : option string
}.

Record Goal : Type := mkGoal {
  goal_id : string;
  goal_label : string;
  goal_section : GoalSection;
  tasks : list TaskTemplate;
  days : list DayState
}.

Record WeekSummary : Type := mkSummary {
  summary_id : string;
  startISO : string;
  endISO : string;
  totalCompletedTasks : nat;
  totalPossibleTasks : nat;
  bestGoalId : option string;
  bestGoalLabel : option string;
  bestGoalCompletion : Q
}.

Record TrackerState : Type := mkState {
  weekStartISO : string;
  goals : list Goal;
  history : list WeekSummary
}.

Definition NUM_DAYS : nat := 7.
Definition STORAGE_KEY : string := "TRACK_MY_LIFE_V3".

(* ================================================================== *)
(** * Seed data *)
(* ================================================================== *)

Definition emptyDay : DayState :=
  {| completedTasks := []; note := Some ""%string |}.

Definition emptyDays : list DayState := replicate NUM_DAYS emptyDay.

Definition seedGoals : list Goal :=
  [ mkGoal "intro-llm" "Intro to LLM" Studies
      [ mkTask "llm-notes" "Review lecture notes";
        mkTask "llm-ex" "Solve 2 practice questions";
        mkTask "llm-reading" "Read 5 pages";
        mkTask "llm-video" "Watch 10 min recap" ]
      emptyDays;
    mkGoal "sdms" "SDMS" Studies
      [ mkTask "sdms-reading" "Read 3 pages of script";
        mkTask "sdms-quiz" "Do 5 quiz questions";
        mkTask "sdms-notes" "Organise notes" ]
      emptyDays;
    mkGoal "pgm" "PGM" Studies
      [ mkTask "pgm-slides" "Scan slides 10 min";
        mkTask "pgm-problem" "Attempt 1 problem";
        mkTask "pgm-solution" "Check 1 solution" ]
      emptyDays;
    mkGoal "crypto" "Intro to Crypto" Studies
      [ mkTask "crypto-topic" "Read 1 topic";
        mkTask "crypto-summary" "Write 3 bullet summary" ]
      emptyDays;
    mkGoal "german-a2" "German A2" Studies
      [ mkTask "german-vocab" "Learn 5 new words";
        mkTask "german-speak" "Speak 5 min";
        mkTask "german-grammar" "One grammar exercise" ]
      emptyDays;
    mkGoal "content-workout" "Content Creation + Workout" PersonalLife
      [ mkTask "content-idea" "Brainstorm 3 ideas";
        mkTask "content-draft" "Draft 1 post/reel";
        mkTask "workout-20" "20 min workout";
        mkTask "walk-steps" "5k steps" ]
      emptyDays;
    mkGoal "guitar" "Guitar" PersonalLife
      [ mkTask "guitar-chords" "Practice chords 10 min";
        mkTask "guitar-song" "Play 1 full song";
        mkTask "guitar-metronome" "5 min with metronome" ]
      emptyDays;
    mkGoal "eng-speaking" "Eng speaking" PersonalLife
      [ mkTask "eng-shadow" "Shadow 5 min video";
        mkTask "eng-record" "Record 2 min monologue";
        mkTask "eng-words" "Learn 5 new phrases" ]
      emptyDays ].

(** [defaultState()]; [today] is what [todayISO()] returns at the call. *)
Definition defaultState (today : string) : TrackerState :=
  {| weekStartISO := today; goals := seedGoals; history := [] |}.

(* ================================================================== *)
(** * Progress helpers *)
(* ================================================================== *)

(** Option C mapping: number of tasks to the step within that day. *)
Definition stepForDay (tasksCompleted totalTasks : Z) : Q :=
  if (tasksCompleted <=? 0)%Z then 0
  else if (tasksCompleted >=? totalTasks)%Z then 1.0
  else if (tasksCompleted >=? 4)%Z then 0.8
  else if (tasksCompleted >=? 2)%Z then 0.5
  else 0.2.

(** The sum of the daily steps, before rounding: the [reduce] call. *)
Definition blocksSum (goal : Goal) : Q :=
  let totalTasks := len (tasks goal) in
  foldl (fun sum day =>
           let c := len (completedTasks day) in
           sum + stepForDay c totalTasks)
        0 (days goal).

Definition totalBlocks (goal : Goal) : Q :=
  Math_min (inject_Z (Z.of_nat NUM_DAYS)) (toFixed2 (blocksSum goal)).

Definition completionPct (goal : Goal) : Q :=
  (totalBlocks goal / inject_Z (Z.of_nat NUM_DAYS)) * 100.

(** The loop of [streakDays]: [n] is [i + 1] for the index [i] about to
    be read.  Reading [completedTasks] of a missing day throws. *)
Fixpoint streakLoop (ds : list DayState) (n : nat) (streak : nat)
  : result nat :=
  match n with
  | O => Ok streak
  | S i =>
      match ds !! i with
      | None => Throw TypeError
      | Some day =>
          if (len (completedTasks day) >? 0)%Z
          then streakLoop ds i (streak + 1)
          else Ok streak
      end
  end.

Definition streakDays (goal : Goal) : result nat :=
  streakLoop (days goal) NUM_DAYS 0.

(* ================================================================== *)
(** * Check-in updaters *)
(* ================================================================== *)

(** The body of the inner [map] of [handleToggleTask] for the day that
    is hit: membership of [taskId] is flipped through a [Set]. *)
Definition toggleInDay (taskId : string) (day : DayState) : DayState :=
  let completed := new_Set (completedTasks day) in
  let completed' :=
    if Set_has completed taskId then Set_delete completed taskId
    else Set_add completed taskId in
  {| completedTasks := Array_from completed'; note := note day |}.

Definition handleToggleTask (goalId taskId : string) (dIndex : nat)
    (prev : TrackerState) : TrackerState :=
  let nextGoals :=
    (fun g =>
       if negb (String.eqb (goal_id g) goalId) then g
       else
         let days' :=
           imap (fun idx day =>
                   if negb (Nat.eqb idx dIndex) then day
                   else toggleInDay taskId day)
                (days g) in
         {| goal_id := goal_id g; goal_label := goal_label g;
            goal_section := goal_section g; tasks := tasks g;
            days := days' |})
    <$> goals prev in
  {| weekStartISO := weekStartISO prev; goals := nextGoals;
     history := history prev |}.

Definition handleUpdateNote (goalId : string) (dIndex : nat)
    (newNote : string) (prev : TrackerState) : TrackerState :=
  let nextGoals :=
    (fun g =>
       if negb (String.eqb (goal_id g) goalId) then g
       else
         let days' :=
           imap (fun idx day =>
                   if Nat.eqb idx dIndex
                   then {| completedTasks := completedTasks day;
                           note := Some newNote |}
                   else day)
                (days g) in
         {| goal_id := goal_id g; goal_label := goal_label g;
            goal_section := goal_section g; tasks := tasks g;
            days := days' |})
    <$> goals prev in
  {| weekStartISO := weekStartISO prev; goals := nextGoals;
     history := history prev |}.

(* ================================================================== *)
(** * Week rollover *)
(* ================================================================== *)

(** The comparator [(a, b) => b.pct - a.pct], as the test [<= 0]. *)
Definition byPctDesc (a b : Goal * Q) : bool := Qle_bool (snd b) (snd a).

Definition totalPossibleOf (gs : list Goal) : nat :=
  foldl (fun sum g => (sum + length (tasks g) * NUM_DAYS)%nat) 0%nat gs.

Definition totalCompletedOf (gs : list Goal) : nat :=
  foldl (fun sum g =>
           (sum + foldl (fun inner d =>
                           (inner + length (completedTasks d))%nat)
                        0%nat (days g))%nat)
        0%nat gs.

Definition bestGoalOf (gs : list Goal) : option (Goal * Q) :=
  head (sort byPctDesc ((fun g => (g, completionPct g)) <$> gs)).

Section Rollover.

(** The calendar is the platform's.  [isoDatePlus iso n] is the first
    ten characters of [new Date(new Date(iso).getTime() + n * DAY_MS)
    .toISOString()]; it is [None] when [iso] is no date, where
    [toISOString] throws a [RangeError]. *)
Variable isoDatePlus : string -> nat -> option string.

(** [handleStartNewWeek]; [today] is what [todayISO()] returns at the
    call and the result is the state handed to [setState]. *)
Definition handleStartNewWeek (today : string) (state : TrackerState)
  : result TrackerState :=
  let totalPossible := totalPossibleOf (goals state) in
  let totalCompleted := totalCompletedOf (goals state) in
  let bestGoal := bestGoalOf (goals state) in
  match isoDatePlus (weekStartISO state) (NUM_DAYS - 1) with
  | None => Throw RangeError
  | Some endDate =>
      let summary :=
        {| summary_id := weekStartISO state;
           startISO := weekStartISO state;
           endISO := endDate;
           totalCompletedTasks := totalCompleted;
           totalPossibleTasks := totalPossible;
           bestGoalId := (fun b => goal_id (fst b)) <$> bestGoal;
           bestGoalLabel := (fun b => goal_label (fst b)) <$> bestGoal;
           bestGoalCompletion := from_option snd 0 bestGoal |} in
      let newWeekStart := today in
      Ok {| weekStartISO := newWeekStart;
            goals := (fun g =>
                        {| goal_id := goal_id g; goal_label := goal_label g;
                           goal_section := goal_section g; tasks := tasks g;
                           days := emptyDays |})
                     <$> goals state;
            history := history state ++ [summary] |}
  end.

(** The states the page can be in when it starts from the seed data. *)
Inductive reachable : TrackerState -> Prop :=
| reach_seed (today : string) :
    reachable (defaultState today)
| reach_toggle (goalId taskId : string) (dIndex : nat) (st : TrackerState) :
    reachable st -> reachable (handleToggleTask goalId taskId dIndex st)
| reach_note (goalId : string) (dIndex : nat) (newNote : string)
    (st : TrackerState) :
    reachable st -> reachable (handleUpdateNote goalId dIndex newNote st)
| reach_rollover (today : string) (st st' : TrackerState) :
    reachable st -> handleStartNewWeek today st = Ok st' -> reachable st'.

End Rollover.

(* ================================================================== *)
(** * Storage helpers *)
(* ================================================================== *)

(** A JSON document, which is also the value [JSON.parse] returns.  An
    object is the list of its members in the order they are written. *)
#[warnings="-register-all"]
Inductive json : Type :=
| JNull
| JBool (b : bool)
| JNum (q : Q)
| JStr (s : string)
| JArr (l : list json)
| JObj (fields : list (string * json)).

(** The text of a storage item is read as the sequence of its lexical
    units.  A literal is given by what it denotes, a number or a string;
    how its digits and escapes are spelled is the platform's and is not
    modelled.  The empty list is the empty string. *)
Inductive token : Type :=
| TLBrace | TRBrace | TLBracket | TRBracket | TColon | TComma
| TNull | TTrue | TFalse
| TNum (q : Q)
| TStr (s : string)
| TSpace               (* white space *)
| TJunk.               (* characters that form no JSON token *)

Definition text : Type := list token.

(** ** [JSON.stringify]: a document as compact text *)

Fixpoint JSON_write (v : json) : text :=
  match v with
  | JNull => [TNull]
  | JBool true => [TTrue]
  | JBool false => [TFalse]
  | JNum q => [TNum q]
  | JStr s => [TStr s]
  | JArr [] => [TLBracket; TRBracket]
  | JArr (x :: l) =>
      TLBracket :: JSON_write x
        ++ mjoin ((fun y => TComma :: JSON_write y) <$> l)
        ++ [TRBracket]
  | JObj [] => [TLBrace; TRBrace]
  | JObj ((k, x) :: fs) =>
      TLBrace :: TStr k :: TColon :: JSON_write x
        ++ mjoin ((fun m => TComma :: TStr m.1 :: TColon :: JSON_write m.2)
                  <$> fs)
        ++ [TRBrace]
  end.

(** ** [JSON.parse]: one pass over the text with a stack *)

(** An array or an object that waits for the value being read. *)
Inductive frame : Type :=
| FArr (done : list json)               (* elements so far, last first *)
| FObj (done : list (string * json)) (key : string).

Inductive mode : Type :=
| MValue (stack : list frame)        (* a value must follow *)
| MArrStart (stack : list frame)     (* after [[]: a value or the end *)
| MArrNext (done : list json) (stack : list frame)   (* [,] or the end *)
| MObjStart (stack : list frame)     (* after [{]: a key or the end *)
| MObjKey (done : list (string * json)) (stack : list frame)
| MObjColon (done : list (string * json)) (key : string)
    (stack : list frame)
| MObjNext (done : list (string * json)) (stack : list frame)
| MDone (v : json)                   (* the document is complete *)
| MError.

(** A finished value goes to the container that waits for it. *)
Definition deliver (v : json) (stack : list frame) : mode :=
  match stack with
  | [] => MDone v
  | FArr done :: stack' => MArrNext (v :: done) stack'
  | FObj done key :: stack' => MObjNext ((key, v) :: done) stack'
  end.

Definition startValue (stack : list frame) (t : token) : mode :=
  match t with
  | TNull => deliver JNull stack
  | TTrue => deliver (JBool true) stack
  | TFalse => deliver (JBool false) stack
  | TNum q => deliver (JNum q) stack
  | TStr s => deliver (JStr s) stack
  | TLBracket => MArrStart stack
  | TLBrace => MObjStart stack
  | _ => MError
  end.

Definition parseStep (m : mode) (t : token) : mode :=
  match t with
  | TSpace => m
  | _ =>
      match m with
      | MValue stack => startValue stack t
      | MArrStart stack =>
          match t with
          | TRBracket => deliver (JArr []) stack
          | _ => startValue (FArr [] :: stack) t
          end
      | MArrNext done stack =>
          match t with
          | TComma => MValue (FArr done :: stack)
          | TRBracket => deliver (JArr (reverse done)) stack
          | _ => MError
          end
      | MObjStart stack =>
          match t with
          | TRBrace => deliver (JObj []) stack
          | TStr key => MObjColon [] key stack
          | _ => MError
          end
      | MObjKey done stack =>
          match t with
          | TStr key => MObjColon done key stack
          | _ => MError
          end
      | MObjColon done key stack =>
          match t with
          | TColon => MValue (FObj done key :: stack)
          | _ => MError
          end
      | MObjNext done stack =>
          match t with
          | TComma => MObjKey done stack
          | TRBrace => deliver (JObj (reverse done)) stack
          | _ => MError
          end
      | MDone _ => MError
      | MError => MError
      end
  end.

Definition JSON_parse (raw : text) : result json :=
  match foldl parseStep (MValue []) raw with
  | MDone v => Ok v
  | _ => Throw SyntaxError
  end.

(** The document [JSON.stringify] writes for each type of the page. *)
Definition json_of_nat (n : nat) : json := JNum (inject_Z (Z.of_nat n)).

Definition json_of_nullable (o : option string) : json :=
  match o with
  | Some s => JStr s
  | None => JNull
  end.

Definition json_of_section (s : GoalSection) : json :=
  match s with
  | Studies => JStr "Studies"
  | PersonalLife => JStr "Personal Life"
  end.

Definition json_of_task (t : TaskTemplate) : json :=
  JObj [("id", JStr (task_id t)); ("label", JStr (task_label t))]%string.

(** An absent note leaves no property behind. *)
Definition json_of_day (d : DayState) : json :=
  JObj (("completedTasks"%string, JArr (JStr <$> completedTasks d))
        :: match note d with
           | Some s => [("note"%string, JStr s)]
           | None => []
           end).

Definition json_of_goal (g : Goal) : json :=
  JObj [("id", JStr (goal_id g));
        ("label", JStr (goal_label g));
        ("section", json_of_section (goal_section g));
        ("tasks", JArr (json_of_task <$> tasks g));
        ("days", JArr (json_of_day <$> days g))]%string.

Definition json_of_summary (w : WeekSummary) : json :=
  JObj [("id", JStr (summary_id w));
        ("startISO", JStr (startISO w));
        ("endISO", JStr (endISO w));
        ("totalCompletedTasks", json_of_nat (totalCompletedTasks w));
        ("totalPossibleTasks", json_of_nat (totalPossibleTasks w));
        ("bestGoalId", json_of_nullable (bestGoalId w));
        ("bestGoalLabel", json_of_nullable (bestGoalLabel w));
        ("bestGoalCompletion", JNum (bestGoalCompletion w))]%string.

Definition json_of_state (st : TrackerState) : json :=
  JObj [("weekStartISO", JStr (weekStartISO st));
        ("goals", JArr (json_of_goal <$> goals st));
        ("history", JArr (json_of_summary <$> history st))]%string.

Definition JSON_stringify (st : TrackerState) : text :=
  JSON_write (json_of_state st).

(** [localStorage] of one origin. *)
Record Storage : Type := mkStorage {
  accessible : bool;   (* false: touching the storage throws *)
  has_room : bool;     (* false: every write exceeds the quota *)
  items : gmap string text
}.

Definition getItem (s : Storage) (key : string) : result (option text) :=
  if accessible s then Ok (items s !! key) else Throw SecurityError.

Definition setItem (s : Storage) (key : string) (value : text)
  : result Storage :=
  if negb (accessible s) then Throw SecurityError
  else if negb (has_room s) then Throw QuotaExceededError
  else Ok {| accessible := accessible s; has_room := has_room s;
             items := <[key := value]> (items s) |}.

(** [window] is [None] where the page is rendered on the server. *)
Definition loadState (today : string) (window : option Storage)
  : result json :=
  match window with
  | None => Ok (json_of_state (defaultState today))
  | Some localStorage =>
      try_catch
        (bind (getItem localStorage STORAGE_KEY) (fun raw =>
           match raw with
           | None | Some [] => Ok (json_of_state (defaultState today))
           | Some raw => JSON_parse raw
           end))
        (Ok (json_of_state (defaultState today)))
  end.

Definition saveState (state : TrackerState) (window : option Storage)
  : result Storage :=
  match window with
  | None => Throw ReferenceError
  | Some localStorage =>
      setItem localStorage STORAGE_KEY (JSON_stringify state)
  end.

(* ================================================================== *)
(** * The specification's wording, as definitions *)
(* ================================================================== *)

(** The step policy as the specification lists it, first match wins. *)
Definition stepPolicy (c T : Z) : Q :=
  if (c =? 0)%Z then 0
  else if (T <=? c)%Z then 1.0
  else if (4 <=? c)%Z then 0.8
  else if (2 <=? c)%Z then 0.5
  else 0.2.

(** The step of day [i] of a goal; a day that is missing adds nothing. *)
Definition stepOfDay (goal : Goal) (i : nat) : Q :=
  match days goal !! i with
  | Some day => stepForDay (len (completedTasks day)) (len (tasks goal))
  | None => 0
  end.

(** The sum of the steps of the seven days of the week. *)
Definition weekSteps (goal : Goal) : Q :=
  stepOfDay goal 0 + stepOfDay goal 1 + stepOfDay goal 2 + stepOfDay goal 3
  + stepOfDay goal 4 + stepOfDay goal 5 + stepOfDay goal 6.

(** [r] is [x] rounded to two decimal places. *)
Definition roundedTo2 (x r : Q) : Prop :=
  (exists n : Z, r == inject_Z n / 100) /\ Qabs (r - x) <= 1 # 200.

(** A day with at least one completed task. *)
Definition dayActive (day : DayState) : bool :=
  negb (Nat.eqb (length (completedTasks day)) 0).

(** The number of active days at the front of a list, up to the first
    day that is not. *)
Fixpoint leadingRun (ds : list DayState) : nat :=
  match ds with
  | [] => 0
  | day :: ds' => if dayActive day then S (leadingRun ds') else 0
  end.

(** The run of active days that ends the week, read backward from the
    last day. *)
Definition trailingRun (ds : list DayState) : nat := leadingRun (reverse ds).

(** [g] is the best goal of [gs]: no goal has a higher percentage, and
    every goal before it in iteration order has a strictly lower one,
    so that among equals the first wins. *)
Definition isFirstMax (gs : list Goal) (g : Goal) : Prop :=
  exists i : nat,
    gs !! i = Some g
    /\ (forall g', g' ∈ gs -> completionPct g' <= completionPct g)
    /\ (forall (j : nat) g', (j < i)%nat -> gs !! j = Some g' ->
        completionPct g' < completionPct g).

(** The completed tasks of a week, over all goals and days, and the
    task slots the week offered. *)
Definition completedInWeek (gs : list Goal) : nat :=
  sum_list ((fun g => sum_list ((fun d => length (completedTasks d))
                                <$> days g)) <$> gs).

Definition possibleInWeek (gs : list Goal) : nat :=
  sum_list ((fun g => (length (tasks g) * 7)%nat) <$> gs).

(** [day'] is [day] with the membership of [taskId] flipped: the note
    and the membership of every other task are as before. *)
Definition flippedDay (taskId : string) (day day' : DayState) : Prop :=
  note day' = note day
  /\ (taskId ∈ completedTasks day' <-> taskId ∉ completedTasks day)
  /\ (forall t, t <> taskId ->
      (t ∈ completedTasks day' <-> t ∈ completedTasks day)).

(** Every goal of the state holds exactly seven days. *)
Definition weekInvariant (st : TrackerState) : Prop :=
  Forall (fun g => length (days g) = 7%nat) (goals st).

(** One week has, day by day, no more tasks done than another. *)
Definition daysLe (ds ds' : list DayState) : Prop :=
  Forall2 (fun d d' =>
             (length (completedTasks d) <= length (completedTasks d'))%nat)
          ds ds'.

(** Two goals that differ in their days only. *)
Definition sameGoalInfo (g g' : Goal) : Prop :=
  goal_id g' = goal_id g /\ goal_label g' = goal_label g
  /\ goal_section g' = goal_section g /\ tasks g' = tasks g.

(** Every day of the state carries a note, be it the empty one. *)
Definition notesPresent (st : TrackerState) : Prop :=
  Forall (fun g => Forall (fun d => is_Some (note d)) (days g)) (goals st).

(* ================================================================== *)
(** * Sample weeks *)
(* ================================================================== *)

Definition dayWith (done : list string) : DayState :=
  {| completedTasks := done; note := Some ""%string |}.

(** Four tasks, all of them done on day 0 and none afterwards. *)
Definition weekAllOnDay0 : Goal :=
  mkGoal "G" "G" Studies
    [mkTask "a" "A"; mkTask "b" "B"; mkTask "c" "C"; mkTask "d" "D"]
    (dayWith ["a"; "b"; "c"; "d"]%string :: replicate 6 emptyDay).

(** The same goal before anything was done. *)
Definition weekUntouched : Goal :=
  mkGoal "G" "G" Studies
    [mkTask "a" "A"; mkTask "b" "B"; mkTask "c" "C"; mkTask "d" "D"]
    emptyDays.

(** Two tasks, one of them done on each of the seven days. *)
Definition weekOneADay : Goal :=
  mkGoal "H" "H" PersonalLife
    [mkTask "a" "A"; mkTask "b" "B"]
    (replicate 7 (dayWith ["a"%string])).

(** Two tasks, one of them done on each of the first three days. *)
Definition weekThreeDays : Goal :=
  mkGoal "H" "H" PersonalLife
    [mkTask "a" "A"; mkTask "b" "B"]
    (replicate 3 (dayWith ["a"%string]) ++ replicate 4 emptyDay).

(** One task, done on each of eight days: a week that is too long. *)
Definition weekOfEightDays : Goal :=
  mkGoal "H" "H" PersonalLife
    [mkTask "a" "A"]
    (replicate 8 (dayWith ["a"%string])).

(** A calendar that knows the one week of the samples. *)
Definition sampleCalendar (iso : string) (n : nat) : option string :=
  if String.eqb iso "2025-01-06" then
    match n with
    | 6%nat => Some "2025-01-12"%string
    | _ => None
    end
  else None.

(** An empty storage that can be read and written. *)
Definition freshStorage : Storage :=
  {| accessible := true; has_room := true; items := ∅ |}.

(** A storage whose item under the key is no JSON. *)
Definition brokenStorage : Storage :=
  {| accessible := true; has_room := true;
     items := {[ STORAGE_KEY := [TLBrace; TStr "weekStartISO"; TColon] ]} |}.

(* ================================================================== *)
(** * The rest of the tracker page *)
(* ================================================================== *)

(** ** Time helpers *)

Definition DAY_MS : Z := 24 * 60 * 60 * 1000.

(** A [Date] that holds a date is given by its time value, the whole
    number of milliseconds [getTime()] returns. *)
Definition dayIndex (date : Z) : Z := (date / DAY_MS)%Z.

Definition diffInDays (a b : Z) : Z := (dayIndex a - dayIndex b)%Z.

(** The day of the week in progress, as the page derives it from the
    clock and the week start. *)
Definition pageDayIndex (today weekStart : Z) : Z :=
  let diff := diffInDays today weekStart in
  Z.max 0 (Z.min (Z.of_nat NUM_DAYS - 1) diff).

Definition weekFinished (today weekStart : Z) : bool :=
  let diff := diffInDays today weekStart in
  (diff >=? Z.of_nat NUM_DAYS)%Z.

(** ** Dormancy and the figure *)

(** The loop of [isDormant]: [n] is [i + 1] for the index [i] about to
    be read; the loop runs while [i >= NUM_DAYS - 2]. *)
Fixpoint dormantLoop (ds : list DayState) (n : nat) : result bool :=
  match n with
  | O => Ok true
  | S i =>
      if (Z.of_nat i >=? Z.of_nat NUM_DAYS - 2)%Z then
        match ds !! i with
        | None => Throw TypeError
        | Some day =>
            if (len (completedTasks day) >? 0)%Z then Ok false
            else dormantLoop ds i
        end
      else Ok true
  end.

Definition isDormant (goal : Goal) : result bool :=
  dormantLoop (days goal) NUM_DAYS.

Definition figureStage (pct : Q) : nat :=
  if negb (Qle_bool 30 pct) then 1
  else if negb (Qle_bool 60 pct) then 2
  else if negb (Qle_bool 85 pct) then 3
  else 4.

(** ** The seven-day series of the chart *)

Record HabitPoint : Type := mkPoint {
  dayLabel : string;
  real : nat;
  projected : Q
}.

(** A whole number written in a template literal. *)
Definition Number_toString (n : nat) : string :=
  NilZero.string_of_uint (Nat.to_uint n).

(** [goals.reduce((sum, g) => sum + g.days[i].completedTasks.length, 0)],
    from the running [sum]: a goal without day [i] makes the read throw. *)
Fixpoint completedOnDay (i : nat) (gs : list Goal) (sum : nat)
  : result nat :=
  match gs with
  | [] => Ok sum
  | g :: gs' =>
      match days g !! i with
      | None => Throw TypeError
      | Some day =>
          completedOnDay i gs' (sum + length (completedTasks day))
      end
  end.

(** The loop of [buildHabitSeries]: [left] iterations remain, [i] is the
    loop index. *)
Fixpoint habitLoop (gs : list Goal) (left i : nat) (cumulativeReal : nat)
    (proj : Q) (points : list HabitPoint) : result (list HabitPoint) :=
  match left with
  | O => Ok points
  | S left' =>
      bind (completedOnDay i gs 0) (fun completedToday =>
        let cumulativeReal := (cumulativeReal + completedToday)%nat in
        let proj := if (0 <? i)%nat then proj * 1.01 else proj in
        habitLoop gs left' (S i) cumulativeReal proj
          (points ++ [ {| dayLabel := "D" ++ Number_toString (i + 1);
                          real := cumulativeReal;
                          projected := toFixed2 proj |} ]))
  end.

Definition buildHabitSeries (gs : list Goal) : result (list HabitPoint) :=
  habitLoop gs NUM_DAYS 0 0 1 [].

(** ** Figures of the page and of the week summary *)

(** [overallCompletion] of the page; [None] is the [NaN] that [0 / 0]
    gives when there is no goal. *)
Definition overallCompletion (gs : list Goal) : option Q :=
  let totalBlocksAll := foldl (fun sum g => sum + totalBlocks g) 0 gs in
  if (length gs =? 0)%nat then None
  else Some ((totalBlocksAll
              / inject_Z (Z.of_nat (NUM_DAYS * length gs))) * 100).

(** [overallPct] of the week summary modal: the share of the task slots
    that were completed, 0 when there is no slot. *)
Definition summaryOverallPct (gs : list Goal) : Q :=
  let allTasks := totalPossibleOf gs in
  let completed := totalCompletedOf gs in
  if (allTasks =? 0)%nat then 0
  else (inject_Z (Z.of_nat completed) / inject_Z (Z.of_nat allTasks)) * 100.

(** [state.history[state.history.length - 1]] *)
Definition lastWeek (st : TrackerState) : option WeekSummary :=
  last (history st).

(** ** What the check-in modal reads of one goal *)

Record CheckinRow : Type := mkRow {
  doneCount : nat;                 (* completedTasks.length *)
  taskCount : nat;                 (* tasks.length *)
  checked : list bool;             (* one box per task *)
  noteValue : string               (* note ?? "" *)
}.

Definition checkinRow (g : Goal) (dayIdx : Z) : result CheckinRow :=
  match (if (dayIdx <? 0)%Z then None else days g !! Z.to_nat dayIdx) with
  | None => Throw TypeError
  | Some day =>
      Ok {| doneCount := length (completedTasks day);
            taskCount := length (tasks g);
            checked := (fun t => bool_decide (task_id t ∈ completedTasks day))
                       <$> tasks g;
            noteValue := default ""%string (note day) |}
  end.

(** ** Wording of the properties of the rest of the page *)

(** No day of the state lists a task twice. *)
Definition noRepeats (st : TrackerState) : Prop :=
  Forall (fun g => Forall (fun d => NoDup (completedTasks d)) (days g))
         (goals st).

(** Two days that agree on the note and on what is completed, the order
    of the list apart. *)
Definition sameDay (d d' : DayState) : Prop :=
  note d' = note d /\ completedTasks d' ≡ₚ completedTasks d.

(** The tasks completed on day [i], over all goals. *)
Definition dayTotal (gs : list Goal) (i : nat) : nat :=
  sum_list ((fun g => from_option (fun d => length (completedTasks d))
                                  0%nat (days g !! i)) <$> gs).

(** The tasks completed on the days up to and including day [i]. *)
Definition cumulativeTotal (gs : list Goal) (i : nat) : nat :=
  sum_list (dayTotal gs <$> seq 0 (S i)).

(** A day on which something was done and no listed task is left. *)
Definition dayFull (g : Goal) (d : DayState) : Prop :=
  (0 < length (completedTasks d))%nat
  /\ (length (tasks g) <= length (completedTasks d))%nat.

(* ================================================================== *)
(** * The countdown component *)
(* ================================================================== *)

Module Countdown.

Definition SECOND : Z := 1000.
Definition MINUTE : Z := SECOND * 60.
Definition HOUR : Z := MINUTE * 60.
Definition DAY : Z := HOUR * 24.

Inductive CountdownUnit : Type := Day | Hour | Minute | Second.

(** What [handleCountdown] computes for its unit; [distance] is
    [end.getTime() - now.getTime()], [Z.rem] is the remainder [%] of
    JavaScript, which takes the sign of the dividend. *)
Definition newTime (unit : CountdownUnit) (distance : Z) : Z :=
  match unit with
  | Day => Z.max 0 (distance / DAY)
  | Hour => Z.max 0 (Z.rem distance DAY / HOUR)
  | Minute => Z.max 0 (Z.rem distance HOUR / MINUTE)
  | Second => Z.max 0 (Z.rem distance MINUTE / SECOND)
  end.

End Countdown.

(* ================================================================== *)
(** * The life timeline page *)
(* ================================================================== *)

Module Timeline.

(** ** Numbers *)

(** A number of the timeline.  The week span of a track is whatever
    [Number(prompt(...))] gave, so it need not be whole, nor finite.  A
    finite number is held exactly and in lowest terms; the rounding of
    binary64 is left out, which whole numbers up to 2^53 and their
    halves do not meet. *)
Inductive number : Type :=
| Finite (q : Q)
| Infinity (negative : bool)
| NotANumber.

Definition fin (q : Q) : number := Finite (Qred q).

Definition ofZ (z : Z) : number := Finite (inject_Z z).

Definition neg (x : number) : number :=
  match x with
  | Finite q => fin (- q)
  | Infinity s => Infinity (negb s)
  | NotANumber => NotANumber
  end.

Definition add (x y : number) : number :=
  match x, y with
  | Finite p, Finite q => fin (p + q)
  | Infinity s, Infinity s' => if Bool.eqb s s' then x else NotANumber
  | Infinity _, Finite _ => x
  | Finite _, Infinity _ => y
  | _, _ => NotANumber
  end.

Definition sub (x y : number) : number := add x (neg y).

(** [x * c], [x / c] and [x % c] for a constant [c] above 0; the
    remainder takes the sign of [x]. *)
Definition mul (x : number) (c : positive) : number :=
  match x with
  | Finite q => fin (q * inject_Z (Z.pos c))
  | _ => x
  end.

Definition div (x : number) (c : positive) : number :=
  match x with
  | Finite q => fin (q / inject_Z (Z.pos c))
  | _ => x
  end.

Definition truncate (q : Q) : Z := (Qnum q ÷ Z.pos (Qden q))%Z.

Definition rem (x : number) (c : positive) : number :=
  match x with
  | Finite q =>
      fin (q - inject_Z (Z.pos c)
               * inject_Z (truncate (q / inject_Z (Z.pos c))))
  | _ => NotANumber
  end.

Definition Math_floor (x : number) : number :=
  match x with
  | Finite q => ofZ (Qfloor q)
  | _ => x
  end.

Definition Math_max (x y : number) : number :=
  match x, y with
  | NotANumber, _ => NotANumber
  | _, NotANumber => NotANumber
  | Infinity false, _ => x
  | _, Infinity false => y
  | Infinity true, _ => y
  | _, Infinity true => x
  | Finite p, Finite q => if Qle_bool p q then y else x
  end.

Definition Math_min (x y : number) : number :=
  match x, y with
  | NotANumber, _ => NotANumber
  | _, NotANumber => NotANumber
  | Infinity true, _ => x
  | _, Infinity true => y
  | Infinity false, _ => y
  | _, Infinity false => x
  | Finite p, Finite q => if Qle_bool p q then x else y
  end.

(** [x <= y] *)
Definition leq (x y : number) : bool :=
  match x, y with
  | NotANumber, _ => false
  | _, NotANumber => false
  | Infinity true, _ => true
  | _, Infinity false => true
  | Finite p, Finite q => Qle_bool p q
  | _, _ => false
  end.

(** ** Dates *)

(** A [Date] is its time value, in milliseconds; an invalid date has
    none. *)
Definition Date : Type := option Z.

Definition DAY_MS : positive := 24 * 60 * 60 * 1000.

Definition MAX_TIME : Z := 8640000000000000.

(** [new Date(value)]: the time value cut to a whole number, within
    100 million days of the epoch. *)
Definition Date_new (value : number) : Date :=
  match value with
  | Finite q =>
      if Qle_bool (Qabs q) (inject_Z MAX_TIME) then Some (truncate q)
      else None
  | _ => None
  end.

Definition getTime (d : Date) : number :=
  match d with
  | Some t => ofZ t
  | None => NotANumber
  end.

(** The first instant of the year 0 and of the year 10000, in UTC. *)
Definition YEAR_0 : Z := -62167219200000.
Definition YEAR_10000 : Z := 253402300800000.

(** [d.toISOString().slice(0, 10)]: an invalid date throws; in the years
    0 to 9999 the text is [YYYY-MM-DD] and names the UTC day of [d],
    given here by its count of days from the epoch.  Outside these years
    the year is printed with a sign and six digits and the text is cut
    short of a day: [None]. *)
Definition toISODay (d : Date) : result (option Z) :=
  match d with
  | None => Throw RangeError
  | Some t =>
      Ok (if ((YEAR_0 <=? t) && (t <? YEAR_10000))%Z
          then Some (t / Z.pos DAY_MS)%Z
          else None)
  end.

(** [new Date(text)] for the text of a day: the first instant of that
    day in UTC. *)
Definition Date_ofISODay (day : Z) : Date := Some (day * Z.pos DAY_MS)%Z.

Record Track : Type := mkTrack {
  track_id : string;
  track_label : string;
  track_section : GoalSection;
  weekSpan : number;
  weeklyTarget : option number;
  logs : list string            (* ISO dates of check-ins *)
}.

(** ** Time helpers *)

Definition dayIndex (d : Date) : number :=
  Math_floor (div (getTime d) DAY_MS).

Definition weekOfLife (d birth : Date) : number :=
  Math_floor (div (sub (dayIndex d) (dayIndex birth)) 7).

Definition dateFromWeekAndDow (birth : Date) (week dow : number) : Date :=
  let startIdx := add (add (dayIndex birth) (mul week 7)) dow in
  Date_new (mul startIdx DAY_MS).

(** The calendar fields of a [Date]: [getFullYear()], [getMonth()]
    (0 to 11) and [getDate()]. *)
Record Calendar : Type := mkCalendar {
  fullYear : Z;
  month : Z;
  date : Z
}.

Record YMD : Type := mkYMD {
  years : Z;
  months : Z;
  days : Z
}.

Definition isLeapYear (y : Z) : bool :=
  ((y mod 4 =? 0) && (negb (y mod 100 =? 0) || (y mod 400 =? 0)))%Z.

(** The days of month [m] (0 to 11) of year [y]. *)
Definition daysInMonth (y m : Z) : Z :=
  if (m =? 1)%Z then (if isLeapYear y then 29 else 28)%Z
  else if ((m =? 3) || (m =? 5) || (m =? 8) || (m =? 10))%Z then 30%Z
  else 31%Z.

(** [new Date(y, m, 0).getDate()] for [m] from 0 to 11: the last day of
    the month before month [m]; the constructor reads a year from 0 to
    99 as a year of the twentieth century. *)
Definition lastDayOfPreviousMonth (y m : Z) : Z :=
  let y' := if ((0 <=? y) && (y <=? 99))%Z then (1900 + y)%Z else y in
  if (m =? 0)%Z then 31%Z else daysInMonth y' (m - 1).

Definition diffYMD (from to : Calendar) : YMD :=
  let years := (fullYear to - fullYear from)%Z in
  let months := (month to - month from)%Z in
  let days := (date to - date from)%Z in
  let '(months, days) :=
    if (days <? 0)%Z
    then ((months - 1)%Z,
          (days + lastDayOfPreviousMonth (fullYear to) (month to))%Z)
    else (months, days) in
  let '(years, months) :=
    if (months <? 0)%Z then ((years - 1)%Z, (months + 12)%Z)
    else (years, months) in
  {| years := years; months := months; days := days |}.

Record Clock : Type := mkClock {
  clock_days : Z;
  clock_hours : Z;
  clock_minutes : Z;
  clock_seconds : Z
}.

Section NewYear.

(** The time value of the first instant of the year after that of
    [now], in local time: the calendar is the platform's. *)
Variable nextNewYear : Z -> Z.

Definition timeToNewYear (now : Z) : Clock :=
  let target := nextNewYear now in
  let ms := (target - now)%Z in
  let sec := Z.max 0 (ms / 1000) in
  let days := (sec / 86400)%Z in
  let hours := (Z.rem sec 86400 / 3600)%Z in
  let minutes := (Z.rem sec 3600 / 60)%Z in
  let seconds := Z.rem sec 60 in
  {| clock_days := days; clock_hours := hours;
     clock_minutes := minutes; clock_seconds := seconds |}.

End NewYear.

(** ** The rail of one track *)

Section Rail.

(** The time value of [BIRTHDATE], which is given in local time. *)
Variable BIRTHDATE : Z.

Definition totalTicks (weekSpan : number) : number := mul weekSpan 7.

Definition startWeek (currentWeek weekSpan : number) : number :=
  Math_max (ofZ 0) (add (sub currentWeek weekSpan) (ofZ 1)).

(** [now] is the time value of [new Date()]. *)
Definition todayPos (now : Z) (currentWeek weekSpan : number) : number :=
  let dow := rem (sub (dayIndex (Some now)) (dayIndex (Some BIRTHDATE))) 7 in
  let relativeWeek := sub currentWeek (startWeek currentWeek weekSpan) in
  add (mul relativeWeek 7) dow.

(** [latestLogInWindow] is [None] when no log falls in the window. *)
Definition derivedPos (latestLogInWindow : option Date) (now : Z)
    (currentWeek weekSpan : number) : number :=
  match latestLogInWindow with
  | None =>
      Math_min (sub (totalTicks weekSpan) (ofZ 1))
               (Math_max (ofZ 0) (todayPos now currentWeek weekSpan))
  | Some latest =>
      let w := sub (weekOfLife latest (Some BIRTHDATE))
                   (startWeek currentWeek weekSpan) in
      let dow :=
        rem (sub (dayIndex latest) (dayIndex (Some BIRTHDATE))) 7 in
      Math_max (ofZ 0)
               (Math_min (sub (totalTicks weekSpan) (ofZ 1))
                         (add (mul w 7) dow))
  end.

(** The date a release of the marker at position [pos] commits. *)
Definition commitDate (pos currentWeek weekSpan : number) : Date :=
  let week := Math_floor (div pos 7) in
  let dow := rem pos 7 in
  let realWeek := add (startWeek currentWeek weekSpan) week in
  dateFromWeekAndDow (Some BIRTHDATE) realWeek dow.

(** The first and the last day index of the window of the rail. *)
Definition windowStart (currentWeek weekSpan : number) : number :=
  dayIndex (dateFromWeekAndDow (Some BIRTHDATE)
              (startWeek currentWeek weekSpan) (ofZ 0)).

Definition windowEnd (currentWeek weekSpan : number) : number :=
  sub (add (windowStart currentWeek weekSpan) (totalTicks weekSpan))
      (ofZ 1).

End Rail.

(** ** Check-ins *)

(** [commitCheckIn]: the updater handed to [setTracks].  The default
    order of [sort] compares strings unit by unit. *)
Definition commitCheckIn (id isoDate : string) (prev : list Track)
  : list Track :=
  (fun t =>
     if negb (String.eqb (track_id t) id) then t
     else if bool_decide (isoDate ∈ logs t) then t
     else {| track_id := track_id t; track_label := track_label t;
             track_section := track_section t; weekSpan := weekSpan t;
             weeklyTarget := weeklyTarget t;
             logs := sort String.leb (logs t ++ [isoDate]) |})
  <$> prev.

End Timeline.

(* ================================================================== *)
(** * Binary64 numbers *)
(* ================================================================== *)

(** The numbers of the page as the platform holds them, IEEE 754
    binary64, with the Standard Library's specification of their
    operations.  Here [stepForDay], the sum of [reduce] and
    [totalBlocks] are given on these numbers, rounding errors
    included. *)
Module Binary64.

Definition prec : Z := 53.
Definition emax : Z := 1024.

Definition add : spec_float -> spec_float -> spec_float := SFadd prec emax.

(** [x <= y] *)
Definition leb : spec_float -> spec_float -> bool := SFleb.

(** The exact value of a finite number. *)
Definition value (x : spec_float) : Q :=
  match x with
  | S754_finite s m e => inject_Z (cond_Zopp s (Zpos m)) * 2 ^ e
  | _ => 0
  end.

Definition isFinite (x : spec_float) : bool :=
  match x with
  | S754_zero _ | S754_finite _ _ _ => true
  | _ => false
  end.

(** The number nearest to [n / d], the one with an even last bit when
    two are equally near: the quotient, rounded once. *)
Definition quotient (negative : bool) (n d : positive) : spec_float :=
  let '(m, e, l) := SFdiv_core_binary prec emax (Zpos n) 0 (Zpos d) 0 in
  binary_round_aux prec emax negative m e l.

(** The number that a decimal text of value [q] denotes. *)
Definition nearest (q : Q) : spec_float :=
  match Qnum (Qred q) with
  | Z0 => S754_zero false
  | Zpos n => quotient false n (Qden (Qred q))
  | Zneg n => quotient true n (Qden (Qred q))
  end.

(** What [toFixed] prints: the digits of [n] with the point before the
    last [f] of them, or the number in full as [toString] prints it. *)
Inductive numeral : Type :=
| Decimal (negative : bool) (n : Z) (f : nat)
| Printed (x : spec_float).

(** [x.toFixed(f)]: below 10^21 the whole number [n] with [n / 10^f]
    nearest to the magnitude of [x], the larger one when two are equally
    near. *)
Definition toFixed (x : spec_float) (f : nat) : numeral :=
  match x with
  | S754_zero _ => Decimal false 0 f
  | S754_finite s m e =>
      let a := inject_Z (Zpos m) * 2 ^ e in
      if Qle_bool (10 ^ 21) a then Printed x
      else Decimal s (Qfloor (a * inject_Z (10 ^ Z.of_nat f) + (1 # 2))) f
  | _ => Printed x
  end.

(** [Number(text)] for a text that [toFixed] printed. *)
Definition Number (text : numeral) : spec_float :=
  match text with
  | Printed x => x
  | Decimal s n f =>
      match n with
      | Zpos p => quotient s p (Z.to_pos (10 ^ Z.of_nat f))
      | _ => S754_zero s
      end
  end.

(** [Math.min(a, b)]: [NaN] if either is, and [-0] below [+0]. *)
Definition Math_min (a b : spec_float) : spec_float :=
  match SFcompare a b with
  | None => S754_nan
  | Some Lt => a
  | Some Gt => b
  | Some Eq => match a with S754_zero true => a | _ => b end
  end.

Definition stepForDay (tasksCompleted totalTasks : Z) : spec_float :=
  if (tasksCompleted <=? 0)%Z then nearest 0
  else if (tasksCompleted >=? totalTasks)%Z then nearest 1.0
  else if (tasksCompleted >=? 4)%Z then nearest 0.8
  else if (tasksCompleted >=? 2)%Z then nearest 0.5
  else nearest 0.2.

Definition blocksSum (goal : Goal) : spec_float :=
  let totalTasks := len (tasks goal) in
  foldl (fun sum day =>
           let c := len (completedTasks day) in
           add sum (stepForDay c totalTasks))
        (nearest 0) (days goal).

Definition totalBlocks (goal : Goal) : spec_float :=
  Math_min (nearest (inject_Z (Z.of_nat NUM_DAYS)))
           (Number (toFixed (blocksSum goal) 2)).

(** *** The sums a week can reach *)

(** A step is one of five numbers, so the running sums of [reduce] are
    few: they are listed day by day, each beside the tenths that the
    exact steps add up to, and the sums of seven days are checked one
    by one. *)

(** The steps with their number of tenths. *)
Definition stepTable : list (spec_float * Z) :=
  [ (nearest 0, 0%Z); (nearest 0.2, 2%Z); (nearest 0.5, 5%Z);
    (nearest 0.8, 8%Z); (nearest 1.0, 10%Z) ].

Definition same (x y : spec_float) : bool :=
  match x, y with
  | S754_zero s, S754_zero s' => Bool.eqb s s'
  | S754_infinity s, S754_infinity s' => Bool.eqb s s'
  | S754_nan, S754_nan => true
  | S754_finite s m e, S754_finite s' m' e' =>
      Bool.eqb s s' && Pos.eqb m m' && Z.eqb e e'
  | _, _ => false
  end.

Definition sameSum (a b : spec_float * Z) : bool :=
  same a.1 b.1 && (a.2 =? b.2)%Z.

Fixpoint dedup (l : list (spec_float * Z)) : list (spec_float * Z) :=
  match l with
  | [] => []
  | a :: l' => if existsb (sameSum a) l' then dedup l' else a :: dedup l'
  end.

(** The running sums after [n] days, each with the number of tenths
    that the exact steps add up to. *)
Fixpoint sumsAfter (n : nat) : list (spec_float * Z) :=
  match n with
  | O => [(nearest 0, 0%Z)]
  | S n' =>
      dedup (sumsAfter n' ≫= fun st =>
               (fun sk => (add st.1 sk.1, (st.2 + sk.2)%Z)) <$> stepTable)
  end.

(** What is checked of a sum [x] that stands for [k] tenths. *)
Definition sumOk (st : spec_float * Z) : bool :=
  let '(x, k) := st in
  let t := Math_min (nearest 7) (Number (toFixed x 2)) in
  match toFixed x 2 with
  | Decimal false n 2 => (n =? 10 * k)%Z
  | _ => false
  end
  && same t (nearest (inject_Z k / 10))
  && (0 <=? k)%Z && (k <=? 70)%Z
  && Qle_bool (Qabs (value t - inject_Z k / 10)) (1 # 2251799813685248)
  && Qle_bool 0 (value t) && Qle_bool (value t) 7.

(** The two orders of rounding and clamping agree on a sum. *)
Definition orderOk (st : spec_float * Z) : bool :=
  same (Math_min (nearest 7) (Number (toFixed st.1 2)))
       (Number (toFixed (Math_min (nearest 7) st.1) 2)).

(** The tenths of a step, as a whole number. *)
Definition stepTenths (tasksCompleted totalTasks : Z) : Z :=
  if (tasksCompleted <=? 0)%Z then 0
  else if (tasksCompleted >=? totalTasks)%Z then 10
  else if (tasksCompleted >=? 4)%Z then 8
  else if (tasksCompleted >=? 2)%Z then 5
  else 2.

(** A number that is [+0], positive or [+Infinity]. *)
Definition nonNegative (x : spec_float) : bool :=
  match x with
  | S754_zero false | S754_finite false _ _ | S754_infinity false => true
  | _ => false
  end.

End Binary64.

(* ================================================================== *)
(** * The step of a day *)
(* ================================================================== *)

Section StepFacts.

Lemma stepForDay_cases (c T : Z) :
  stepForDay c T = 0 \/ stepForDay c T = 1.0 \/ stepForDay c T = 0.8
  \/ stepForDay c T = 0.5 \/ stepForDay c T = 0.2.
Proof.
  unfold stepForDay.
  repeat match goal with |- context [if ?b then _ else _] => destruct b end;
    auto.
Qed.

(** Every step is a whole number of tenths, between none and ten. *)
Lemma stepForDay_tenths (c T : Z) :
  exists k : Z, (0 <= k <= 10)%Z /\ stepForDay c T == inject_Z k / 10.
Proof.
  destruct (stepForDay_cases c T) as [H|[H|[H|[H|H]]]]; rewrite H.
  - exists 0%Z. split; [lia | reflexivity].
  - exists 10%Z. split; [lia | reflexivity].
  - exists 8%Z. split; [lia | reflexivity].
  - exists 5%Z. split; [lia | reflexivity].
  - exists 2%Z. split; [lia | reflexivity].
Qed.

Lemma stepForDay_range (c T : Z) : 0 <= stepForDay c T <= 1.
Proof.
  destruct (stepForDay_cases c T) as [H|[H|[H|[H|H]]]]; rewrite H;
    split; discriminate.
Qed.

(** More tasks done never lower the step of a day. *)
Lemma stepForDay_mono (c c' T : Z) :
  (c <= c')%Z -> stepForDay c T <= stepForDay c' T.
Proof.
  intros Hc. unfold stepForDay.
  repeat match goal with
         | |- context [(?a <=? ?b)%Z] => destruct (Z.leb_spec a b)
         | |- context [(?a >=? ?b)%Z] =>
             rewrite (Z.geb_leb a b); destruct (Z.leb_spec b a)
         end; try lia; discriminate.
Qed.

(** C1. For a completed count [c >= 0] and a task total [T],
    [stepForDay c T] is the first matching case of: [c = 0] gives 0,
    [c >= T] gives 1.0, [c >= 4] gives 0.8, [c >= 2] gives 0.5,
    otherwise 0.2.  In particular [stepForDay 0 T = 0] and
    [stepForDay T T = 1.0] for [T >= 1], and [stepForDay 0 0 = 0]. *)
Theorem stepForDay_first_match (c T : Z) :
  (0 <= c)%Z ->
  stepForDay c T = stepPolicy c T
  /\ ((1 <= T)%Z -> stepForDay 0 T = 0 /\ stepForDay T T = 1.0)
  /\ stepForDay 0 0 = 0.
Proof.
  intros Hc. split; [|split].
  - unfold stepForDay, stepPolicy.
    repeat match goal with
           | |- context [(?a <=? ?b)%Z] => destruct (Z.leb_spec a b)
           | |- context [(?a >=? ?b)%Z] =>
               rewrite (Z.geb_leb a b); destruct (Z.leb_spec b a)
           | |- context [(?a =? ?b)%Z] => destruct (Z.eqb_spec a b)
           end; try lia; reflexivity.
  - intros HT. split; [reflexivity|].
    unfold stepForDay.
    destruct (Z.leb_spec T 0); [lia|].
    rewrite Z.geb_leb, Z.leb_refl. reflexivity.
  - reflexivity.
Qed.

Lemma stepForDay_first_match_witness :
  (0 <= 3)%Z /\ stepForDay 3 4 = 0.5.
Proof.
  split; [lia|].
  destruct (stepForDay_first_match 3 4) as [H _]; [lia|].
  rewrite H. reflexivity.
Defined.

End StepFacts.

(* ================================================================== *)
(** * Rounding and the blocks of a week *)
(* ================================================================== *)

(** [lra] does not read a division: write it as a product. *)
Ltac qdiv :=
  unfold Qdiv in *;
  change (/ 100) with (1 # 100) in *;
  change (/ 10) with (1 # 10) in *.

Section BlockFacts.

Lemma Qfloor_unique (y : Q) (n : Z) :
  inject_Z n <= y -> y < inject_Z (n + 1) -> Qfloor y = n.
Proof.
  intros Hlo Hhi.
  pose proof (Qfloor_le y) as Hf. pose proof (Qlt_floor y) as Hc.
  assert (inject_Z (Qfloor y) < inject_Z (n + 1)) as H1
    by (eapply Qle_lt_trans; eassumption).
  assert (inject_Z n < inject_Z (Qfloor y + 1)) as H2
    by (eapply Qle_lt_trans; eassumption).
  rewrite <- Zlt_Qlt in H1, H2. lia.
Qed.

Lemma toFixed2_small (x : Q) :
  0 <= x -> x < 10 ^ 21 ->
  toFixed2 x = inject_Z (Qfloor (x * 100 + (1 # 2))) / 100.
Proof.
  intros H0 Hx. unfold toFixed2.
  destruct (Qle_bool (10 ^ 21) (Qabs x)) eqn:E.
  - apply Qle_bool_iff in E. rewrite Qabs_pos in E by assumption.
    exfalso. apply (Qlt_not_le _ _ Hx E).
  - apply Qle_bool_iff in H0. rewrite H0. reflexivity.
Qed.

(** Below 10^21 the result is a number of hundredths at most half a
    hundredth away from the argument. *)
Lemma toFixed2_rounded (x : Q) :
  0 <= x -> x < 10 ^ 21 -> roundedTo2 x (toFixed2 x).
Proof.
  intros H0 Hx. rewrite (toFixed2_small x H0 Hx).
  set (n := Qfloor (x * 100 + (1 # 2))).
  split; [exists n; reflexivity|].
  pose proof (Qfloor_le (x * 100 + (1 # 2))) as Hf.
  pose proof (Qlt_floor (x * 100 + (1 # 2))) as Hc.
  fold n in Hf, Hc. rewrite inject_Z_plus in Hc.
  change (inject_Z 1) with 1 in Hc.
  apply Qabs_Qle_condition. qdiv. split; lra.
Qed.

Lemma toFixed2_nonneg (x : Q) : 0 <= x -> 0 <= toFixed2 x.
Proof.
  intros H0. unfold toFixed2.
  destruct (Qle_bool (10 ^ 21) (Qabs x)); [assumption|].
  apply Qle_bool_iff in H0. rewrite H0. apply Qle_bool_iff in H0.
  assert (0 <= Qfloor (x * 100 + (1 # 2)))%Z as Hn.
  { change 0%Z with (Qfloor 0). apply Qfloor_resp_le. lra. }
  rewrite Zle_Qle in Hn. change (inject_Z 0) with 0 in Hn. qdiv. lra.
Qed.

(** On non-negative numbers rounding keeps the order. *)
Lemma toFixed2_mono (x y : Q) :
  0 <= x -> x <= y -> toFixed2 x <= toFixed2 y.
Proof.
  intros H0 Hxy.
  assert (0 <= y) as Hy by lra.
  destruct (Qlt_le_dec y (10 ^ 21)) as [Hsmall|Hbig].
  - assert (x < 10 ^ 21) as Hx by lra.
    rewrite (toFixed2_small x H0 Hx), (toFixed2_small y Hy Hsmall).
    assert (Qfloor (x * 100 + (1 # 2)) <= Qfloor (y * 100 + (1 # 2)))%Z
      as Hn by (apply Qfloor_resp_le; lra).
    rewrite Zle_Qle in Hn. qdiv. lra.
  - assert (toFixed2 y = y) as ->.
    { unfold toFixed2. rewrite <- (Qabs_pos y Hy) in Hbig.
      apply Qle_bool_iff in Hbig. rewrite Hbig. reflexivity. }
    destruct (Qlt_le_dec x (10 ^ 21)) as [Hx|Hx].
    + rewrite (toFixed2_small x H0 Hx).
      assert (Qfloor (x * 100 + (1 # 2))
              <= Qfloor (10 ^ 21 * 100 + (1 # 2)))%Z
        as Hn by (apply Qfloor_resp_le; lra).
      replace (Qfloor (10 ^ 21 * 100 + (1 # 2)))
        with (Qfloor (10 ^ 21 * 100)) in Hn by (vm_compute; reflexivity).
      rewrite Zle_Qle in Hn.
      pose proof (Qfloor_le (10 ^ 21 * 100)) as Hf. qdiv. lra.
    + assert (toFixed2 x = x) as ->; [|assumption].
      unfold toFixed2. rewrite <- (Qabs_pos x H0) in Hx.
      apply Qle_bool_iff in Hx. rewrite Hx. reflexivity.
Qed.

(** A whole number of tenths below 10^21 is left as it is. *)
Lemma toFixed2_tenths (x : Q) (k : Z) :
  (0 <= k)%Z -> x == inject_Z k / 10 -> x < 10 ^ 21 -> toFixed2 x == x.
Proof.
  intros Hk Hx Hsmall.
  assert (0 <= inject_Z k) as Hk'
    by (change 0 with (inject_Z 0); rewrite <- Zle_Qle; assumption).
  qdiv.
  assert (0 <= x) as H0 by lra.
  rewrite (toFixed2_small x H0 Hsmall).
  rewrite (Qfloor_unique (x * 100 + (1 # 2)) (10 * k)).
  - rewrite inject_Z_mult. change (inject_Z 10) with 10. qdiv. lra.
  - rewrite inject_Z_mult. change (inject_Z 10) with 10. lra.
  - rewrite inject_Z_plus, inject_Z_mult.
    change (inject_Z 10) with 10. change (inject_Z 1) with 1. lra.
Qed.

(** The running sum of [reduce], from any start. *)
Lemma reduce_steps_from (T : Z) (acc : Q) (ds : list DayState) :
  foldl (fun sum day => sum + stepForDay (len (completedTasks day)) T)
        acc ds
  == acc + foldl (fun sum day =>
                    sum + stepForDay (len (completedTasks day)) T) 0 ds.
Proof.
  revert acc. induction ds as [|d ds IH]; intros acc; simpl.
  - ring.
  - rewrite IH, (IH (0 + _)). ring.
Qed.

Lemma blocksSum_nonneg (g : Goal) : 0 <= blocksSum g.
Proof.
  unfold blocksSum. generalize (len (tasks g)) as T. intros T.
  induction (days g) as [|d ds IH]; simpl.
  - lra.
  - rewrite reduce_steps_from.
    pose proof (stepForDay_range (len (completedTasks d)) T). lra.
Qed.

(** For a week of seven days the running sum is the sum of the seven
    daily steps. *)
Lemma blocksSum_week (g : Goal) :
  length (days g) = 7%nat -> blocksSum g == weekSteps g.
Proof.
  unfold blocksSum, weekSteps, stepOfDay.
  destruct (days g) as [|d0 [|d1 [|d2 [|d3 [|d4 [|d5 [|d6 [|d7 ds]]]]]]]];
    try discriminate.
  intros _. cbn [foldl lookup list_lookup]. ring.
Qed.

Lemma stepOfDay_tenths (g : Goal) (i : nat) :
  exists k : Z, (0 <= k <= 10)%Z /\ stepOfDay g i == inject_Z k / 10.
Proof.
  unfold stepOfDay. destruct (days g !! i).
  - apply stepForDay_tenths.
  - exists 0%Z. split; [lia | reflexivity].
Qed.

Lemma weekSteps_tenths (g : Goal) :
  exists k : Z, (0 <= k <= 70)%Z /\ weekSteps g == inject_Z k / 10.
Proof.
  unfold weekSteps.
  destruct (stepOfDay_tenths g 0) as (k0 & B0 & E0).
  destruct (stepOfDay_tenths g 1) as (k1 & B1 & E1).
  destruct (stepOfDay_tenths g 2) as (k2 & B2 & E2).
  destruct (stepOfDay_tenths g 3) as (k3 & B3 & E3).
  destruct (stepOfDay_tenths g 4) as (k4 & B4 & E4).
  destruct (stepOfDay_tenths g 5) as (k5 & B5 & E5).
  destruct (stepOfDay_tenths g 6) as (k6 & B6 & E6).
  exists (k0 + k1 + k2 + k3 + k4 + k5 + k6)%Z. split; [lia|].
  rewrite E0, E1, E2, E3, E4, E5, E6, !inject_Z_plus. qdiv. ring.
Qed.

Lemma tenths_bounds (x : Q) (k : Z) :
  (0 <= k <= 70)%Z -> x == inject_Z k / 10 -> 0 <= x <= 7.
Proof.
  intros [Hlo Hhi] E. rewrite E. rewrite Zle_Qle in Hlo, Hhi.
  change (inject_Z 0) with 0 in Hlo. change (inject_Z 70) with 70 in Hhi.
  qdiv. split; lra.
Qed.

Lemma seven_small (x : Q) : x <= 7 -> x < 10 ^ 21.
Proof.
  intros H. eapply Qle_lt_trans; [exact H|]. reflexivity.
Qed.

(** Over seven days neither the rounding nor the clamp changes the sum. *)
Lemma totalBlocks_week (g : Goal) :
  length (days g) = 7%nat -> totalBlocks g == weekSteps g.
Proof.
  intros Hlen. unfold totalBlocks, Math_min.
  destruct (weekSteps_tenths g) as (k & Hk & Hw).
  destruct (tenths_bounds _ _ Hk Hw) as [Hlo Hhi].
  pose proof (blocksSum_week g Hlen) as Hs.
  assert (toFixed2 (blocksSum g) == weekSteps g) as Hr.
  { rewrite (toFixed2_tenths (blocksSum g) k).
    - assumption.
    - lia.
    - rewrite Hs. assumption.
    - apply seven_small. rewrite Hs. assumption. }
  rewrite Hr. change (inject_Z (Z.of_nat NUM_DAYS)) with 7.
  apply Q.min_r. assumption.
Qed.

(** Whatever the days hold, the blocks of a goal stay within 0 and 7. *)
Lemma totalBlocks_range (g : Goal) : 0 <= totalBlocks g <= 7.
Proof.
  unfold totalBlocks, Math_min. change (inject_Z (Z.of_nat NUM_DAYS)) with 7.
  split.
  - apply Q.min_glb; [discriminate|].
    apply toFixed2_nonneg, blocksSum_nonneg.
  - apply Q.le_min_l.
Qed.

End BlockFacts.

(* ================================================================== *)
(** * The blocks of a goal on binary64 numbers *)
(* ================================================================== *)

Section Binary64Facts.

Lemma same_eq (x y : spec_float) : Binary64.same x y = true -> x = y.
Proof.
  destruct x as [s|s| |s m e], y as [s'|s'| |s' m' e']; simpl;
    try discriminate; try reflexivity.
  - intros H. apply Bool.eqb_prop in H. congruence.
  - intros H. apply Bool.eqb_prop in H. congruence.
  - intros H. apply andb_prop in H as [H He]. apply andb_prop in H as [Hs Hm].
    apply Bool.eqb_prop in Hs. apply Pos.eqb_eq in Hm. apply Z.eqb_eq in He.
    congruence.
Qed.

Lemma sameSum_eq (a b : spec_float * Z) : Binary64.sameSum a b = true -> a = b.
Proof.
  destruct a as [x k], b as [y j]. unfold Binary64.sameSum. simpl.
  intros H. apply andb_prop in H as [Hx Hk].
  apply same_eq in Hx. apply Z.eqb_eq in Hk. congruence.
Qed.

Lemma dedup_elem (a : spec_float * Z) (l : list (spec_float * Z)) :
  a ∈ l -> a ∈ Binary64.dedup l.
Proof.
  induction l as [|b l IH]; intros Ha; [inversion Ha|]. simpl.
  destruct (existsb (Binary64.sameSum b) l) eqn:E.
  - apply elem_of_cons in Ha as [->|Ha]; [|exact (IH Ha)].
    apply existsb_exists in E as (c & Hc & Hbc).
    apply sameSum_eq in Hbc. subst c. apply IH, list_elem_of_In, Hc.
  - apply elem_of_cons in Ha as [->|Ha].
    + apply list_elem_of_here.
    + apply list_elem_of_further, IH, Ha.
Qed.

Lemma stepForDay_in_table (c T : Z) :
  (Binary64.stepForDay c T, Binary64.stepTenths c T) ∈ Binary64.stepTable.
Proof.
  unfold Binary64.stepForDay, Binary64.stepTenths, Binary64.stepTable.
  repeat match goal with |- context [if ?b then _ else _] => destruct b end;
    repeat first [apply list_elem_of_here | apply list_elem_of_further].
Qed.

(** Every running sum of a list of days is among [sumsAfter]. *)
Lemma sums_reach (T : Z) (ds : list DayState) :
  (foldl (fun sum day =>
            Binary64.add sum
              (Binary64.stepForDay (len (completedTasks day)) T))
         (Binary64.nearest 0) ds,
   foldl (fun k day =>
            (k + Binary64.stepTenths (len (completedTasks day)) T)%Z)
         0%Z ds)
  ∈ Binary64.sumsAfter (length ds).
Proof.
  induction ds as [|d ds IH] using rev_ind.
  - apply list_elem_of_here.
  - rewrite !foldl_app, length_app, Nat.add_1_r.
    cbn [foldl Binary64.sumsAfter length].
    apply dedup_elem. apply list_elem_of_bind.
    eexists. split; [|exact IH].
    apply list_elem_of_fmap.
    exists (Binary64.stepForDay (len (completedTasks d)) T,
            Binary64.stepTenths (len (completedTasks d)) T).
    split; [reflexivity|]. apply stepForDay_in_table.
Qed.

(** All the sums of seven days, checked one by one. *)
Lemma week_sums_ok (st : spec_float * Z) :
  st ∈ Binary64.sumsAfter 7 -> Binary64.sumOk st = true.
Proof.
  assert (forallb Binary64.sumOk (Binary64.sumsAfter 7) = true) as Hall
    by (vm_compute; reflexivity).
  intros Hst. apply (proj1 (forallb_forall _ _) Hall).
  apply (proj1 (list_elem_of_In _ _)), Hst.
Qed.

(** The exact steps add up to the tenths counted beside the sums. *)
Lemma stepForDay_stepTenths (c T : Z) :
  stepForDay c T == inject_Z (Binary64.stepTenths c T) / 10.
Proof.
  unfold stepForDay, Binary64.stepTenths.
  repeat match goal with |- context [if ?b then _ else _] => destruct b end;
    reflexivity.
Qed.

Lemma blocksSum_stepTenths (T : Z) (ds : list DayState) (acc : Q) (k : Z) :
  acc == inject_Z k / 10 ->
  foldl (fun sum day => sum + stepForDay (len (completedTasks day)) T) acc ds
  == inject_Z
       (foldl (fun k day =>
                 (k + Binary64.stepTenths (len (completedTasks day)) T)%Z)
              k ds) / 10.
Proof.
  revert acc k. induction ds as [|d ds IH]; intros acc k Hacc; simpl.
  - exact Hacc.
  - apply IH. rewrite Hacc, stepForDay_stepTenths, inject_Z_plus.
    qdiv. ring.
Qed.

(** Equal rationals denote the same number. *)
Lemma nearest_proper (p q : Q) :
  p == q -> Binary64.nearest p = Binary64.nearest q.
Proof.
  intros H. unfold Binary64.nearest. rewrite (Qred_complete p q H).
  reflexivity.
Qed.

(** A text of two decimals that [toFixed] printed without a sign is the
    value, rounded. *)
Lemma toFixed_rounded (x : spec_float) (n : Z) :
  Binary64.toFixed x 2 = Binary64.Decimal false n 2 ->
  Binary64.isFinite x = true
  /\ roundedTo2 (Binary64.value x) (inject_Z n / 100).
Proof.
  destruct x as [s|s| |s m e];
    cbn [Binary64.toFixed Binary64.isFinite Binary64.value];
    try discriminate.
  - intros [= <-]. split; [reflexivity|].
    split; [exists 0%Z; reflexivity | vm_compute; discriminate].
  - change (inject_Z (10 ^ Z.of_nat 2)) with 100.
    set (a := inject_Z (Z.pos m) * 2 ^ e).
    destruct (Qle_bool (10 ^ 21) a) eqn:E; [discriminate|].
    intros H.
    assert (s = false) as -> by congruence.
    assert (Qfloor (a * 100 + (1 # 2)) = n) as Hn by congruence.
    split; [reflexivity|]. cbn [cond_Zopp]. fold a.
    split; [exists n; reflexivity|].
    pose proof (Qfloor_le (a * 100 + (1 # 2))) as Hf.
    pose proof (Qlt_floor (a * 100 + (1 # 2))) as Hc.
    rewrite Hn in Hf, Hc. rewrite inject_Z_plus in Hc.
    change (inject_Z 1) with 1 in Hc.
    apply Qabs_Qle_condition. qdiv. split; lra.
Qed.

(** *** Sums of any length stay numbers *)

Lemma iter_pos_invariant {A : Type} (P : A -> Prop) (f : A -> A) :
  (forall x, P x -> P (f x)) ->
  forall (p : positive) (x : A), P x -> P (SpecFloat.iter_pos f p x).
Proof.
  intros Hf. induction p as [p IH|p IH|]; intros x Hx; simpl; auto.
Qed.

Lemma shr_1_nonneg (mrs : shr_record) :
  (0 <= shr_m mrs)%Z -> (0 <= shr_m (shr_1 mrs))%Z.
Proof.
  destruct mrs as [m r s]. destruct m as [|p|p]; simpl; [lia| |lia].
  intros _. destruct p; simpl; lia.
Qed.

Lemma shr_fexp_nonneg (m e : Z) (l : location) :
  (0 <= m)%Z ->
  (0 <= shr_m (fst (shr_fexp Binary64.prec Binary64.emax m e l)))%Z.
Proof.
  intros Hm. unfold shr_fexp, shr.
  assert (0 <= shr_m (shr_record_of_loc m l))%Z as H0
    by (destruct l as [|[]]; exact Hm).
  destruct (fexp Binary64.prec Binary64.emax (Zdigits2 m + e) - e)%Z;
    cbn [fst]; try exact H0.
  apply (iter_pos_invariant (fun mrs => (0 <= shr_m mrs)%Z));
    [apply shr_1_nonneg | exact H0].
Qed.

Lemma round_nearest_even_nonneg (m : Z) (l : location) :
  (0 <= m)%Z -> (0 <= round_nearest_even m l)%Z.
Proof.
  intros Hm. unfold round_nearest_even.
  destruct l as [|[]]; try destruct (Z.even m); lia.
Qed.

(** Rounding a magnitude gives a number, with the sign asked for. *)
Lemma binary_round_aux_nonNegative (m e : Z) (l : location) :
  (0 <= m)%Z ->
  Binary64.nonNegative
    (binary_round_aux Binary64.prec Binary64.emax false m e l) = true.
Proof.
  intros Hm. unfold binary_round_aux.
  pose proof (shr_fexp_nonneg m e l Hm) as H1.
  destruct (shr_fexp Binary64.prec Binary64.emax m e l) as [mrs' e'].
  cbn [fst] in H1.
  pose proof (shr_fexp_nonneg _ e' loc_Exact
                (round_nearest_even_nonneg _ (loc_of_shr_record mrs') H1))
    as H2.
  destruct (shr_fexp Binary64.prec Binary64.emax
              (round_nearest_even (shr_m mrs') (loc_of_shr_record mrs'))
              e' loc_Exact) as [mrs'' e''].
  cbn [fst] in H2.
  destruct (shr_m mrs'') as [|p|p]; [reflexivity| |lia].
  destruct (_ <=? _)%Z; reflexivity.
Qed.

Lemma add_nonNegative (x y : spec_float) :
  Binary64.nonNegative x = true -> Binary64.nonNegative y = true ->
  Binary64.nonNegative (Binary64.add x y) = true.
Proof.
  destruct x as [[]|[]| |[] mx ex], y as [[]|[]| |[] my ey];
    try discriminate; intros _ _; try reflexivity.
  unfold Binary64.add, SFadd. cbn [cond_Zopp].
  set (ez := Z.min ex ey).
  destruct (shl_align mx ex ez) as [mx' ex'].
  destruct (shl_align my ey ez) as [my' ey']. cbn [fst].
  change (Z.pos mx' + Z.pos my')%Z with (Z.pos (mx' + my')).
  cbn [binary_normalize]. unfold binary_round.
  destruct (shl_align (mx' + my') ez _) as [mz ez'].
  apply binary_round_aux_nonNegative. lia.
Qed.

Lemma quotient_nonNegative (n d : positive) :
  Binary64.nonNegative (Binary64.quotient false n d) = true.
Proof.
  unfold Binary64.quotient, SFdiv_core_binary.
  set (e' := Z.min _ _). set (s := (0 - 0 - e')%Z).
  set (m' := match s with
             | Z0 => Z.pos n
             | Zpos _ => Z.shiftl (Z.pos n) s
             | Zneg _ => Z0
             end).
  assert (0 <= m')%Z as Hm'.
  { subst m'. destruct s; [lia| |lia]. apply Z.shiftl_nonneg. lia. }
  pose proof (Z.div_pos m' (Z.pos d) Hm' eq_refl) as Hq.
  unfold Z.div in Hq.
  destruct (Z.div_eucl m' (Z.pos d)) as [q r].
  apply binary_round_aux_nonNegative, Hq.
Qed.

Lemma nearest_nonNegative (q : Q) :
  0 <= q -> Binary64.nonNegative (Binary64.nearest q) = true.
Proof.
  intros Hq. unfold Binary64.nearest.
  assert (0 <= Qnum (Qred q))%Z as Hn.
  { rewrite <- (Qred_correct q) in Hq. unfold Qle in Hq. simpl in Hq. lia. }
  destruct (Qnum (Qred q)); [reflexivity| |lia].
  apply quotient_nonNegative.
Qed.

Lemma stepForDay_nonNegative (c T : Z) :
  Binary64.nonNegative (Binary64.stepForDay c T) = true.
Proof.
  unfold Binary64.stepForDay.
  repeat match goal with |- context [if ?b then _ else _] => destruct b end;
    apply nearest_nonNegative; discriminate.
Qed.

Lemma blocksSum_nonNegative (g : Goal) :
  Binary64.nonNegative (Binary64.blocksSum g) = true.
Proof.
  unfold Binary64.blocksSum. generalize (len (tasks g)) as T. intros T.
  assert (Binary64.nonNegative (Binary64.nearest 0) = true) as H0
    by reflexivity.
  revert H0. generalize (Binary64.nearest 0) as acc.
  induction (days g) as [|d ds IH]; intros acc Hacc; simpl; [exact Hacc|].
  apply IH, add_nonNegative; [exact Hacc | apply stepForDay_nonNegative].
Qed.

Lemma Number_toFixed_nonNegative (x : spec_float) (f : nat) :
  Binary64.nonNegative x = true ->
  Binary64.nonNegative (Binary64.Number (Binary64.toFixed x f)) = true.
Proof.
  destruct x as [[]|[]| |[] m e]; try discriminate; intros _;
    try reflexivity.
  cbn [Binary64.toFixed].
  destruct (Qle_bool _ _); [reflexivity|]. cbn [Binary64.Number].
  destruct (Qfloor _); try reflexivity. apply quotient_nonNegative.
Qed.

Lemma SFcompare_antisym (m1 m2 : positive) (e1 e2 : Z) (c : comparison) :
  SFcompare (S754_finite false m1 e1) (S754_finite false m2 e2) = Some c ->
  SFcompare (S754_finite false m2 e2) (S754_finite false m1 e1)
  = Some (CompOpp c).
Proof.
  cbn [SFcompare]. intros [= <-]. f_equal.
  rewrite (Z.compare_antisym e1 e2).
  destruct (e1 ?= e2)%Z; cbn [CompOpp]; try reflexivity.
  symmetry. apply (Pos.compare_cont_antisym m1 m2 Eq).
Qed.

(** The clamp: whatever number is handed to [Math.min], the result is
    a number from 0 to 7. *)
Lemma Math_min_range (y : spec_float) :
  Binary64.nonNegative y = true ->
  let t := Binary64.Math_min (Binary64.nearest 7) y in
  Binary64.leb (Binary64.nearest 0) t = true
  /\ Binary64.leb t (Binary64.nearest 7) = true.
Proof.
  intros Hy. cbn zeta.
  replace (Binary64.nearest 7)
    with (S754_finite false 7881299347898368 (-50))
    by (vm_compute; reflexivity).
  replace (Binary64.nearest 0) with (S754_zero false)
    by (vm_compute; reflexivity).
  destruct y as [[]|[]| |[] m e]; try discriminate;
    try (split; reflexivity).
  unfold Binary64.Math_min, Binary64.leb, SFleb.
  destruct (SFcompare (S754_finite false 7881299347898368 (-50))
              (S754_finite false m e)) as [c|] eqn:E; [|discriminate E].
  pose proof (SFcompare_antisym _ _ _ _ _ E) as E'.
  destruct c; cbn [CompOpp] in E'; rewrite ?E'; split; reflexivity.
Qed.

(** C2. On the binary64 numbers of the page [totalBlocks] never
    leaves the range from 0 to 7, however many days the goal has and
    however many tasks are done.  For a goal with seven days the sum of
    the steps is a finite number, and [totalBlocks] is that sum rounded
    to two decimal places and then clamped to at most 7; the rounding
    removes what the additions have drifted, so that the result is the
    number that the exact sum of the steps denotes, less than 2^-51
    away from it and between 0 and 7 in value. *)
Theorem totalBlocks_round_then_clamp (g : Goal) :
  let sum := Binary64.blocksSum g in
  let t := Binary64.totalBlocks g in
  (Binary64.leb (Binary64.nearest 0) t = true
   /\ Binary64.leb t (Binary64.nearest 7) = true)
  /\ (length (days g) = 7%nat ->
      Binary64.isFinite sum = true
      /\ (exists r : Q,
             roundedTo2 (Binary64.value sum) r
             /\ t = Binary64.nearest (Qmin 7 r)
             /\ r == weekSteps g)
      /\ t = Binary64.nearest (totalBlocks g)
      /\ Qabs (Binary64.value t - weekSteps g) <= 1 # 2251799813685248
      /\ 0 <= Binary64.value t <= 7).
Proof.
  cbn zeta. split.
  - apply Math_min_range, Number_toFixed_nonNegative, blocksSum_nonNegative.
  - intros Hlen.
    set (T := len (tasks g)).
    set (k := foldl (fun k day =>
                       (k + Binary64.stepTenths (len (completedTasks day)) T)%Z)
                    0%Z (days g)).
    assert (Binary64.sumOk (Binary64.blocksSum g, k) = true) as Hok.
    { apply week_sums_ok. rewrite <- Hlen. exact (sums_reach T (days g)). }
    cbn [Binary64.sumOk] in Hok. cbv zeta in Hok.
    change (Binary64.Math_min (Binary64.nearest 7)
              (Binary64.Number (Binary64.toFixed (Binary64.blocksSum g) 2)))
      with (Binary64.totalBlocks g) in Hok.
    apply andb_prop in Hok as [Hok H7]. apply andb_prop in Hok as [Hok H0].
    apply andb_prop in Hok as [Hok Hclose].
    apply andb_prop in Hok as [Hok Hhi]. apply andb_prop in Hok as [Hok Hlo].
    apply andb_prop in Hok as [Htext Ht].
    apply same_eq in Ht. apply Z.leb_le in Hlo, Hhi.
    apply Qle_bool_iff in Hclose, H0, H7.
    assert (Binary64.toFixed (Binary64.blocksSum g) 2
            = Binary64.Decimal false (10 * k) 2) as Hfixed.
    { destruct (Binary64.toFixed (Binary64.blocksSum g) 2)
        as [[] n [|[|[|f]]]|]; try discriminate Htext.
      apply Z.eqb_eq in Htext. congruence. }
    destruct (toFixed_rounded _ _ Hfixed) as [Hfin [[n Hn] Hnear]].
    assert (inject_Z (10 * k) / 100 == inject_Z k / 10) as Hr
      by (rewrite inject_Z_mult; change (inject_Z 10) with 10; qdiv; ring).
    assert (inject_Z k / 10 == weekSteps g) as Hexact.
    { rewrite <- (blocksSum_week g Hlen). symmetry.
      apply (blocksSum_stepTenths T (days g) 0 0). reflexivity. }
    assert (inject_Z k <= 70) as Hk70
      by (change 70 with (inject_Z 70); rewrite <- Zle_Qle; exact Hhi).
    split; [exact Hfin|]. split; [|split; [|split; [|split]]].
    + exists (inject_Z k / 10). repeat split.
      * exists (10 * k)%Z. symmetry. exact Hr.
      * rewrite <- Hr. exact Hnear.
      * rewrite Ht. apply nearest_proper.
        symmetry. apply Q.min_r. qdiv. lra.
      * exact Hexact.
    + rewrite Ht at 1. apply nearest_proper.
      rewrite Hexact. symmetry. apply totalBlocks_week, Hlen.
    + rewrite <- Hexact. exact Hclose.
    + exact H0.
    + exact H7.
Qed.

Lemma totalBlocks_round_then_clamp_witness :
  length (days weekThreeDays) = 7%nat
  /\ Binary64.totalBlocks weekThreeDays
     = Binary64.nearest (totalBlocks weekThreeDays).
Proof.
  split; [reflexivity|].
  destruct (totalBlocks_round_then_clamp weekThreeDays) as [_ H].
  destruct (H eq_refl) as (_ & _ & Ht & _). exact Ht.
Defined.

(** Clamping first and rounding afterwards would give the same blocks:
    the order of the two shows in no result.  Checked on every sum of
    up to ten days, where the clamp has come into play. *)
Lemma rounding_after_clamp_agrees (g : Goal) :
  (length (days g) <= 10)%nat ->
  Binary64.totalBlocks g
  = Binary64.Number
      (Binary64.toFixed
         (Binary64.Math_min (Binary64.nearest 7) (Binary64.blocksSum g)) 2).
Proof.
  intros Hlen.
  assert (forallb (fun n => forallb Binary64.orderOk (Binary64.sumsAfter n))
            (seq 0 11) = true) as Hall by (vm_compute; reflexivity).
  pose proof (proj1 (forallb_forall _ _) Hall (length (days g))) as Hn.
  cbv beta in Hn.
  assert (In (length (days g)) (seq 0 11)) as Hin by (apply in_seq; lia).
  pose proof (proj1 (forallb_forall _ _) (Hn Hin)) as Hok.
  pose proof (sums_reach (len (tasks g)) (days g)) as Hreach.
  apply (proj1 (list_elem_of_In _ _)), Hok in Hreach.
  apply same_eq in Hreach. exact Hreach.
Qed.

(** Three days of one task out of two: the steps add up to
    0.6000000000000001, the number next above 0.6, and the rounding
    gives 0.6. *)
Example three_days_drift :
  Binary64.blocksSum weekThreeDays
  = S754_finite false 5404319552844596 (-53)
  /\ Binary64.nearest 0.6 = S754_finite false 5404319552844595 (-53)
  /\ Binary64.totalBlocks weekThreeDays = Binary64.nearest 0.6.
Proof. vm_compute. repeat split. Qed.

(** Eight full days add up to 8, and the clamp gives 7. *)
Example eight_days_clamped :
  Binary64.Number (Binary64.toFixed (Binary64.blocksSum weekOfEightDays) 2)
  = Binary64.nearest 8
  /\ Binary64.totalBlocks weekOfEightDays = Binary64.nearest 7.
Proof. vm_compute. repeat split. Qed.

End Binary64Facts.

(* ================================================================== *)
(** * Monotonicity of the completion percentage *)
(* ================================================================== *)

Section Monotone.

Lemma daysLe_refl (ds : list DayState) : daysLe ds ds.
Proof. apply Forall_Forall2_diag, Forall_forall. intros; lia. Qed.

Lemma reduce_steps_mono (T : Z) (ds ds' : list DayState) :
  daysLe ds ds' ->
  foldl (fun sum day => sum + stepForDay (len (completedTasks day)) T) 0 ds
  <= foldl (fun sum day => sum + stepForDay (len (completedTasks day)) T)
           0 ds'.
Proof.
  induction 1 as [|d d' ds ds' Hd _ IH]; simpl.
  - lra.
  - rewrite (reduce_steps_from T (0 + _) ds),
            (reduce_steps_from T (0 + _) ds').
    assert (stepForDay (len (completedTasks d)) T
            <= stepForDay (len (completedTasks d')) T) as Hs
      by (apply stepForDay_mono; unfold len; lia).
    lra.
Qed.

Lemma completionPct_mono (g g' : Goal) :
  tasks g' = tasks g -> daysLe (days g) (days g') ->
  completionPct g <= completionPct g'.
Proof.
  intros Ht Hd.
  assert (blocksSum g <= blocksSum g') as Hsum
    by (unfold blocksSum; rewrite Ht; apply reduce_steps_mono, Hd).
  assert (totalBlocks g <= totalBlocks g') as Hb.
  { unfold totalBlocks, Math_min. apply Q.min_le_compat_l.
    apply toFixed2_mono; [apply blocksSum_nonneg | assumption]. }
  unfold completionPct. change (inject_Z (Z.of_nat NUM_DAYS)) with 7.
  unfold Qdiv. change (/ 7) with (1 # 7). lra.
Qed.

(** C4. [completionPct] does not decrease when one day gets more
    completed tasks and every other day stays as it is: if [g'] is [g]
    with day [i] replaced by a day [d'] that has at least as many
    completed tasks as day [i] of [g], then
    [completionPct g <= completionPct g']. *)
Theorem completionPct_monotone_in_day
    (g g' : Goal) (i : nat) (d d' : DayState) :
  tasks g' = tasks g ->
  days g !! i = Some d ->
  days g' = <[i := d']> (days g) ->
  (length (completedTasks d) <= length (completedTasks d'))%nat ->
  completionPct g <= completionPct g'.
Proof.
  intros Ht Hi Hd Hle. apply completionPct_mono; [assumption|].
  rewrite Hd. rewrite <- (list_insert_id (days g) i d Hi) at 1.
  apply Forall2_insert; [apply daysLe_refl | assumption].
Qed.

Lemma completionPct_monotone_in_day_witness :
  completionPct weekUntouched <= completionPct weekAllOnDay0.
Proof.
  apply (completionPct_monotone_in_day weekUntouched weekAllOnDay0 0
           emptyDay (dayWith ["a"; "b"; "c"; "d"]%string)).
  - reflexivity.
  - reflexivity.
  - reflexivity.
  - simpl. lia.
Defined.

End Monotone.

(* ================================================================== *)
(** * The streak *)
(* ================================================================== *)

Section Streak.

Lemma dayActive_gtb (day : DayState) :
  (len (completedTasks day) >? 0)%Z = dayActive day.
Proof.
  unfold dayActive, len. destruct (completedTasks day); reflexivity.
Qed.

(** The loop started at index [n - 1] counts the active days that end
    the first [n] days. *)
Lemma streakLoop_run (ds : list DayState) (n acc : nat) :
  (n <= length ds)%nat ->
  streakLoop ds n acc = Ok (acc + trailingRun (take n ds))%nat.
Proof.
  revert acc. induction n as [|i IH]; intros acc Hn.
  - simpl. rewrite take_0. unfold trailingRun. simpl. f_equal. lia.
  - destruct (lookup_lt_is_Some_2 ds i) as [d Hd]; [lia|].
    simpl. rewrite Hd, dayActive_gtb.
    rewrite (take_S_r ds i d Hd). unfold trailingRun.
    rewrite reverse_app. simpl.
    destruct (dayActive d).
    + rewrite IH by lia. unfold trailingRun. f_equal. lia.
    + f_equal. lia.
Qed.

Lemma leadingRun_le (ds : list DayState) :
  (leadingRun ds <= length ds)%nat.
Proof.
  induction ds as [|d ds IH]; simpl; [lia|].
  destruct (dayActive d); lia.
Qed.

Lemma leadingRun_all (ds : list DayState) :
  Forall (fun d => dayActive d = true) ds -> leadingRun ds = length ds.
Proof.
  induction 1 as [|d ds Hd _ IH]; simpl; [reflexivity|].
  rewrite Hd, IH. reflexivity.
Qed.

(** C3. For a goal with seven days, [streakDays] is the length of the
    run of days with at least one completed task that ends the week,
    read backward from day 6 up to the first empty day.  It is 0 when
    day 6 is empty, 7 when every day has a completed task, and never
    more than 7. *)
Theorem streakDays_trailing_run (g : Goal) :
  length (days g) = 7%nat ->
  streakDays g = Ok (trailingRun (days g))
  /\ (forall d6, days g !! 6%nat = Some d6 -> completedTasks d6 = [] ->
      streakDays g = Ok 0%nat)
  /\ (Forall (fun d => completedTasks d <> []) (days g) ->
      streakDays g = Ok 7%nat)
  /\ (trailingRun (days g) <= 7)%nat.
Proof.
  intros Hlen.
  assert (streakDays g = Ok (trailingRun (days g))) as Hrun.
  { unfold streakDays. rewrite streakLoop_run by (rewrite Hlen; reflexivity).
    rewrite take_ge by (rewrite Hlen; reflexivity). reflexivity. }
  split; [exact Hrun|]. split; [|split].
  - intros d6 H6 Hempty. rewrite Hrun. f_equal.
    destruct (days g) as [|d0 [|d1 [|d2 [|d3 [|d4 [|d5 [|d [|d7 ds]]]]]]]];
      try discriminate.
    injection H6 as ->. unfold trailingRun. cbn.
    unfold dayActive. rewrite Hempty. reflexivity.
  - intros Hall. rewrite Hrun. f_equal. unfold trailingRun.
    rewrite leadingRun_all, length_reverse; [assumption|].
    apply Forall_reverse. eapply Forall_impl; [exact Hall|].
    intros d Hd. simpl in Hd. unfold dayActive.
    destruct (completedTasks d); [exfalso; apply Hd | ]; reflexivity.
  - unfold trailingRun. rewrite <- Hlen, <- length_reverse.
    apply leadingRun_le.
Qed.

Lemma streakDays_trailing_run_witness :
  length (days weekAllOnDay0) = 7%nat
  /\ streakDays weekAllOnDay0 = Ok (trailingRun (days weekAllOnDay0))
  /\ trailingRun (days weekAllOnDay0) = 0%nat.
Proof.
  split; [reflexivity|]. split; [|reflexivity].
  apply (streakDays_trailing_run weekAllOnDay0). reflexivity.
Defined.

End Streak.

(* ================================================================== *)
(** * Check-in updaters: what changes and what does not *)
(* ================================================================== *)

Section Checkin.

Lemma elem_of_Set_from (seen l : list string) (x : string) :
  x ∈ Set_from seen l <-> x ∈ seen \/ x ∈ l.
Proof.
  revert seen. induction l as [|y l IH]; intros seen; simpl.
  - rewrite elem_of_nil. tauto.
  - rewrite elem_of_cons. case_bool_decide as Hy; rewrite IH.
    + split; [tauto|]. intros [?|[->|?]]; auto.
    + rewrite elem_of_app, list_elem_of_singleton. tauto.
Qed.

Lemma elem_of_new_Set (l : list string) (x : string) :
  x ∈ new_Set l <-> x ∈ l.
Proof.
  unfold new_Set. rewrite elem_of_Set_from, elem_of_nil. tauto.
Qed.

Lemma NoDup_Set_from (seen l : list string) :
  NoDup seen -> NoDup (Set_from seen l).
Proof.
  revert seen. induction l as [|y l IH]; intros seen Hnd; simpl.
  - assumption.
  - case_bool_decide as Hy; apply IH; [assumption|].
    apply NoDup_app. split; [assumption|]. split.
    + intros x Hx. rewrite list_elem_of_singleton. intros ->. tauto.
    + apply NoDup_singleton.
Qed.

(** The day that is hit: the membership of the task flips, nothing
    else does. *)
Lemma toggleInDay_flips (taskId : string) (day : DayState) :
  flippedDay taskId day (toggleInDay taskId day).
Proof.
  unfold flippedDay, toggleInDay, Array_from, Set_has, Set_add, Set_delete,
    Set_has.
  split; [reflexivity|]. cbn [completedTasks].
  case_bool_decide as Hin.
  - rewrite elem_of_new_Set in Hin. split.
    + rewrite list_elem_of_filter. tauto.
    + intros t Ht. rewrite list_elem_of_filter, elem_of_new_Set. tauto.
  - rewrite elem_of_new_Set in Hin. split.
    + rewrite elem_of_app, list_elem_of_singleton. tauto.
    + intros t Ht.
      rewrite elem_of_app, list_elem_of_singleton, elem_of_new_Set. tauto.
Qed.

(** A task the goal does not list is toggled like any other. *)
Example toggle_unlisted_task :
  completedTasks (toggleInDay "yoga" (dayWith ["a"%string]))
  = ["a"; "yoga"]%string.
Proof. reflexivity. Qed.

(** After a toggle the day lists no task twice. *)
Lemma toggleInDay_NoDup (taskId : string) (day : DayState) :
  NoDup (completedTasks (toggleInDay taskId day)).
Proof.
  unfold toggleInDay, Array_from, Set_has, Set_add, Set_delete, Set_has.
  cbn [completedTasks].
  assert (NoDup (new_Set (completedTasks day))) as Hnd
    by (apply NoDup_Set_from, NoDup_nil_2).
  case_bool_decide as Hin.
  - apply NoDup_filter, Hnd.
  - apply NoDup_app. split; [assumption|]. split.
    + intros x Hx. rewrite list_elem_of_singleton. intros ->. tauto.
    + apply NoDup_singleton.
Qed.

Lemma goal_id_eqb (g : Goal) (goalId : string) :
  negb (String.eqb (goal_id g) goalId) = bool_decide (goal_id g <> goalId).
Proof.
  destruct (String.eqb_spec (goal_id g) goalId) as [E|E]; simpl.
  - rewrite bool_decide_eq_false_2; [reflexivity | tauto].
  - rewrite bool_decide_eq_true_2; [reflexivity | assumption].
Qed.

(** C8. [handleToggleTask] keeps the week start, the history and the
    number of goals; a goal with another id is returned as it is; in a
    goal named [goalId] the id, label, section and tasks stay, every day
    but [dIndex] stays, and on day [dIndex] the note stays while the
    membership of [taskId] in the completed tasks flips (that of every
    other task stays).  When no goal is named [goalId] the state is
    returned unchanged. *)
Theorem handleToggleTask_frame
    (st : TrackerState) (goalId taskId : string) (dIndex : nat) :
  let st' := handleToggleTask goalId taskId dIndex st in
  weekStartISO st' = weekStartISO st
  /\ history st' = history st
  /\ length (goals st') = length (goals st)
  /\ (forall (i : nat) (g : Goal), goals st !! i = Some g ->
      exists g' : Goal,
        goals st' !! i = Some g'
        /\ sameGoalInfo g g'
        /\ length (days g') = length (days g)
        /\ (goal_id g <> goalId -> g' = g)
        /\ (goal_id g = goalId ->
            forall (j : nat) (day : DayState), days g !! j = Some day ->
            exists day' : DayState,
              days g' !! j = Some day'
              /\ note day' = note day
              /\ (j <> dIndex -> day' = day)
              /\ (j = dIndex -> flippedDay taskId day day')))
  /\ ((forall g, g ∈ goals st -> goal_id g <> goalId) -> st' = st).
Proof.
  cbn zeta. unfold handleToggleTask. cbn [weekStartISO history goals].
  split; [reflexivity|]. split; [reflexivity|].
  split; [apply length_fmap|]. split.
  - intros i g Hg. rewrite list_lookup_fmap, Hg.
    cbn [fmap option_fmap option_map].
    rewrite goal_id_eqb. case_bool_decide as Hid.
    + exists g. repeat split; auto. contradiction.
    + eexists. split; [reflexivity|]. cbn [days goal_id].
      split; [repeat split|]. split; [apply length_imap|].
      split; [contradiction|].
      intros _ j day Hday. rewrite list_lookup_imap, Hday.
      cbn [fmap option_fmap option_map].
      destruct (Nat.eqb_spec j dIndex) as [->|Hj]; cbn [negb].
      * eexists. split; [reflexivity|].
        split; [reflexivity|]. split; [contradiction|].
        intros _. apply toggleInDay_flips.
      * exists day. repeat split; auto. contradiction.
  - intros Hno. destruct st as [w gs h].
    cbn [weekStartISO history goals] in *.
    f_equal. rewrite <- (list_fmap_id gs) at 2.
    apply Forall_fmap_ext_1, Forall_forall. intros g Hg.
    rewrite goal_id_eqb, bool_decide_eq_true_2; [reflexivity|].
    apply Hno, Hg.
Qed.

Lemma handleToggleTask_frame_witness :
  history (handleToggleTask "guitar" "guitar-song" 2
             (defaultState "2025-01-06")) = []
  /\ handleToggleTask "piano" "scales" 2 (defaultState "2025-01-06")
     = defaultState "2025-01-06".
Proof.
  split.
  - apply (handleToggleTask_frame (defaultState "2025-01-06")
             "guitar" "guitar-song" 2).
  - apply (handleToggleTask_frame (defaultState "2025-01-06")
             "piano" "scales" 2).
    intros g Hg. cbn [defaultState goals] in Hg. unfold seedGoals in Hg.
    repeat (apply elem_of_cons in Hg as [->|Hg]; [discriminate|]).
    apply elem_of_nil in Hg. contradiction.
Defined.

End Checkin.

(* ================================================================== *)
(** * Week rollover *)
(* ================================================================== *)

Section SortFacts.

Context {A : Type} (cmp_le : A -> A -> bool).

(** What comes first after an insertion. *)
Lemma head_sort_insert (x : A) (l : list A) :
  head (sort_insert cmp_le x l)
  = Some match head l with
         | None => x
         | Some y => if cmp_le x y then x else y
         end.
Proof.
  destruct l as [|y l]; simpl; [reflexivity|].
  destruct (cmp_le x y); reflexivity.
Qed.

Lemma sort_insert_Permutation (x : A) (l : list A) :
  sort_insert cmp_le x l ≡ₚ x :: l.
Proof.
  induction l as [|y l IH]; simpl; [reflexivity|].
  destruct (cmp_le x y); [reflexivity|].
  rewrite IH. apply Permutation_swap.
Qed.

(** Sorting reorders, it neither drops nor invents an element. *)
Lemma sort_Permutation (l : list A) : sort cmp_le l ≡ₚ l.
Proof.
  induction l as [|x l IH]; simpl; [reflexivity|].
  rewrite sort_insert_Permutation, IH. reflexivity.
Qed.

End SortFacts.

Section RolloverFacts.

Variable isoDatePlus : string -> nat -> option string.

Lemma foldl_sum (B : Type) (f : B -> nat) (acc : nat) (l : list B) :
  foldl (fun sum x => (sum + f x)%nat) acc l
  = (acc + sum_list (f <$> l))%nat.
Proof.
  revert acc. induction l as [|x l IH]; intros acc; simpl.
  - lia.
  - rewrite IH. symmetry. apply Nat.add_assoc.
Qed.

Lemma totalPossibleOf_sum (gs : list Goal) :
  totalPossibleOf gs = possibleInWeek gs.
Proof.
  unfold totalPossibleOf, possibleInWeek.
  rewrite (foldl_sum _ (fun g => (length (tasks g) * NUM_DAYS)%nat)).
  reflexivity.
Qed.

Lemma totalCompletedOf_sum (gs : list Goal) :
  totalCompletedOf gs = completedInWeek gs.
Proof.
  unfold totalCompletedOf, completedInWeek.
  rewrite (foldl_sum _ (fun g =>
             foldl (fun inner d => (inner + length (completedTasks d))%nat)
                   0%nat (days g))).
  simpl. f_equal. apply Forall_fmap_ext_1, Forall_forall. intros g _.
  rewrite (foldl_sum _ (fun d => length (completedTasks d))). reflexivity.
Qed.

(** The head of the sorted pairs is the first maximum. *)
Lemma bestGoalOf_first_max (gs : list Goal) :
  match bestGoalOf gs with
  | None => gs = []
  | Some (g, pct) => pct = completionPct g /\ isFirstMax gs g
  end.
Proof.
  unfold bestGoalOf. induction gs as [|x gs IH]; [reflexivity|].
  cbn [fmap list_fmap sort foldr].
  change (foldr (sort_insert byPctDesc) []
            ((fun g => (g, completionPct g)) <$> gs))
    with (sort byPctDesc ((fun g => (g, completionPct g)) <$> gs)).
  rewrite head_sort_insert.
  destruct (head (sort byPctDesc ((fun g => (g, completionPct g)) <$> gs)))
    as [[b pb]|].
  - destruct IH as [-> (i & Hi & Hmax & Hbefore)].
    unfold byPctDesc. cbn [snd].
    destruct (Qle_bool (completionPct b) (completionPct x)) eqn:E.
    + apply Qle_bool_iff in E. split; [reflexivity|].
      exists 0%nat. split; [reflexivity|]. split.
      * intros g' Hg'. apply elem_of_cons in Hg' as [->|Hg'].
        -- apply Qle_refl.
        -- eapply Qle_trans; [apply Hmax, Hg' | exact E].
      * intros j g' Hj. lia.
    + assert (completionPct x < completionPct b) as Hlt.
      { apply Qnot_le_lt. intros Hle. apply Qle_bool_iff in Hle. congruence. }
      split; [reflexivity|].
      exists (S i). split; [exact Hi|]. split.
      * intros g' Hg'. apply elem_of_cons in Hg' as [->|Hg'].
        -- apply Qlt_le_weak, Hlt.
        -- apply Hmax, Hg'.
      * intros [|j] g' Hj Hg'.
        -- injection Hg' as <-. exact Hlt.
        -- apply (Hbefore j); [lia | exact Hg'].
  - subst gs. split; [reflexivity|].
    exists 0%nat. split; [reflexivity|]. split.
    + intros g' Hg'. apply list_elem_of_singleton in Hg' as ->. apply Qle_refl.
    + intros j g' Hj. lia.
Qed.

(** The first maximum is one goal only. *)
Lemma isFirstMax_unique (gs : list Goal) (g g' : Goal) :
  isFirstMax gs g -> isFirstMax gs g' -> g = g'.
Proof.
  intros (i & Hi & Hmax & Hbefore) (i' & Hi' & Hmax' & Hbefore').
  destruct (Nat.lt_total i i') as [Hlt|[->|Hlt]].
  - exfalso. pose proof (Hbefore' i g Hlt Hi) as H1.
    pose proof (Hmax g' (list_elem_of_lookup_2 _ _ _ Hi')) as H2.
    apply (Qlt_not_le _ _ H1 H2).
  - congruence.
  - exfalso. pose proof (Hbefore i' g' Hlt Hi') as H1.
    pose proof (Hmax' g (list_elem_of_lookup_2 _ _ _ Hi)) as H2.
    apply (Qlt_not_le _ _ H1 H2).
Qed.

(** C5. One rollover of a state whose week start is a date returns a
    state whose history is the old history followed by exactly one new
    summary, so that every earlier summary is where and what it was.
    The summary totals the completed tasks and the task slots over all
    goals and days and names the goal with the highest completion
    percentage, the first such goal in iteration order (none when there
    is no goal).  The new week starts at the rollover date and every
    goal keeps its id, label, section and tasks and gets seven fresh
    empty days.  A later toggle or note leaves the history alone. *)
Theorem handleStartNewWeek_rollover
    (today : string) (st : TrackerState) (endDate : string) :
  isoDatePlus (weekStartISO st) 6 = Some endDate ->
  exists (st' : TrackerState) (summary : WeekSummary),
    handleStartNewWeek isoDatePlus today st = Ok st'
    /\ history st' = history st ++ [summary]
    /\ (forall (i : nat) (w : WeekSummary),
        history st !! i = Some w -> history st' !! i = Some w)
    /\ summary_id summary = weekStartISO st
    /\ startISO summary = weekStartISO st
    /\ endISO summary = endDate
    /\ totalCompletedTasks summary = completedInWeek (goals st)
    /\ totalPossibleTasks summary = possibleInWeek (goals st)
    /\ match goals st with
       | [] => bestGoalId summary = None
               /\ bestGoalLabel summary = None
               /\ bestGoalCompletion summary = 0
       | _ :: _ => exists g : Goal,
               isFirstMax (goals st) g
               /\ bestGoalId summary = Some (goal_id g)
               /\ bestGoalLabel summary = Some (goal_label g)
               /\ bestGoalCompletion summary = completionPct g
       end
    /\ weekStartISO st' = today
    /\ length (goals st') = length (goals st)
    /\ (forall (i : nat) (g : Goal), goals st !! i = Some g ->
        exists g' : Goal,
          goals st' !! i = Some g'
          /\ sameGoalInfo g g'
          /\ days g' = replicate 7 {| completedTasks := [];
                                      note := Some ""%string |})
    /\ (forall goalId taskId d,
        history (handleToggleTask goalId taskId d st') = history st')
    /\ (forall goalId d newNote,
        history (handleUpdateNote goalId d newNote st') = history st').
Proof.
  intros Hend. unfold handleStartNewWeek.
  change (NUM_DAYS - 1)%nat with 6%nat. rewrite Hend.
  eexists. eexists. split; [reflexivity|].
  cbn [history weekStartISO goals summary_id startISO endISO
       totalCompletedTasks totalPossibleTasks bestGoalId bestGoalLabel
       bestGoalCompletion].
  split; [reflexivity|].
  split; [intros i w Hw; apply lookup_app_l_Some, Hw|].
  do 3 (split; [reflexivity|]).
  split; [apply totalCompletedOf_sum|].
  split; [apply totalPossibleOf_sum|].
  split.
  { pose proof (bestGoalOf_first_max (goals st)) as Hbest.
    destruct (bestGoalOf (goals st)) as [[b pb]|].
    - destruct Hbest as [-> Hfirst].
      destruct (goals st) as [|g0 gs] eqn:Hgs.
      + destruct Hfirst as (i & Hi & _). rewrite lookup_nil in Hi. discriminate.
      + exists b. repeat split; [exact Hfirst|..]; reflexivity.
    - rewrite Hbest. repeat split; reflexivity. }
  split; [reflexivity|].
  split; [apply length_fmap|].
  split; [|split; reflexivity].
  intros i g Hg. rewrite list_lookup_fmap, Hg.
  eexists. split; [reflexivity|]. split; [repeat split | reflexivity].
Qed.

Lemma weekInvariant_seed (today : string) :
  weekInvariant (defaultState today).
Proof.
  unfold weekInvariant, defaultState, seedGoals. cbn [goals].
  repeat constructor.
Qed.

Lemma weekInvariant_toggle st goalId taskId dIndex :
  weekInvariant st ->
  weekInvariant (handleToggleTask goalId taskId dIndex st).
Proof.
  unfold weekInvariant, handleToggleTask. cbn [goals]. intros Hinv.
  apply Forall_fmap. eapply Forall_impl; [exact Hinv|].
  intros g Hg. cbn. destruct (negb _); [exact Hg|].
  cbn [days]. rewrite length_imap. exact Hg.
Qed.

Lemma weekInvariant_note st goalId dIndex newNote :
  weekInvariant st ->
  weekInvariant (handleUpdateNote goalId dIndex newNote st).
Proof.
  unfold weekInvariant, handleUpdateNote. cbn [goals]. intros Hinv.
  apply Forall_fmap. eapply Forall_impl; [exact Hinv|].
  intros g Hg. cbn. destruct (negb _); [exact Hg|].
  cbn [days]. rewrite length_imap. exact Hg.
Qed.

Lemma weekInvariant_rollover today st st' :
  handleStartNewWeek isoDatePlus today st = Ok st' -> weekInvariant st'.
Proof.
  unfold handleStartNewWeek.
  destruct (isoDatePlus _ _); [|discriminate].
  intros [= <-]. unfold weekInvariant. cbn [goals].
  apply Forall_fmap, Forall_forall. intros g _. reflexivity.
Qed.

(** C9. Every goal holds exactly seven days at all times: the seed
    state does, a toggle and a note keep it so, a rollover makes it so,
    and hence every state reached from the seed state does. *)
Theorem days_length_always_seven :
  (forall today, weekInvariant (defaultState today))
  /\ (forall st goalId taskId dIndex,
      weekInvariant st ->
      weekInvariant (handleToggleTask goalId taskId dIndex st))
  /\ (forall st goalId dIndex newNote,
      weekInvariant st ->
      weekInvariant (handleUpdateNote goalId dIndex newNote st))
  /\ (forall st today st',
      weekInvariant st ->
      handleStartNewWeek isoDatePlus today st = Ok st' ->
      weekInvariant st')
  /\ (forall st, reachable isoDatePlus st -> weekInvariant st).
Proof.
  split; [apply weekInvariant_seed|].
  split; [intros; apply weekInvariant_toggle; assumption|].
  split; [intros; apply weekInvariant_note; assumption|].
  split; [intros st today st' _ H; eapply weekInvariant_rollover, H|].
  induction 1 as [today | g t d st _ IH | g d x st _ IH | today st st' _ _ H].
  - apply weekInvariant_seed.
  - apply weekInvariant_toggle, IH.
  - apply weekInvariant_note, IH.
  - eapply weekInvariant_rollover, H.
Qed.

End RolloverFacts.

Lemma handleStartNewWeek_rollover_witness :
  sampleCalendar (weekStartISO (defaultState "2025-01-06")) 6
  = Some "2025-01-12"%string
  /\ exists st' : TrackerState,
       handleStartNewWeek sampleCalendar "2025-01-13"
         (defaultState "2025-01-06") = Ok st'
       /\ length (history st') = 1%nat
       /\ weekStartISO st' = "2025-01-13"%string.
Proof.
  split; [reflexivity|].
  destruct (handleStartNewWeek_rollover sampleCalendar "2025-01-13"
              (defaultState "2025-01-06") "2025-01-12")
    as (st' & summary & Hrun & Hhist & _ & _ & _ & _ & _ & _ & _ & Hweek & _).
  - reflexivity.
  - exists st'. split; [exact Hrun|]. split; [|exact Hweek].
    rewrite Hhist. reflexivity.
Defined.

Lemma days_length_always_seven_witness :
  weekInvariant
    (handleUpdateNote "sdms" 0 "read the script"
       (handleToggleTask "sdms" "sdms-quiz" 0 (defaultState "2025-01-06"))).
Proof.
  apply (days_length_always_seven sampleCalendar).
  apply reach_note, reach_toggle, reach_seed.
Defined.

(* ================================================================== *)
(** * Worked examples of the progress helpers *)
(* ================================================================== *)

Section Scenarios.

Example allOnDay0_blocks : totalBlocks weekAllOnDay0 == 1.
Proof. vm_compute. reflexivity. Qed.

Example allOnDay0_pct : completionPct weekAllOnDay0 == 100 / 7.
Proof. vm_compute. reflexivity. Qed.

Example allOnDay0_streak : streakDays weekAllOnDay0 = Ok 0%nat.
Proof. reflexivity. Qed.

Example oneADay_blocks : totalBlocks weekOneADay == 1.4.
Proof. vm_compute. reflexivity. Qed.

Example oneADay_pct : completionPct weekOneADay == 20.
Proof. vm_compute. reflexivity. Qed.

Example oneADay_streak : streakDays weekOneADay = Ok 7%nat.
Proof. reflexivity. Qed.

(** A week that is too short makes the streak loop read a missing day. *)
Example short_week_streak :
  streakDays (mkGoal "G" "G" Studies [] [dayWith ["a"%string]])
  = Throw TypeError.
Proof. reflexivity. Qed.

(** Rolling over the untouched seed week: all goals tie at 0 percent
    and the first of them is named best. *)
Example rollover_tie_first_wins :
  match handleStartNewWeek sampleCalendar "2025-01-13"
          (defaultState "2025-01-06") with
  | Ok st' => (fun w => (bestGoalId w, totalPossibleTasks w))
              <$> last (history st')
  | Throw _ => None
  end = Some (Some "intro-llm"%string, 175%nat).
Proof. vm_compute. reflexivity. Qed.

(** A week start that is no date: the rollover throws and no state is
    set. *)
Example rollover_invalid_week_start :
  handleStartNewWeek sampleCalendar "2025-01-13" (defaultState "someday")
  = Throw RangeError.
Proof. reflexivity. Qed.

End Scenarios.

(* ================================================================== *)
(** * Writing a document and parsing it again *)
(* ================================================================== *)

Section JsonFacts.

(** Induction over documents that reaches into arrays and objects. *)
Lemma json_nested_ind (P : json -> Prop) :
  P JNull ->
  (forall b, P (JBool b)) ->
  (forall q, P (JNum q)) ->
  (forall s, P (JStr s)) ->
  (forall l, Forall P l -> P (JArr l)) ->
  (forall fs, Forall (fun m => P m.2) fs -> P (JObj fs)) ->
  forall v, P v.
Proof.
  intros Hnull Hbool Hnum Hstr Harr Hobj.
  fix IH 1. intros [ |b|q|s|l|fs].
  - exact Hnull.
  - apply Hbool.
  - apply Hnum.
  - apply Hstr.
  - apply Harr. induction l as [|x l IHl]; constructor; [apply IH | exact IHl].
  - apply Hobj. induction fs as [|[k x] fs IHfs]; constructor;
      [apply IH | exact IHfs].
Qed.

Lemma JSON_write_nonempty (v : json) : JSON_write v <> [].
Proof. destruct v as [ |[|]|q|s|[|x l]|[|[k x] fs]]; discriminate. Qed.

(** Right after an opening bracket a written value starts a value. *)
Lemma parse_first_element (v : json) (stack : list frame) (rest : text) :
  foldl parseStep (MArrStart stack) (JSON_write v ++ rest)
  = foldl parseStep (MValue (FArr [] :: stack)) (JSON_write v ++ rest).
Proof. destruct v as [ |[|]|q|s|[|x l]|[|[k x] fs]]; reflexivity. Qed.

(** The elements after the first, each behind its comma, up to the
    closing bracket. *)
Lemma parse_more_elements (l : list json) (stack : list frame) (rest : text) :
  Forall (fun v => forall stack rest,
            foldl parseStep (MValue stack) (JSON_write v ++ rest)
            = foldl parseStep (deliver v stack) rest) l ->
  forall done : list json,
    foldl parseStep (MArrNext done stack)
      (mjoin ((fun y => TComma :: JSON_write y) <$> l) ++ TRBracket :: rest)
    = foldl parseStep (deliver (JArr (reverse done ++ l)) stack) rest.
Proof.
  induction 1 as [|y l Hy _ IH]; intros done.
  - cbn. rewrite app_nil_r. reflexivity.
  - cbn [fmap list_fmap mjoin list_join].
    change (list_join _ ?x) with (mjoin x).
    rewrite <- app_assoc. cbn [app foldl parseStep].
    rewrite Hy. cbn [deliver]. rewrite IH.
    rewrite reverse_cons, <- app_assoc. reflexivity.
Qed.

Lemma parse_more_members (fs : list (string * json)) (stack : list frame)
    (rest : text) :
  Forall (fun m => forall stack rest,
            foldl parseStep (MValue stack) (JSON_write m.2 ++ rest)
            = foldl parseStep (deliver m.2 stack) rest) fs ->
  forall done : list (string * json),
    foldl parseStep (MObjNext done stack)
      (mjoin ((fun m => TComma :: TStr m.1 :: TColon :: JSON_write m.2)
              <$> fs) ++ TRBrace :: rest)
    = foldl parseStep (deliver (JObj (reverse done ++ fs)) stack) rest.
Proof.
  induction 1 as [|[k y] fs Hy _ IH]; intros done.
  - cbn. rewrite app_nil_r. reflexivity.
  - cbn [fmap list_fmap mjoin list_join fst snd].
    change (list_join _ ?x) with (mjoin x).
    rewrite <- app_assoc. cbn [app foldl parseStep].
    cbn [snd] in Hy. rewrite Hy. cbn [deliver].
    rewrite IH. rewrite reverse_cons, <- app_assoc. reflexivity.
Qed.

(** Reading a written value where a value is due delivers that value
    and goes on with the rest of the text. *)
Lemma parse_written_value (v : json) :
  forall (stack : list frame) (rest : text),
    foldl parseStep (MValue stack) (JSON_write v ++ rest)
    = foldl parseStep (deliver v stack) rest.
Proof.
  induction v as [ |b|q|s|l IHl|fs IHfs] using json_nested_ind;
    intros stack rest.
  - reflexivity.
  - destruct b; reflexivity.
  - reflexivity.
  - reflexivity.
  - destruct l as [|x l]; [reflexivity|].
    apply Forall_cons in IHl as [Hx Hl].
    cbn [JSON_write]. cbn [app foldl parseStep startValue].
    rewrite <- app_assoc, parse_first_element, Hx. cbn [deliver].
    rewrite <- app_assoc. cbn [app].
    rewrite (parse_more_elements l stack rest Hl [x]). reflexivity.
  - destruct fs as [|[k x] fs]; [reflexivity|].
    apply Forall_cons in IHfs as [Hx Hfs]. cbn [snd] in Hx.
    cbn [JSON_write]. cbn [app foldl parseStep startValue].
    rewrite <- app_assoc, Hx. cbn [deliver].
    rewrite <- app_assoc. cbn [app].
    rewrite (parse_more_members fs stack rest Hfs [(k, x)]). reflexivity.
Qed.

(** Parsing what was written returns the document. *)
Lemma JSON_parse_write (v : json) : JSON_parse (JSON_write v) = Ok v.
Proof.
  unfold JSON_parse. rewrite <- (app_nil_r (JSON_write v)).
  rewrite parse_written_value. reflexivity.
Qed.

(** A few texts [JSON.parse] accepts and rejects. *)
Example parse_with_spaces :
  JSON_parse [TSpace; TLBrace; TStr "days"; TColon; TSpace; TLBracket;
              TNum 1; TComma; TNull; TRBracket; TRBrace; TSpace]
  = Ok (JObj [("days"%string, JArr [JNum 1; JNull])]).
Proof. reflexivity. Qed.

Example parse_empty_text : JSON_parse [] = Throw SyntaxError.
Proof. reflexivity. Qed.

Example parse_trailing_comma :
  JSON_parse [TLBracket; TNum 1; TComma; TRBracket] = Throw SyntaxError.
Proof. reflexivity. Qed.

Example parse_two_values : JSON_parse [TNull; TNull] = Throw SyntaxError.
Proof. reflexivity. Qed.

Example parse_unclosed_object :
  JSON_parse [TLBrace; TStr "goals"; TColon; TLBracket; TRBracket]
  = Throw SyntaxError.
Proof. reflexivity. Qed.

End JsonFacts.

(* ================================================================== *)
(** * Storage: loading and saving *)
(* ================================================================== *)

Section Persistence.

Variable isoDatePlus : string -> nat -> option string.

#[local] Instance JStr_inj : Inj (=) (=) JStr.
Proof. intros x y [= ->]. reflexivity. Qed.

Lemma json_of_nat_inj (n m : nat) : json_of_nat n = json_of_nat m -> n = m.
Proof. unfold json_of_nat, inject_Z. intros [= H]. lia. Qed.

Lemma json_of_nullable_inj (o o' : option string) :
  json_of_nullable o = json_of_nullable o' -> o = o'.
Proof. destruct o, o'; simpl; congruence. Qed.

#[local] Instance json_of_task_inj : Inj (=) (=) json_of_task.
Proof. intros [i l] [i' l']. unfold json_of_task. simpl. congruence. Qed.

#[local] Instance json_of_day_inj : Inj (=) (=) json_of_day.
Proof.
  intros [c n] [c' n']. unfold json_of_day. cbn [completedTasks note].
  intros [= Hc Hn]. apply (inj (fmap JStr)) in Hc. subst c'.
  destruct n, n'; simplify_eq; reflexivity.
Qed.

#[local] Instance json_of_goal_inj : Inj (=) (=) json_of_goal.
Proof.
  intros [i l s t d] [i' l' s' t' d']. unfold json_of_goal.
  cbn [goal_id goal_label goal_section tasks days].
  intros [= -> -> Hs Ht Hd].
  apply (inj (fmap json_of_task)) in Ht. apply (inj (fmap json_of_day)) in Hd.
  subst. destruct s, s'; simplify_eq; reflexivity.
Qed.

#[local] Instance json_of_summary_inj : Inj (=) (=) json_of_summary.
Proof.
  intros [i s e c p bi bl bc] [i' s' e' c' p' bi' bl' bc'].
  unfold json_of_summary. simpl.
  intros [= -> -> -> Hc Hp Hbi Hbl ->].
  apply Nat2Z.inj in Hc, Hp. apply json_of_nullable_inj in Hbi, Hbl.
  subst. reflexivity.
Qed.

(** Two states with the same document are the same state. *)
Lemma json_of_state_inj (st st' : TrackerState) :
  json_of_state st = json_of_state st' -> st = st'.
Proof.
  destruct st as [w g h], st' as [w' g' h']. unfold json_of_state.
  cbn [weekStartISO goals history]. intros [= -> Hg Hh].
  apply (inj (fmap json_of_goal)) in Hg.
  apply (inj (fmap json_of_summary)) in Hh. subst. reflexivity.
Qed.

Lemma reachable_notesPresent (st : TrackerState) :
  reachable isoDatePlus st -> notesPresent st.
Proof.
  unfold notesPresent.
  induction 1 as [today | gid t d st _ IH | gid d x st _ IH
                 | today st st' _ _ H].
  - cbn [defaultState goals]. unfold seedGoals.
    repeat (apply Forall_cons; split;
            [cbn [days]; repeat constructor; eexists; reflexivity|]).
    apply Forall_nil_2.
  - unfold handleToggleTask. cbn [goals]. apply Forall_fmap.
    eapply Forall_impl; [exact IH|]. intros g Hg. cbn.
    destruct (negb _); [exact Hg|]. cbn [days].
    apply Forall_lookup. intros j day Hday.
    rewrite list_lookup_imap in Hday.
    destruct (days g !! j) as [day0|] eqn:E; [|discriminate].
    pose proof (Forall_lookup_1 _ _ _ _ Hg E) as Hn.
    cbn in Hday. destruct (negb _); injection Hday as <-; exact Hn.
  - unfold handleUpdateNote. cbn [goals]. apply Forall_fmap.
    eapply Forall_impl; [exact IH|]. intros g Hg. cbn.
    destruct (negb _); [exact Hg|]. cbn [days].
    apply Forall_lookup. intros j day Hday.
    rewrite list_lookup_imap in Hday.
    destruct (days g !! j) as [day0|] eqn:E; [|discriminate].
    pose proof (Forall_lookup_1 _ _ _ _ Hg E) as Hn.
    cbn in Hday. destruct (_ =? _)%nat; injection Hday as <-;
      [eexists; reflexivity | exact Hn].
  - unfold handleStartNewWeek in H.
    destruct (isoDatePlus _ _); [|discriminate].
    injection H as <-. cbn [goals]. apply Forall_fmap, Forall_forall.
    intros g _. cbn. repeat constructor; eexists; reflexivity.
Qed.

(** What [loadState] reads right after a [saveState] that did not
    throw. *)
Lemma load_after_save (st : TrackerState) (today : string)
    (window : option Storage) (saved : Storage) :
  saveState st window = Ok saved ->
  loadState today (Some saved) = Ok (json_of_state st).
Proof.
  unfold saveState, setItem. destruct window as [s|]; [|discriminate].
  destruct (accessible s) eqn:Ha; [|discriminate].
  destruct (has_room s) eqn:Hr; [|discriminate].
  cbn [negb]. intros [= <-].
  unfold loadState, getItem. cbn [accessible items bind].
  rewrite lookup_insert_eq. unfold JSON_stringify.
  pose proof (JSON_write_nonempty (json_of_state st)) as Hne.
  destruct (JSON_write (json_of_state st)) as [|t ts] eqn:E; [congruence|].
  rewrite <- E, JSON_parse_write. reflexivity.
Qed.

(** C6. Saving a state reached from the seed state and then loading
    returns the document of that very state, which is the document of
    no other state; on the way no day lost a note, since every day of a
    reached state carries one. *)
Theorem save_then_load_round_trip (st : TrackerState) (today : string)
    (window : option Storage) (saved : Storage) :
  reachable isoDatePlus st ->
  saveState st window = Ok saved ->
  loadState today (Some saved) = Ok (json_of_state st)
  /\ (forall st2, json_of_state st2 = json_of_state st -> st2 = st)
  /\ notesPresent st.
Proof.
  intros Hreach Hsave.
  split; [eapply load_after_save, Hsave|].
  split; [intros st2; apply json_of_state_inj|].
  apply reachable_notesPresent, Hreach.
Qed.

(** C7. [loadState] never throws: it always returns a value.  It
    returns the seed default state when the key is missing, when the
    stored text is one that [JSON.parse] rejects, when the storage
    cannot be touched and when there is no window. *)
Theorem loadState_never_throws (today : string) (window : option Storage) :
  (exists v : json, loadState today window = Ok v)
  /\ (forall s, window = Some s -> getItem s STORAGE_KEY = Ok None ->
      loadState today window = Ok (json_of_state (defaultState today)))
  /\ (forall s raw e, window = Some s ->
      getItem s STORAGE_KEY = Ok (Some raw) -> JSON_parse raw = Throw e ->
      loadState today window = Ok (json_of_state (defaultState today)))
  /\ (forall s e, window = Some s -> getItem s STORAGE_KEY = Throw e ->
      loadState today window = Ok (json_of_state (defaultState today)))
  /\ (window = None ->
      loadState today window = Ok (json_of_state (defaultState today))).
Proof.
  split; [|split; [|split; [|split]]].
  - unfold loadState. destruct window as [s|]; [|eexists; reflexivity].
    destruct (getItem s STORAGE_KEY) as [[[|t raw]|]|e]; cbn;
      try (eexists; reflexivity).
    destruct (JSON_parse (t :: raw)); eexists; reflexivity.
  - intros s -> H. unfold loadState. rewrite H. reflexivity.
  - intros s raw e -> H Hp. unfold loadState. rewrite H. cbn [bind].
    destruct raw as [|t raw]; [reflexivity|]. rewrite Hp. reflexivity.
  - intros s e -> H. unfold loadState. rewrite H. reflexivity.
  - intros ->. reflexivity.
Qed.

Lemma loadState_never_throws_witness :
  loadState "2025-01-06" (Some brokenStorage)
  = Ok (json_of_state (defaultState "2025-01-06")).
Proof.
  apply (loadState_never_throws "2025-01-06" (Some brokenStorage))
    with (s := brokenStorage)
         (raw := [TLBrace; TStr "weekStartISO"; TColon]) (e := SyntaxError);
    reflexivity.
Defined.

End Persistence.

Lemma save_then_load_round_trip_witness :
  loadState "2025-01-07" (Some
    {| accessible := true; has_room := true;
       items := <[STORAGE_KEY :=
                    JSON_stringify
                      (handleToggleTask "pgm" "pgm-slides" 1
                         (defaultState "2025-01-06"))]> ∅ |})
  = Ok (json_of_state
          (handleToggleTask "pgm" "pgm-slides" 1 (defaultState "2025-01-06"))).
Proof.
  apply (save_then_load_round_trip sampleCalendar
           (handleToggleTask "pgm" "pgm-slides" 1 (defaultState "2025-01-06"))
           "2025-01-07" (Some freshStorage)).
  - apply reach_toggle, reach_seed.
  - reflexivity.
Defined.

(* ================================================================== *)
(** * More on the check-in updaters *)
(* ================================================================== *)

Section MoreCheckin.

Variable isoDatePlus : string -> nat -> option string.

(** The progress helpers read the days through the lengths of their
    task lists only. *)
Lemma blocksSum_same_counts (g g' : Goal) :
  tasks g' = tasks g ->
  Forall2 (fun d d' =>
             length (completedTasks d') = length (completedTasks d))
          (days g) (days g') ->
  blocksSum g' = blocksSum g.
Proof.
  unfold blocksSum. intros -> H. generalize (len (tasks g)) as T.
  generalize 0 as acc. intros acc T. revert acc.
  induction H as [|d d' ds ds' Hd _ IH]; intros acc; simpl.
  - reflexivity.
  - assert (len (completedTasks d') = len (completedTasks d)) as ->
      by (unfold len; congruence).
    apply IH.
Qed.

Lemma completionPct_same_counts (g g' : Goal) :
  tasks g' = tasks g ->
  Forall2 (fun d d' =>
             length (completedTasks d') = length (completedTasks d))
          (days g) (days g') ->
  completionPct g' = completionPct g.
Proof.
  intros Ht Hd. unfold completionPct, totalBlocks.
  rewrite (blocksSum_same_counts g g' Ht Hd). reflexivity.
Qed.

(** X1. [handleUpdateNote] keeps the week start, the history and the
    number of goals; a goal with another id is returned as it is; in a
    goal named [goalId] the id, label, section and tasks stay, every day
    keeps its completed tasks, every day but [dIndex] stays as it is and
    day [dIndex] gets the new note, the empty string included.  The
    completion percentage of no goal changes, and when no goal is named
    [goalId] the state is returned unchanged. *)
Theorem handleUpdateNote_frame
    (st : TrackerState) (goalId : string) (dIndex : nat) (newNote : string) :
  let st' := handleUpdateNote goalId dIndex newNote st in
  weekStartISO st' = weekStartISO st
  /\ history st' = history st
  /\ length (goals st') = length (goals st)
  /\ (forall (i : nat) (g : Goal), goals st !! i = Some g ->
      exists g' : Goal,
        goals st' !! i = Some g'
        /\ sameGoalInfo g g'
        /\ length (days g') = length (days g)
        /\ completionPct g' = completionPct g
        /\ (goal_id g <> goalId -> g' = g)
        /\ (goal_id g = goalId ->
            forall (j : nat) (day : DayState), days g !! j = Some day ->
            exists day' : DayState,
              days g' !! j = Some day'
              /\ completedTasks day' = completedTasks day
              /\ (j <> dIndex -> day' = day)
              /\ (j = dIndex -> note day' = Some newNote)))
  /\ ((forall g, g ∈ goals st -> goal_id g <> goalId) -> st' = st).
Proof.
  cbn zeta. unfold handleUpdateNote. cbn [weekStartISO history goals].
  split; [reflexivity|]. split; [reflexivity|].
  split; [apply length_fmap|]. split.
  - intros i g Hg. rewrite list_lookup_fmap, Hg.
    cbn [fmap option_fmap option_map].
    rewrite goal_id_eqb. case_bool_decide as Hid.
    + exists g. repeat split; auto. contradiction.
    + eexists. split; [reflexivity|]. cbn [days goal_id].
      split; [repeat split|]. split; [apply length_imap|].
      split.
      { apply completionPct_same_counts; [reflexivity|]. cbn [days].
        apply Forall2_lookup. intros j. rewrite list_lookup_imap.
        destruct (days g !! j) as [day|]; cbn; constructor.
        destruct (j =? dIndex)%nat; reflexivity. }
      split; [contradiction|].
      intros _ j day Hday. rewrite list_lookup_imap, Hday.
      cbn [fmap option_fmap option_map].
      destruct (Nat.eqb_spec j dIndex) as [->|Hj].
      * eexists. split; [reflexivity|].
        split; [reflexivity|]. split; [contradiction|]. reflexivity.
      * exists day. repeat split; auto. contradiction.
  - intros Hno. destruct st as [w gs h].
    cbn [weekStartISO history goals] in *.
    f_equal. rewrite <- (list_fmap_id gs) at 2.
    apply Forall_fmap_ext_1, Forall_forall. intros g Hg.
    rewrite goal_id_eqb, bool_decide_eq_true_2; [reflexivity|].
    apply Hno, Hg.
Qed.

(** ** No task twice *)

Lemma noRepeats_seed (today : string) : noRepeats (defaultState today).
Proof.
  unfold noRepeats, defaultState, seedGoals. cbn [goals].
  repeat (apply Forall_cons; split;
          [cbn [days]; repeat constructor|]).
  apply Forall_nil_2.
Qed.

Lemma noRepeats_toggle st goalId taskId dIndex :
  noRepeats st -> noRepeats (handleToggleTask goalId taskId dIndex st).
Proof.
  unfold noRepeats, handleToggleTask. cbn [goals]. intros Hst.
  apply Forall_fmap. eapply Forall_impl; [exact Hst|].
  intros g Hg. cbn. destruct (negb _); [exact Hg|]. cbn [days].
  apply Forall_lookup. intros j day Hday.
  rewrite list_lookup_imap in Hday.
  destruct (days g !! j) as [day0|] eqn:E; [|discriminate].
  pose proof (Forall_lookup_1 _ _ _ _ Hg E) as Hn.
  cbn in Hday. destruct (negb _); injection Hday as <-;
    [exact Hn | apply toggleInDay_NoDup].
Qed.

Lemma noRepeats_note st goalId dIndex newNote :
  noRepeats st -> noRepeats (handleUpdateNote goalId dIndex newNote st).
Proof.
  unfold noRepeats, handleUpdateNote. cbn [goals]. intros Hst.
  apply Forall_fmap. eapply Forall_impl; [exact Hst|].
  intros g Hg. cbn. destruct (negb _); [exact Hg|]. cbn [days].
  apply Forall_lookup. intros j day Hday.
  rewrite list_lookup_imap in Hday.
  destruct (days g !! j) as [day0|] eqn:E; [|discriminate].
  pose proof (Forall_lookup_1 _ _ _ _ Hg E) as Hn.
  cbn in Hday. destruct (_ =? _)%nat; injection Hday as <-; exact Hn.
Qed.

Lemma noRepeats_rollover today st st' :
  handleStartNewWeek isoDatePlus today st = Ok st' -> noRepeats st'.
Proof.
  unfold handleStartNewWeek.
  destruct (isoDatePlus _ _); [|discriminate].
  intros [= <-]. unfold noRepeats. cbn [goals].
  apply Forall_fmap, Forall_forall. intros g _. cbn.
  repeat constructor.
Qed.

(** X2. No day of a state reached from the seed state lists a completed
    task twice, so the length of the list is the number of distinct
    tasks done. *)
Theorem reachable_noRepeats (st : TrackerState) :
  reachable isoDatePlus st -> noRepeats st.
Proof.
  induction 1 as [today | g t d st _ IH | g d x st _ IH | today st st' _ _ H].
  - apply noRepeats_seed.
  - apply noRepeats_toggle, IH.
  - apply noRepeats_note, IH.
  - eapply noRepeats_rollover, H.
Qed.

End MoreCheckin.

Lemma handleUpdateNote_frame_witness :
  history (handleUpdateNote "guitar" 2 "" (defaultState "2025-01-06")) = []
  /\ handleUpdateNote "piano" 2 "scales" (defaultState "2025-01-06")
     = defaultState "2025-01-06".
Proof.
  split.
  - apply (handleUpdateNote_frame (defaultState "2025-01-06") "guitar" 2 "").
  - apply (handleUpdateNote_frame (defaultState "2025-01-06")
             "piano" 2 "scales").
    intros g Hg. cbn [defaultState goals] in Hg. unfold seedGoals in Hg.
    repeat (apply elem_of_cons in Hg as [->|Hg]; [discriminate|]).
    apply elem_of_nil in Hg. contradiction.
Defined.

Lemma reachable_noRepeats_witness :
  noRepeats
    (handleToggleTask "sdms" "sdms-quiz" 0
       (handleToggleTask "sdms" "sdms-quiz" 0 (defaultState "2025-01-06"))).
Proof.
  apply (reachable_noRepeats sampleCalendar).
  apply reach_toggle, reach_toggle, reach_seed.
Defined.

(* ================================================================== *)
(** * Toggling twice *)
(* ================================================================== *)

Section ToggleTwice.

Lemma Set_from_NoDup (seen l : list string) :
  NoDup (seen ++ l) -> Set_from seen l = seen ++ l.
Proof.
  revert seen. induction l as [|x l IH]; intros seen Hnd; simpl.
  - rewrite app_nil_r. reflexivity.
  - assert (x ∉ seen) as Hx.
    { apply NoDup_app in Hnd as (_ & Hdis & _). intros Hin.
      apply (Hdis x Hin). left. }
    rewrite bool_decide_eq_false_2 by assumption.
    rewrite IH; rewrite <- app_assoc; [reflexivity | exact Hnd].
Qed.

Lemma new_Set_NoDup (l : list string) : NoDup l -> new_Set l = l.
Proof. intros Hnd. unfold new_Set. rewrite Set_from_NoDup; auto. Qed.

Lemma filter_other_all (t : string) (l : list string) :
  t ∉ l -> filter (fun y => y <> t) l = l.
Proof.
  induction l as [|x l IH]; intros Ht; [reflexivity|].
  apply not_elem_of_cons in Ht as [Hx Hl].
  rewrite filter_cons_True by congruence. rewrite IH by assumption.
  reflexivity.
Qed.

(** Toggling the same task of a day twice gives back the same note and
    the same completed tasks, the very same list when the task was not
    completed before. *)
Lemma toggleInDay_twice (t : string) (day : DayState) :
  NoDup (completedTasks day) ->
  sameDay day (toggleInDay t (toggleInDay t day))
  /\ (t ∉ completedTasks day -> toggleInDay t (toggleInDay t day) = day).
Proof.
  destruct day as [l n]. cbn [completedTasks]. intros Hnd.
  unfold toggleInDay, Array_from, Set_add, Set_delete, Set_has, sameDay.
  cbn [completedTasks note]. rewrite (new_Set_NoDup l Hnd).
  destruct (decide (t ∈ l)) as [Hin|Hin].
  - assert (NoDup (filter (fun y => y <> t) l)) as Hnd1
      by (apply NoDup_filter, Hnd).
    assert (t ∉ filter (fun y => y <> t) l) as Hout
      by (rewrite list_elem_of_filter; tauto).
    rewrite !(bool_decide_eq_true_2 (t ∈ l)) by assumption.
    rewrite (new_Set_NoDup _ Hnd1).
    rewrite !(bool_decide_eq_false_2 (t ∈ filter _ l)) by assumption.
    split; [|tauto]. split; [reflexivity|].
    apply NoDup_Permutation.
    + apply NoDup_app. split; [assumption|]. split.
      * intros x Hx. rewrite list_elem_of_singleton. intros ->. tauto.
      * apply NoDup_singleton.
    + assumption.
    + intros x. rewrite elem_of_app, list_elem_of_filter,
        list_elem_of_singleton.
      destruct (decide (x = t)) as [->|Hne]; tauto.
  - assert (NoDup (l ++ [t])) as Hnd1.
    { apply NoDup_app. split; [assumption|]. split.
      - intros x Hx. rewrite list_elem_of_singleton. intros ->. tauto.
      - apply NoDup_singleton. }
    rewrite !(bool_decide_eq_false_2 (t ∈ l)) by assumption.
    rewrite (new_Set_NoDup _ Hnd1).
    rewrite (bool_decide_eq_true_2 (t ∈ l ++ [t]))
      by (rewrite elem_of_app, list_elem_of_singleton; tauto).
    rewrite filter_app, (filter_other_all t l Hin).
    rewrite filter_cons_False by tauto. rewrite filter_nil, app_nil_r.
    repeat split; reflexivity.
Qed.

(** X3. On a state that lists no task twice, toggling the same task of
    the same goal and day twice in a row undoes itself: week start,
    history and every goal's id, label, section and tasks stay, every
    day has its note and the same completed tasks (in some order), and
    the completion percentage of every goal is what it was. *)
Theorem handleToggleTask_twice
    (st : TrackerState) (goalId taskId : string) (dIndex : nat) :
  noRepeats st ->
  let st2 := handleToggleTask goalId taskId dIndex
               (handleToggleTask goalId taskId dIndex st) in
  weekStartISO st2 = weekStartISO st
  /\ history st2 = history st
  /\ length (goals st2) = length (goals st)
  /\ (forall (i : nat) (g : Goal), goals st !! i = Some g ->
      exists g2 : Goal,
        goals st2 !! i = Some g2
        /\ sameGoalInfo g g2
        /\ Forall2 sameDay (days g) (days g2)
        /\ completionPct g2 = completionPct g).
Proof.
  intros Hnr. cbn zeta. unfold handleToggleTask.
  cbn [weekStartISO history goals].
  split; [reflexivity|]. split; [reflexivity|].
  split; [rewrite !length_fmap; reflexivity|].
  intros i g Hg. rewrite !list_lookup_fmap, Hg.
  cbn [fmap option_fmap option_map].
  pose proof (Forall_lookup_1 _ _ _ _ Hnr Hg) as Hdays. cbn beta in Hdays.
  rewrite (goal_id_eqb g). case_bool_decide as Hid.
  - rewrite (goal_id_eqb g), bool_decide_eq_true_2 by assumption.
    exists g. split; [reflexivity|]. split; [repeat split|].
    split; [|reflexivity].
    apply Forall_Forall2_diag, Forall_forall. intros d _.
    split; reflexivity.
  - rewrite goal_id_eqb. cbn [goal_id].
    rewrite bool_decide_eq_false_2 by (intros H; exact (H Hid)).
    eexists. split; [reflexivity|].
    cbn [days goal_id goal_label goal_section tasks].
    split; [repeat split|].
    assert (Forall2 sameDay (days g)
              (imap (fun idx day =>
                       if negb (idx =? dIndex)%nat then day
                       else toggleInDay taskId day)
                 (imap (fun idx day =>
                          if negb (idx =? dIndex)%nat then day
                          else toggleInDay taskId day) (days g)))) as Hsame.
    { apply Forall2_lookup. intros j. rewrite !list_lookup_imap.
      destruct (days g !! j) as [day|] eqn:E; cbn; constructor.
      destruct (negb (j =? dIndex)%nat); [split; reflexivity|].
      apply toggleInDay_twice. apply (Forall_lookup_1 _ _ _ _ Hdays E). }
    split; [exact Hsame|].
    apply completionPct_same_counts; [reflexivity|]. cbn [days].
    eapply Forall2_impl; [exact Hsame|].
    intros d d' [_ Hp]. apply Permutation_length, Hp.
Qed.

Lemma handleToggleTask_twice_witness :
  noRepeats (defaultState "2025-01-06")
  /\ history (handleToggleTask "pgm" "pgm-slides" 1
                (handleToggleTask "pgm" "pgm-slides" 1
                   (defaultState "2025-01-06"))) = [].
Proof.
  split; [apply noRepeats_seed|].
  apply (handleToggleTask_twice (defaultState "2025-01-06")
           "pgm" "pgm-slides" 1).
  apply noRepeats_seed.
Defined.

End ToggleTwice.

(* ================================================================== *)
(** * Dormancy, full weeks and empty weeks *)
(* ================================================================== *)

Section Extremes.

(** X4. [isDormant] looks at days 5 and 6 only: when both exist it says
    whether both are empty; a goal with fewer than seven days makes it
    throw on the read of day 6; and a dormant goal has no streak. *)
Theorem isDormant_last_two_days (g : Goal) :
  (forall d5 d6, days g !! 5%nat = Some d5 -> days g !! 6%nat = Some d6 ->
   isDormant g = Ok (negb (dayActive d6) && negb (dayActive d5)))
  /\ ((length (days g) < 7)%nat -> isDormant g = Throw TypeError)
  /\ (isDormant g = Ok true -> streakDays g = Ok 0%nat).
Proof.
  unfold isDormant, streakDays, NUM_DAYS.
  cbn [dormantLoop streakLoop].
  change (Z.of_nat 6 >=? Z.of_nat 7 - 2)%Z with true.
  change (Z.of_nat 5 >=? Z.of_nat 7 - 2)%Z with true.
  change (Z.of_nat 4 >=? Z.of_nat 7 - 2)%Z with false.
  cbn iota. split; [|split].
  - intros d5 d6 H5 H6. rewrite H6, H5, !dayActive_gtb.
    destruct (dayActive d6), (dayActive d5); reflexivity.
  - intros Hlen. rewrite (lookup_ge_None_2 (days g) 6) by lia. reflexivity.
  - destruct (days g !! 6%nat) as [d6|]; [|discriminate].
    rewrite !dayActive_gtb. destruct (dayActive d6); [discriminate|].
    reflexivity.
Qed.

Lemma stepForDay_one_iff (done : list string) (ts : list TaskTemplate) :
  stepForDay (len done) (len ts) == 1
  <-> (0 < length done)%nat /\ (length ts <= length done)%nat.
Proof.
  unfold stepForDay, len.
  repeat match goal with
         | |- context [(?a <=? ?b)%Z] => destruct (Z.leb_spec a b)
         | |- context [(?a >=? ?b)%Z] =>
             rewrite (Z.geb_leb a b); destruct (Z.leb_spec b a)
         end;
    (split; [intros E; try discriminate E; lia
            | intros [? ?]; try reflexivity; lia]).
Qed.

Lemma stepForDay_zero_iff (done : list string) (T : Z) :
  stepForDay (len done) T == 0 <-> done = [].
Proof.
  unfold stepForDay, len. destruct done as [|x l].
  - split; reflexivity.
  - cbn [length]. destruct (Z.leb_spec (Z.of_nat (S (length l))) 0); [lia|].
    split; [|discriminate].
    repeat match goal with
           | |- context [if ?b then _ else _] => destruct b
           end; discriminate.
Qed.

Lemma stepOfDay_le_1 (g : Goal) (i : nat) : stepOfDay g i <= 1.
Proof.
  unfold stepOfDay. destruct (days g !! i); [apply stepForDay_range|].
  discriminate.
Qed.

(** X5. A goal with seven days stands at exactly 100 percent if and
    only if on each of the seven days something was done and at least as
    many tasks are completed as the goal lists. *)
Theorem completionPct_100_iff (g : Goal) :
  length (days g) = 7%nat ->
  completionPct g == 100 <-> Forall (dayFull g) (days g).
Proof.
  intros Hlen.
  pose proof (totalBlocks_week g Hlen) as Hweek.
  assert (completionPct g == 100 <-> weekSteps g == 7) as ->.
  { unfold completionPct. change (inject_Z (Z.of_nat NUM_DAYS)) with 7.
    rewrite Hweek. unfold Qdiv. change (/ 7) with (1 # 7).
    split; intros H; lra. }
  pose proof (stepOfDay_le_1 g 0) as B0. pose proof (stepOfDay_le_1 g 1) as B1.
  pose proof (stepOfDay_le_1 g 2) as B2. pose proof (stepOfDay_le_1 g 3) as B3.
  pose proof (stepOfDay_le_1 g 4) as B4. pose proof (stepOfDay_le_1 g 5) as B5.
  pose proof (stepOfDay_le_1 g 6) as B6.
  assert (weekSteps g == 7
          <-> stepOfDay g 0 == 1 /\ stepOfDay g 1 == 1 /\ stepOfDay g 2 == 1
              /\ stepOfDay g 3 == 1 /\ stepOfDay g 4 == 1
              /\ stepOfDay g 5 == 1 /\ stepOfDay g 6 == 1) as ->.
  { unfold weekSteps. split.
    - intros H. repeat split; apply Qle_antisym; lra.
    - intros (E0 & E1 & E2 & E3 & E4 & E5 & E6). lra. }
  unfold stepOfDay, dayFull.
  destruct (days g) as [|d0 [|d1 [|d2 [|d3 [|d4 [|d5 [|d6 [|d7 ds]]]]]]]];
    try discriminate.
  cbn [lookup list_lookup]. rewrite !stepForDay_one_iff.
  rewrite !Forall_cons, Forall_nil. tauto.
Qed.

(** The running sum is at least the step of any one day. *)
Lemma reduce_steps_ge (T : Z) (ds : list DayState) (day : DayState) :
  day ∈ ds ->
  stepForDay (len (completedTasks day)) T
  <= foldl (fun sum d => sum + stepForDay (len (completedTasks d)) T) 0 ds.
Proof.
  induction ds as [|d ds IH]; intros Hin.
  - apply elem_of_nil in Hin. contradiction.
  - simpl. rewrite reduce_steps_from.
    assert (0 <= foldl (fun sum d =>
                          sum + stepForDay (len (completedTasks d)) T) 0 ds)
      as Hrest.
    { clear. induction ds as [|d ds IH]; simpl; [lra|].
      rewrite reduce_steps_from.
      pose proof (stepForDay_range (len (completedTasks d)) T). lra. }
    pose proof (stepForDay_range (len (completedTasks d)) T) as Hd.
    apply elem_of_cons in Hin as [->|Hin]; [lra|].
    specialize (IH Hin). lra.
Qed.

(** X6. A goal stands at exactly 0 percent if and only if none of its
    days has a completed task: any single completed task lifts it above
    zero. *)
Theorem completionPct_0_iff (g : Goal) :
  completionPct g == 0 <-> Forall (fun d => completedTasks d = []) (days g).
Proof.
  assert (completionPct g == 0 <-> toFixed2 (blocksSum g) <= 0) as ->.
  { unfold completionPct, totalBlocks, Math_min.
    change (inject_Z (Z.of_nat NUM_DAYS)) with 7.
    unfold Qdiv. change (/ 7) with (1 # 7).
    pose proof (toFixed2_nonneg _ (blocksSum_nonneg g)) as Hnn.
    destruct (Q.min_spec 7 (toFixed2 (blocksSum g))) as [[Hlt E]|[Hle E]];
      rewrite E; split; intros H; lra. }
  split.
  - intros Hzero. apply Forall_forall. intros d Hd.
    apply (stepForDay_zero_iff _ (len (tasks g))).
    pose proof (reduce_steps_ge (len (tasks g)) (days g) d Hd) as Hge.
    fold (blocksSum g) in Hge.
    destruct (stepForDay_cases (len (completedTasks d)) (len (tasks g)))
      as [E|Hpos]; [rewrite E; reflexivity|].
    exfalso.
    assert (0.2 <= blocksSum g) as Hbig
      by (destruct Hpos as [E|[E|[E|E]]]; rewrite E in Hge;
          (eapply Qle_trans; [|exact Hge]); discriminate).
    pose proof (toFixed2_mono 0.2 (blocksSum g)) as Hmono.
    assert (toFixed2 0.2 == 0.2) as E02 by (vm_compute; reflexivity).
    assert (0 <= 0.2) as H02 by discriminate.
    specialize (Hmono H02 Hbig). rewrite E02 in Hmono.
    assert (0 < 0.2) by reflexivity. lra.
  - intros Hall.
    assert (blocksSum g == 0) as E.
    { unfold blocksSum. generalize (len (tasks g)) as T. intros T.
      induction Hall as [|d ds Hd _ IH]; simpl; [reflexivity|].
      rewrite reduce_steps_from, IH.
      rewrite (proj2 (stepForDay_zero_iff (completedTasks d) T) Hd). lra. }
    rewrite (toFixed2_tenths (blocksSum g) 0).
    + rewrite E. apply Qle_refl.
    + lia.
    + rewrite E. reflexivity.
    + rewrite E. reflexivity.
Qed.

(** X7. [figureStage] is one of 1, 2, 3, 4 and never drops when the
    percentage rises. *)
Theorem figureStage_monotone (p q : Q) :
  (1 <= figureStage p <= 4)%nat
  /\ (p <= q -> (figureStage p <= figureStage q)%nat).
Proof.
  unfold figureStage. split.
  - repeat match goal with
           | |- context [Qle_bool ?a ?b] => destruct (Qle_bool a b)
           end; cbn; lia.
  - intros Hpq.
    repeat match goal with
           | |- context [Qle_bool ?a ?b] =>
               let E := fresh "E" in
               destruct (Qle_bool a b) eqn:E;
               [apply Qle_bool_iff in E
               |assert (~ a <= b)
                  by (intros Hle; apply Qle_bool_iff in Hle; congruence);
                clear E]
           end; cbn; try lia; exfalso; lra.
Qed.

End Extremes.

Lemma completionPct_100_iff_witness :
  length (days weekOneADay) = 7%nat /\ ~ completionPct weekOneADay == 100.
Proof.
  split; [reflexivity|]. intros H.
  apply (completionPct_100_iff weekOneADay) in H; [|reflexivity].
  apply Forall_inv in H. destruct H as [_ H]. cbn in H. lia.
Defined.

(* ================================================================== *)
(** * The seven-day series *)
(* ================================================================== *)

Section HabitSeries.

Lemma completedOnDay_ok (i : nat) (gs : list Goal) (acc : nat) :
  Forall (fun g => (i < length (days g))%nat) gs ->
  completedOnDay i gs acc = Ok (acc + dayTotal gs i)%nat.
Proof.
  intros H. revert acc. induction H as [|g gs Hg _ IH]; intros acc.
  - cbn. f_equal. lia.
  - destruct (lookup_lt_is_Some_2 (days g) i Hg) as [d Hd].
    cbn [completedOnDay]. rewrite Hd, IH.
    unfold dayTotal. cbn [fmap list_fmap sum_list_with]. rewrite Hd.
    cbn [from_option]. f_equal. unfold id at 1.
    symmetry. apply Nat.add_assoc.
Qed.

Lemma completedOnDay_throw (i : nat) (gs : list Goal) (acc : nat) :
  Exists (fun g => (length (days g) <= i)%nat) gs ->
  completedOnDay i gs acc = Throw TypeError.
Proof.
  intros H. revert acc. induction H as [g gs Hg|g gs _ IH]; intros acc.
  - cbn [completedOnDay]. rewrite (lookup_ge_None_2 (days g) i Hg).
    reflexivity.
  - cbn [completedOnDay]. destruct (days g !! i); [apply IH | reflexivity].
Qed.

(** Once some goal is too short for the days still to come, the loop
    ends in the throw. *)
Lemma habitLoop_throw (gs : list Goal) (left : nat) :
  forall (i cum : nat) (proj : Q) (points : list HabitPoint),
    Forall (fun g => (i <= length (days g))%nat) gs ->
    Exists (fun g => (length (days g) < i + left)%nat) gs ->
    habitLoop gs left i cum proj points = Throw TypeError.
Proof.
  induction left as [|left IH]; intros i cum proj points Hall Hshort.
  - exfalso. apply Exists_exists in Hshort as (g & Hg & Hlt).
    pose proof (proj1 (Forall_forall _ _) Hall g Hg). cbn in *. lia.
  - cbn [habitLoop].
    destruct (decide (Forall (fun g => (i < length (days g))%nat) gs))
      as [Hday|Hday].
    + rewrite (completedOnDay_ok i gs 0 Hday). cbn [bind]. apply IH.
      * eapply Forall_impl; [exact Hday|]. cbn. intros; lia.
      * eapply Exists_impl; [exact Hshort|]. cbn. intros; lia.
    + apply not_Forall_Exists in Hday; [|intros g; apply _].
      rewrite completedOnDay_throw; [reflexivity|].
      eapply Exists_impl; [exact Hday|]. cbn. intros; lia.
Qed.

Lemma dayTotal_cons (g : Goal) (gs : list Goal) (i : nat) :
  dayTotal (g :: gs) i
  = (from_option (fun d => length (completedTasks d)) 0 (days g !! i)
     + dayTotal gs i)%nat.
Proof. reflexivity. Qed.

Lemma cumulativeTotal_6 (gs : list Goal) :
  cumulativeTotal gs 6
  = (dayTotal gs 0 + dayTotal gs 1 + dayTotal gs 2 + dayTotal gs 3
     + dayTotal gs 4 + dayTotal gs 5 + dayTotal gs 6)%nat.
Proof.
  unfold cumulativeTotal. cbn [seq fmap list_fmap sum_list_with].
  unfold id. lia.
Qed.

Lemma cumulativeTotal_mono (gs : list Goal) (i j : nat) :
  (i <= j)%nat -> (cumulativeTotal gs i <= cumulativeTotal gs j)%nat.
Proof.
  induction 1 as [|j _ IH]; [lia|].
  etransitivity; [exact IH|]. unfold cumulativeTotal.
  rewrite (seq_S (S j)), fmap_app, sum_list_with_app. lia.
Qed.

(** Over goals of seven days, the tasks of the seven days are the tasks
    of the week. *)
Lemma cumulativeTotal_week (gs : list Goal) :
  Forall (fun g => length (days g) = 7%nat) gs ->
  cumulativeTotal gs 6 = completedInWeek gs.
Proof.
  rewrite cumulativeTotal_6.
  induction 1 as [|g gs Hg _ IH]; [reflexivity|].
  rewrite !dayTotal_cons. unfold completedInWeek in *.
  cbn [fmap list_fmap sum_list_with]. rewrite <- IH.
  destruct (days g) as [|d0 [|d1 [|d2 [|d3 [|d4 [|d5 [|d6 [|d7 ds]]]]]]]];
    try discriminate.
  cbn [lookup list_lookup from_option fmap list_fmap sum_list_with].
  unfold id. lia.
Qed.

(** With seven days in every goal the loop runs to its end. *)
Lemma buildHabitSeries_ok (gs : list Goal) :
  Forall (fun g => (7 <= length (days g))%nat) gs ->
  exists pts : list HabitPoint,
    buildHabitSeries gs = Ok pts
    /\ dayLabel <$> pts = ["D1"; "D2"; "D3"; "D4"; "D5"; "D6"; "D7"]%string
    /\ real <$> pts = cumulativeTotal gs <$> seq 0 7
    /\ Forall2 Qeq (projected <$> pts)
         [1; 1.01; 1.02; 1.03; 1.04; 1.05; 1.06].
Proof.
  intros Hlen.
  assert (forall i, (i < 7)%nat ->
          Forall (fun g => (i < length (days g))%nat) gs) as Hday
    by (intros i Hi; eapply Forall_impl; [exact Hlen|]; cbn; intros; lia).
  unfold buildHabitSeries, NUM_DAYS.
  do 7 (cbn [habitLoop]; rewrite completedOnDay_ok by (apply Hday; lia);
        cbn [bind]).
  cbn [habitLoop app Nat.ltb Nat.leb].
  eexists. split; [reflexivity|]. split; [reflexivity|]. split.
  - unfold cumulativeTotal.
    cbn [seq fmap list_fmap sum_list_with real]. unfold id.
    repeat (f_equal; [lia|]). f_equal. lia.
  - cbn [fmap list_fmap projected].
    repeat (apply Forall2_cons; split; [vm_compute; reflexivity|]).
    apply Forall2_nil_2.
Qed.

(** X8. When every goal has at least seven days, [buildHabitSeries]
    returns seven points labelled D1 to D7 whose [real] values are the
    running totals of the tasks completed over all goals, hence never
    decrease, and whose [projected] values are 1, 1.01, 1.02, 1.03,
    1.04, 1.05 and 1.06.  When every goal has exactly seven days the
    last [real] value is the total the week summary records.  When some
    goal has fewer than seven days the function throws. *)
Theorem buildHabitSeries_points (gs : list Goal) :
  (Forall (fun g => (7 <= length (days g))%nat) gs ->
   exists pts : list HabitPoint,
     buildHabitSeries gs = Ok pts
     /\ dayLabel <$> pts = ["D1"; "D2"; "D3"; "D4"; "D5"; "D6"; "D7"]%string
     /\ real <$> pts = cumulativeTotal gs <$> seq 0 7
     /\ (forall (i j : nat) (p q : HabitPoint),
         (i <= j)%nat -> pts !! i = Some p -> pts !! j = Some q ->
         (real p <= real q)%nat)
     /\ Forall2 Qeq (projected <$> pts)
          [1; 1.01; 1.02; 1.03; 1.04; 1.05; 1.06]
     /\ (Forall (fun g => length (days g) = 7%nat) gs ->
         real <$> last pts = Some (totalCompletedOf gs)))
  /\ (Exists (fun g => (length (days g) < 7)%nat) gs ->
      buildHabitSeries gs = Throw TypeError).
Proof.
  split.
  - intros Hlen.
    destruct (buildHabitSeries_ok gs Hlen) as (pts & Hrun & Hlab & Hreal & Hproj).
    exists pts. split; [exact Hrun|]. split; [exact Hlab|].
    split; [exact Hreal|]. split; [|split; [exact Hproj|]].
    + intros i j p q Hij Hp Hq.
      assert ((real <$> pts) !! i = Some (real p)) as Hi
        by (rewrite list_lookup_fmap, Hp; reflexivity).
      assert ((real <$> pts) !! j = Some (real q)) as Hj
        by (rewrite list_lookup_fmap, Hq; reflexivity).
      rewrite Hreal, list_lookup_fmap in Hi, Hj.
      destruct (seq 0 7 !! i) as [i'|] eqn:Ei; [|discriminate].
      destruct (seq 0 7 !! j) as [j'|] eqn:Ej; [|discriminate].
      apply lookup_seq in Ei as [-> _]. apply lookup_seq in Ej as [-> _].
      cbn in Hi, Hj. injection Hi as <-. injection Hj as <-.
      apply cumulativeTotal_mono. lia.
    + intros Hweek. rewrite <- fmap_last, Hreal.
      cbn [seq fmap list_fmap last]. f_equal.
      rewrite totalCompletedOf_sum. apply cumulativeTotal_week, Hweek.
  - intros Hshort. unfold buildHabitSeries, NUM_DAYS.
    apply habitLoop_throw; [|exact Hshort].
    apply Forall_forall. intros; lia.
Qed.

End HabitSeries.

(* ================================================================== *)
(** * The day in progress and the check-in modal *)
(* ================================================================== *)

Section PageFacts.

Variable isoDatePlus : string -> nat -> option string.

Lemma reachable_weekInvariant (st : TrackerState) :
  reachable isoDatePlus st -> weekInvariant st.
Proof.
  induction 1 as [today | g t d st _ IH | g d x st _ IH | today st st' _ _ H].
  - apply weekInvariant_seed.
  - apply weekInvariant_toggle, IH.
  - apply weekInvariant_note, IH.
  - eapply weekInvariant_rollover, H.
Qed.

Lemma pageDayIndex_range (today weekStart : Z) :
  (0 <= pageDayIndex today weekStart <= 6)%Z.
Proof. unfold pageDayIndex, NUM_DAYS. lia. Qed.

Lemma checkinRow_ok (g : Goal) (i : Z) :
  (0 <= i < Z.of_nat (length (days g)))%Z ->
  exists row : CheckinRow,
    checkinRow g i = Ok row
    /\ taskCount row = length (tasks g)
    /\ length (checked row) = length (tasks g).
Proof.
  intros Hi. unfold checkinRow.
  destruct (Z.ltb_spec i 0); [lia|].
  destruct (lookup_lt_is_Some_2 (days g) (Z.to_nat i)) as [day Hday]; [lia|].
  rewrite Hday. eexists. split; [reflexivity|]. cbn.
  split; [reflexivity | apply length_fmap].
Qed.

(** X9. Whatever the clock and the week start, the day index of the
    page lies between 0 and 6; it is the number of days elapsed since
    the week start while that number is between 0 and 6, it never
    decreases as time passes, and the week counts as finished exactly
    from the seventh day on.  In every state reached from the seed state
    the check-in modal finds that day in every goal. *)
Theorem pageDayIndex_valid (st : TrackerState) (today weekStart : Z) :
  reachable isoDatePlus st ->
  (0 <= pageDayIndex today weekStart <= 6)%Z
  /\ ((0 <= diffInDays today weekStart <= 6)%Z ->
      pageDayIndex today weekStart = diffInDays today weekStart)
  /\ (forall later : Z, (today <= later)%Z ->
      (pageDayIndex today weekStart <= pageDayIndex later weekStart)%Z)
  /\ (weekFinished today weekStart = true
      <-> (7 <= diffInDays today weekStart)%Z)
  /\ (forall g : Goal, g ∈ goals st ->
      exists row : CheckinRow,
        checkinRow g (pageDayIndex today weekStart) = Ok row
        /\ taskCount row = length (tasks g)
        /\ length (checked row) = length (tasks g)).
Proof.
  intros Hreach. split; [apply pageDayIndex_range|].
  split; [unfold pageDayIndex, NUM_DAYS; lia|]. split; [|split].
  - intros later Hle. unfold pageDayIndex, diffInDays, dayIndex, NUM_DAYS.
    assert (today / DAY_MS <= later / DAY_MS)%Z
      by (apply Z.div_le_mono; [reflexivity | exact Hle]).
    lia.
  - unfold weekFinished, NUM_DAYS. rewrite Z.geb_leb, Z.leb_le. reflexivity.
  - intros g Hg. apply checkinRow_ok.
    pose proof (reachable_weekInvariant st Hreach) as Hinv.
    pose proof (proj1 (Forall_forall _ _) Hinv g Hg) as Hlen. cbn in Hlen.
    rewrite Hlen. pose proof (pageDayIndex_range today weekStart). lia.
Qed.

End PageFacts.

Lemma pageDayIndex_valid_witness :
  pageDayIndex 1736500000000 1736121600000 = 4%Z.
Proof.
  apply (pageDayIndex_valid sampleCalendar (defaultState "2025-01-06")
           1736500000000 1736121600000 (reach_seed _ _)).
  vm_compute. split; discriminate.
Defined.

Section CheckboxFacts.

Lemma length_delete_one (t : string) (l : list string) :
  NoDup l -> t ∈ l ->
  length (filter (fun y => y <> t) l) = pred (length l).
Proof.
  intros Hnd Hin.
  assert (l ≡ₚ t :: filter (fun y => y <> t) l) as Hp.
  { apply NoDup_Permutation; [assumption| |].
    - apply NoDup_cons. split; [|apply NoDup_filter, Hnd].
      rewrite list_elem_of_filter. tauto.
    - intros x. rewrite elem_of_cons, list_elem_of_filter.
      destruct (decide (x = t)) as [->|Hne]; tauto. }
  rewrite (Permutation_length Hp). reflexivity.
Qed.

(** X10. In the check-in modal a toggle inverts the box of the toggled
    task of the toggled goal on that day and no other box of that day;
    the task count and the note stay, and when the day listed no task
    twice the count of completed tasks moves by exactly one. *)
Theorem toggle_flips_one_checkbox
    (st : TrackerState) (goalId taskId : string) (d i : nat)
    (g : Goal) (day : DayState) :
  goals st !! i = Some g ->
  days g !! d = Some day ->
  exists (g' : Goal) (row row' : CheckinRow),
    goals (handleToggleTask goalId taskId d st) !! i = Some g'
    /\ checkinRow g (Z.of_nat d) = Ok row
    /\ checkinRow g' (Z.of_nat d) = Ok row'
    /\ taskCount row' = taskCount row
    /\ noteValue row' = noteValue row
    /\ (forall (k : nat) (t : TaskTemplate) (b : bool),
        tasks g !! k = Some t -> checked row !! k = Some b ->
        checked row' !! k
        = Some (if bool_decide (goal_id g = goalId /\ task_id t = taskId)
                then negb b else b))
    /\ (NoDup (completedTasks day) -> goal_id g = goalId ->
        doneCount row'
        = if bool_decide (taskId ∈ completedTasks day)
          then pred (doneCount row) else S (doneCount row)).
Proof.
  intros Hg Hday.
  unfold handleToggleTask. cbn [goals]. rewrite list_lookup_fmap, Hg.
  cbn [fmap option_fmap option_map].
  assert (checkinRow g (Z.of_nat d)
          = Ok {| doneCount := length (completedTasks day);
                  taskCount := length (tasks g);
                  checked := (fun t =>
                                bool_decide (task_id t ∈ completedTasks day))
                             <$> tasks g;
                  noteValue := default ""%string (note day) |}) as Hrow.
  { unfold checkinRow. destruct (Z.ltb_spec (Z.of_nat d) 0); [lia|].
    rewrite Nat2Z.id, Hday. reflexivity. }
  rewrite goal_id_eqb. case_bool_decide as Hid.
  - exists g. do 2 eexists. split; [reflexivity|].
    split; [exact Hrow|]. split; [exact Hrow|].
    split; [reflexivity|]. split; [reflexivity|]. split; [|contradiction].
    intros k t b _ Hb. rewrite bool_decide_eq_false_2 by tauto. exact Hb.
  - do 3 eexists. split; [reflexivity|]. split; [exact Hrow|].
    split.
    { unfold checkinRow. destruct (Z.ltb_spec (Z.of_nat d) 0); [lia|].
      rewrite Nat2Z.id. cbn [days]. rewrite list_lookup_imap, Hday.
      cbn [fmap option_fmap option_map]. rewrite Nat.eqb_refl.
      cbn [negb]. reflexivity. }
    cbn [taskCount noteValue checked doneCount tasks].
    destruct (toggleInDay_flips taskId day) as (Hnote & Hflip & Hother).
    split; [reflexivity|]. split; [rewrite Hnote; reflexivity|]. split.
    + intros k t b Ht Hb. rewrite list_lookup_fmap, Ht in Hb |- *.
      cbn in Hb |- *. injection Hb as <-. f_equal.
      destruct (decide (task_id t = taskId)) as [E|E].
      * rewrite (bool_decide_eq_true_2 (_ /\ _)) by tauto. rewrite E.
        rewrite <- bool_decide_not. apply bool_decide_ext. exact Hflip.
      * rewrite (bool_decide_eq_false_2 (_ /\ _)) by tauto.
        apply bool_decide_ext, Hother, E.
    + intros Hnd _. unfold toggleInDay, Array_from, Set_add, Set_delete,
        Set_has. cbn [completedTasks].
      rewrite (new_Set_NoDup _ Hnd).
      destruct (decide (taskId ∈ completedTasks day)) as [Hin|Hin].
      * rewrite !(bool_decide_eq_true_2 (taskId ∈ _)) by assumption.
        apply length_delete_one; assumption.
      * rewrite !(bool_decide_eq_false_2 (taskId ∈ _)) by assumption.
        rewrite length_app. cbn. lia.
Qed.

Lemma toggle_flips_one_checkbox_witness :
  exists (g' : Goal) (row' : CheckinRow),
    goals (handleToggleTask "sdms" "sdms-quiz" 0 (defaultState "2025-01-06"))
      !! 1%nat = Some g'
    /\ checkinRow g' 0 = Ok row'
    /\ checked row' = [false; true; false].
Proof.
  destruct (toggle_flips_one_checkbox (defaultState "2025-01-06")
              "sdms" "sdms-quiz" 0 1
              (mkGoal "sdms" "SDMS" Studies
                 [ mkTask "sdms-reading" "Read 3 pages of script";
                   mkTask "sdms-quiz" "Do 5 quiz questions";
                   mkTask "sdms-notes" "Organise notes" ]
                 emptyDays)
              emptyDay eq_refl eq_refl)
    as (g' & row & row' & Hg' & _ & Hrow' & _).
  exists g', row'. split; [exact Hg'|]. split; [exact Hrow'|].
  cbn in Hg'. injection Hg' as <-. cbn in Hrow'. injection Hrow' as <-.
  reflexivity.
Defined.

End CheckboxFacts.

(* ================================================================== *)
(** * The page after a rollover and its overall figures *)
(* ================================================================== *)

Section FreshWeek.

Variable isoDatePlus : string -> nat -> option string.

Lemma dayTotal_empty (gs : list Goal) (i : nat) :
  Forall (fun g => days g = emptyDays) gs -> dayTotal gs i = 0%nat.
Proof.
  unfold dayTotal. induction 1 as [|g gs Hg _ IH]; [reflexivity|].
  cbn [fmap list_fmap sum_list_with]. rewrite IH, Hg.
  unfold emptyDays, NUM_DAYS.
  destruct (replicate 7 emptyDay !! i) as [d|] eqn:E; [|reflexivity].
  apply lookup_replicate in E as [-> _]. reflexivity.
Qed.

(** X11. Right after a rollover every goal stands at 0 percent with no
    streak and counts as dormant, the seven points of the chart all
    have a [real] value of 0, the week summary modal would show 0
    percent, and the last-week card shows the summary of the week just
    closed. *)
Theorem rollover_fresh_week (today : string) (st st' : TrackerState) :
  handleStartNewWeek isoDatePlus today st = Ok st' ->
  (forall g' : Goal, g' ∈ goals st' ->
     completionPct g' == 0
     /\ streakDays g' = Ok 0%nat
     /\ isDormant g' = Ok true)
  /\ (exists pts : list HabitPoint,
        buildHabitSeries (goals st') = Ok pts
        /\ real <$> pts = replicate 7 0%nat)
  /\ summaryOverallPct (goals st') == 0
  /\ (exists w : WeekSummary,
        lastWeek st' = Some w
        /\ startISO w = weekStartISO st
        /\ totalCompletedTasks w = completedInWeek (goals st)
        /\ totalPossibleTasks w = possibleInWeek (goals st)).
Proof.
  unfold handleStartNewWeek.
  destruct (isoDatePlus _ _) as [endDate|]; [|discriminate].
  intros [= <-]. cbn [goals].
  assert (Forall (fun g => days g = emptyDays)
            ((fun g => {| goal_id := goal_id g; goal_label := goal_label g;
                          goal_section := goal_section g; tasks := tasks g;
                          days := emptyDays |}) <$> goals st)) as Hempty
    by (apply Forall_fmap, Forall_forall; intros g _; reflexivity).
  split; [|split; [|split]].
  - intros g' Hg'. apply list_elem_of_fmap in Hg' as (g & -> & _).
    split; [vm_compute; reflexivity|]. split; reflexivity.
  - assert (Forall (fun g => (7 <= length (days g))%nat)
              ((fun g => {| goal_id := goal_id g; goal_label := goal_label g;
                            goal_section := goal_section g; tasks := tasks g;
                            days := emptyDays |}) <$> goals st)) as Hseven
      by (eapply Forall_impl; [exact Hempty|]; intros g ->; reflexivity).
    destruct (buildHabitSeries_ok _ Hseven) as (pts & Hrun & _ & Hreal & _).
    exists pts. split; [exact Hrun|]. rewrite Hreal.
    unfold cumulativeTotal. cbn [seq fmap list_fmap sum_list_with].
    rewrite !(dayTotal_empty _ _ Hempty). reflexivity.
  - unfold summaryOverallPct.
    assert (totalCompletedOf
              ((fun g => {| goal_id := goal_id g; goal_label := goal_label g;
                            goal_section := goal_section g; tasks := tasks g;
                            days := emptyDays |}) <$> goals st) = 0%nat) as ->.
    { rewrite totalCompletedOf_sum. unfold completedInWeek. clear Hempty.
      induction (goals st) as [|g gs IH]; [reflexivity|].
      cbn [fmap list_fmap sum_list_with days]. rewrite IH. reflexivity. }
    destruct (_ =? 0)%nat; [reflexivity|].
    unfold Qdiv. rewrite Qmult_0_l. reflexivity.
  - eexists. unfold lastWeek. cbn [history]. rewrite last_snoc.
    split; [reflexivity|]. cbn [startISO totalCompletedTasks totalPossibleTasks].
    split; [reflexivity|].
    split; [apply totalCompletedOf_sum | apply totalPossibleOf_sum].
Qed.

End FreshWeek.

Lemma rollover_fresh_week_witness :
  exists st' : TrackerState,
    handleStartNewWeek sampleCalendar "2025-01-13"
      (handleToggleTask "pgm" "pgm-slides" 1 (defaultState "2025-01-06"))
    = Ok st'
    /\ summaryOverallPct (goals st') == 0.
Proof.
  eexists. split; [reflexivity|].
  eapply (rollover_fresh_week sampleCalendar "2025-01-13"
            (handleToggleTask "pgm" "pgm-slides" 1
               (defaultState "2025-01-06"))).
  reflexivity.
Defined.

Section OverallFigures.

Lemma totalBlocks_sum_range (gs : list Goal) :
  0 <= foldl (fun sum g => sum + totalBlocks g) 0 gs
  /\ foldl (fun sum g => sum + totalBlocks g) 0 gs
     <= 7 * inject_Z (Z.of_nat (length gs)).
Proof.
  assert (forall acc, foldl (fun sum g => sum + totalBlocks g) acc gs
                      == acc + foldl (fun sum g => sum + totalBlocks g) 0 gs)
    as Hshift.
  { induction gs as [|g gs IH]; intros acc; simpl; [ring|].
    rewrite IH, (IH (0 + _)). ring. }
  induction gs as [|g gs IH].
  - cbn. split; [apply Qle_refl | discriminate].
  - assert (forall acc, foldl (fun sum g => sum + totalBlocks g) acc gs
                        == acc + foldl (fun sum g => sum + totalBlocks g) 0 gs)
      as Hshift'.
    { clear. induction gs as [|g gs IH]; intros acc; simpl; [ring|].
      rewrite IH, (IH (0 + _)). ring. }
    specialize (IH Hshift'). simpl foldl. rewrite Hshift'.
    pose proof (totalBlocks_range g) as Hg.
    cbn [length]. rewrite Nat2Z.inj_succ, <- Z.add_1_r, inject_Z_plus.
    change (inject_Z 1) with 1. lra.
Qed.

(** X12. With at least one goal the overall completion of the page is a
    number between 0 and 100; with no goal it is the [NaN] of [0 / 0]. *)
Theorem overallCompletion_range (gs : list Goal) :
  match overallCompletion gs with
  | Some v => gs <> [] /\ 0 <= v <= 100
  | None => gs = []
  end.
Proof.
  unfold overallCompletion. destruct gs as [|g gs]; [reflexivity|].
  cbn [length Nat.eqb]. split; [discriminate|].
  pose proof (totalBlocks_sum_range (g :: gs)) as [Hlo Hhi].
  set (total := foldl (fun sum g0 => sum + totalBlocks g0) 0 (g :: gs)) in *.
  assert (inject_Z (Z.of_nat (NUM_DAYS * length (g :: gs)))
          == 7 * inject_Z (Z.of_nat (length (g :: gs)))) as EN.
  { unfold NUM_DAYS. rewrite Nat2Z.inj_mul, inject_Z_mult. reflexivity. }
  assert (0 < inject_Z (Z.of_nat (length (g :: gs)))) as Hpos.
  { change 0 with (inject_Z 0). rewrite <- Zlt_Qlt. cbn [length]. lia. }
  rewrite EN.
  set (n := inject_Z (Z.of_nat (length (g :: gs)))) in *.
  assert (0 < 7 * n) as Hpos7 by lra.
  split.
  - apply Qmult_le_0_compat; [|discriminate].
    apply Qle_shift_div_l; [exact Hpos7 | lra].
  - assert (total / (7 * n) <= 1) as H1
      by (apply Qle_shift_div_r; [exact Hpos7 | lra]).
    lra.
Qed.

(** Over a week of seven days in which no day has more completed tasks
    than the goal lists, the completed tasks do not exceed the slots. *)
Lemma completed_le_possible (gs : list Goal) :
  Forall (fun g => length (days g) = 7%nat
                   /\ Forall (fun d => (length (completedTasks d)
                                        <= length (tasks g))%nat) (days g))
         gs ->
  (completedInWeek gs <= possibleInWeek gs)%nat.
Proof.
  unfold completedInWeek, possibleInWeek.
  induction 1 as [|g gs [Hlen Hd] _ IH]; [reflexivity|].
  cbn [fmap list_fmap sum_list_with].
  assert (sum_list ((fun d => length (completedTasks d)) <$> days g)
          <= length (tasks g) * length (days g))%nat as Hg.
  { clear Hlen. induction Hd as [|d ds Hd _ IHd]; [cbn; lia|].
    rewrite fmap_cons. cbn [sum_list_with length]. unfold id at 1.
    rewrite Nat.mul_succ_r. lia. }
  rewrite Hlen in Hg. unfold id in *. lia.
Qed.

(** X13. The overall percentage of the week summary modal is never
    negative and is 0 when the goals list no task; over a week of seven
    days in which no day has more completed tasks than its goal lists it
    is at most 100. *)
Theorem summaryOverallPct_range (gs : list Goal) :
  Forall (fun g => length (days g) = 7%nat
                   /\ Forall (fun d => (length (completedTasks d)
                                        <= length (tasks g))%nat) (days g))
         gs ->
  0 <= summaryOverallPct gs <= 100
  /\ (totalPossibleOf gs = 0%nat -> summaryOverallPct gs = 0).
Proof.
  intros Hgs. unfold summaryOverallPct.
  pose proof (completed_le_possible gs Hgs) as Hle.
  rewrite <- totalCompletedOf_sum, <- totalPossibleOf_sum in Hle.
  destruct (Nat.eqb_spec (totalPossibleOf gs) 0) as [E|E].
  - split; [split; discriminate | reflexivity].
  - split; [|contradiction].
    set (c := inject_Z (Z.of_nat (totalCompletedOf gs))).
    set (a := inject_Z (Z.of_nat (totalPossibleOf gs))).
    assert (0 <= c)
      by (change 0 with (inject_Z 0); subst c; rewrite <- Zle_Qle; lia).
    assert (0 < a)
      by (change 0 with (inject_Z 0); subst a; rewrite <- Zlt_Qlt; lia).
    assert (c <= a) by (subst c a; rewrite <- Zle_Qle; lia).
    assert (0 <= c / a) by (apply Qle_shift_div_l; [assumption | lra]).
    assert (c / a <= 1) by (apply Qle_shift_div_r; [assumption | lra]).
    split; lra.
Qed.

Lemma summaryOverallPct_range_witness :
  0 <= summaryOverallPct [weekAllOnDay0] <= 100.
Proof.
  apply (summaryOverallPct_range [weekAllOnDay0]).
  repeat constructor; cbn; lia.
Defined.

End OverallFigures.

(* ================================================================== *)
(** * The countdown and the clock to the new year *)
(* ================================================================== *)

Section Clocks.

(** X14. Before the target the four numbers of the countdown are the
    days, hours, minutes and seconds of the distance: hours stay below
    24, minutes and seconds below 60, and together they make up the
    distance cut to whole seconds.  At the target and after it all four
    are 0. *)
Theorem countdown_units (distance : Z) :
  let d := Countdown.newTime Countdown.Day distance in
  let h := Countdown.newTime Countdown.Hour distance in
  let m := Countdown.newTime Countdown.Minute distance in
  let s := Countdown.newTime Countdown.Second distance in
  ((0 <= distance)%Z ->
   (0 <= d /\ 0 <= h < 24 /\ 0 <= m < 60 /\ 0 <= s < 60)%Z
   /\ (d * Countdown.DAY + h * Countdown.HOUR + m * Countdown.MINUTE
       + s * Countdown.SECOND
       = distance - distance mod Countdown.SECOND)%Z)
  /\ ((distance <= 0)%Z -> d = 0%Z /\ h = 0%Z /\ m = 0%Z /\ s = 0%Z).
Proof.
  cbn zeta. unfold Countdown.newTime.
  unfold Countdown.DAY, Countdown.HOUR, Countdown.MINUTE, Countdown.SECOND.
  change (1000 * 60 * 60 * 24)%Z with 86400000%Z.
  change (1000 * 60 * 60)%Z with 3600000%Z.
  change (1000 * 60)%Z with 60000%Z.
  split; intros Hd; Z.to_euclidean_division_equations; lia.
Qed.

(** X15. The clock to the new year splits the whole seconds left into
    days, hours, minutes and seconds that add up to them, with hours
    below 24 and minutes and seconds below 60; once the new year is
    reached it shows zeros. *)
Theorem timeToNewYear_parts (nextNewYear : Z -> Z) (now : Z) :
  let c := Timeline.timeToNewYear nextNewYear now in
  let sec := Z.max 0 ((nextNewYear now - now) / 1000) in
  (0 <= Timeline.clock_days c)%Z
  /\ (0 <= Timeline.clock_hours c < 24)%Z
  /\ (0 <= Timeline.clock_minutes c < 60)%Z
  /\ (0 <= Timeline.clock_seconds c < 60)%Z
  /\ (Timeline.clock_days c * 86400 + Timeline.clock_hours c * 3600
      + Timeline.clock_minutes c * 60 + Timeline.clock_seconds c = sec)%Z
  /\ ((nextNewYear now <= now)%Z ->
      c = Timeline.mkClock 0 0 0 0).
Proof.
  cbn zeta. unfold Timeline.timeToNewYear.
  cbn [Timeline.clock_days Timeline.clock_hours Timeline.clock_minutes
       Timeline.clock_seconds].
  set (sec := Z.max 0 ((nextNewYear now - now) / 1000)).
  assert (0 <= sec)%Z as Hsec by (subst sec; lia).
  repeat split; try (Z.to_euclidean_division_equations; lia).
  intros Hpast.
  assert (sec = 0%Z) as ->
    by (subst sec; Z.to_euclidean_division_equations; lia).
  reflexivity.
Qed.

End Clocks.

(* ================================================================== *)
(** * Weeks of life and the rail *)
(* ================================================================== *)

Section RailFacts.

(** *** Whole numbers *)

Lemma Qred_inject_Z (z : Z) : Qred (inject_Z z) = inject_Z z.
Proof.
  unfold Qred, inject_Z. cbn [Qnum Qden].
  pose proof (Z.ggcd_gcd z 1) as Hg.
  pose proof (Z.ggcd_correct_divisors z 1) as Hd.
  destruct (Z.ggcd z 1) as [g [a b]]. cbn [fst snd] in *.
  rewrite Z.gcd_1_r in Hg. subst g. destruct Hd as [Ha Hb].
  rewrite Z.mul_1_l in Ha, Hb. subst a b. reflexivity.
Qed.

Lemma fin_whole (q : Q) (z : Z) :
  q == inject_Z z -> Timeline.fin q = Timeline.ofZ z.
Proof.
  intros H. unfold Timeline.fin, Timeline.ofZ.
  rewrite (Qred_complete _ _ H), Qred_inject_Z. reflexivity.
Qed.

Lemma add_ofZ (a b : Z) :
  Timeline.add (Timeline.ofZ a) (Timeline.ofZ b) = Timeline.ofZ (a + b).
Proof. apply fin_whole. rewrite inject_Z_plus. reflexivity. Qed.

Lemma sub_ofZ (a b : Z) :
  Timeline.sub (Timeline.ofZ a) (Timeline.ofZ b) = Timeline.ofZ (a - b).
Proof.
  unfold Timeline.sub, Timeline.ofZ, Timeline.neg, Timeline.fin, Timeline.add.
  apply fin_whole. rewrite Qred_correct.
  unfold Z.sub. rewrite inject_Z_plus, inject_Z_opp. reflexivity.
Qed.

Lemma mul_ofZ (a : Z) (c : positive) :
  Timeline.mul (Timeline.ofZ a) c = Timeline.ofZ (a * Z.pos c).
Proof. apply fin_whole. rewrite inject_Z_mult. reflexivity. Qed.

Lemma floor_div_ofZ (a : Z) (c : positive) :
  Timeline.Math_floor (Timeline.div (Timeline.ofZ a) c)
  = Timeline.ofZ (a / Z.pos c).
Proof.
  unfold Timeline.div, Timeline.ofZ, Timeline.fin, Timeline.Math_floor.
  rewrite (Qfloor_comp _ _ (Qred_correct _)), <- Zdiv_Qdiv. reflexivity.
Qed.

Lemma truncate_div (a : Z) (c : positive) :
  Timeline.truncate (inject_Z a / inject_Z (Z.pos c)) = (a ÷ Z.pos c)%Z.
Proof.
  unfold Timeline.truncate, Qdiv, Qinv, Qmult, inject_Z. cbn [Qnum Qden].
  rewrite Z.mul_1_r, Pos.mul_1_l. reflexivity.
Qed.

Lemma rem_ofZ (a : Z) (c : positive) :
  Timeline.rem (Timeline.ofZ a) c = Timeline.ofZ (Z.rem a (Z.pos c)).
Proof.
  unfold Timeline.rem, Timeline.ofZ. apply fin_whole.
  rewrite truncate_div, (Z.rem_eq a (Z.pos c)) by discriminate.
  unfold Z.sub. rewrite inject_Z_plus, inject_Z_opp, inject_Z_mult.
  reflexivity.
Qed.

Lemma max_ofZ (a b : Z) :
  Timeline.Math_max (Timeline.ofZ a) (Timeline.ofZ b)
  = Timeline.ofZ (Z.max a b).
Proof.
  unfold Timeline.Math_max, Timeline.ofZ.
  destruct (Qle_bool (inject_Z a) (inject_Z b)) eqn:E.
  - apply Qle_bool_iff in E. rewrite <- Zle_Qle in E.
    rewrite Z.max_r by assumption. reflexivity.
  - assert (~ (a <= b)%Z) as H.
    { intros H. rewrite Zle_Qle in H. apply Qle_bool_iff in H. congruence. }
    rewrite Z.max_l by lia. reflexivity.
Qed.

Lemma min_ofZ (a b : Z) :
  Timeline.Math_min (Timeline.ofZ a) (Timeline.ofZ b)
  = Timeline.ofZ (Z.min a b).
Proof.
  unfold Timeline.Math_min, Timeline.ofZ.
  destruct (Qle_bool (inject_Z a) (inject_Z b)) eqn:E.
  - apply Qle_bool_iff in E. rewrite <- Zle_Qle in E.
    rewrite Z.min_l by assumption. reflexivity.
  - assert (~ (a <= b)%Z) as H.
    { intros H. rewrite Zle_Qle in H. apply Qle_bool_iff in H. congruence. }
    rewrite Z.min_r by lia. reflexivity.
Qed.

Lemma leq_ofZ (a b : Z) :
  (a <= b)%Z -> Timeline.leq (Timeline.ofZ a) (Timeline.ofZ b) = true.
Proof.
  intros H. unfold Timeline.leq, Timeline.ofZ.
  apply Qle_bool_iff. rewrite <- Zle_Qle. exact H.
Qed.

Lemma truncate_inject_Z (z : Z) : Timeline.truncate (inject_Z z) = z.
Proof. unfold Timeline.truncate, inject_Z. cbn [Qnum Qden]. apply Z.quot_1_r. Qed.

(** [new Date] of a whole number is a date exactly when the number is
    within the range of time values. *)
Lemma Date_new_ofZ (z : Z) (t : Z) :
  Timeline.Date_new (Timeline.ofZ z) = Some t
  <-> t = z /\ (Z.abs z <= Timeline.MAX_TIME)%Z.
Proof.
  unfold Timeline.Date_new, Timeline.ofZ. rewrite truncate_inject_Z.
  assert (Qabs (inject_Z z) = inject_Z (Z.abs z)) as -> by reflexivity.
  destruct (Qle_bool _ _) eqn:E.
  - apply Qle_bool_iff in E. rewrite <- Zle_Qle in E.
    split; [intros [= <-]; auto | intros [-> _]; reflexivity].
  - split; [discriminate|]. intros [_ H].
    rewrite Zle_Qle in H. apply Qle_bool_iff in H. congruence.
Qed.

Lemma dayIndex_Some (t : Z) :
  Timeline.dayIndex (Some t) = Timeline.ofZ (t / 86400000).
Proof. unfold Timeline.dayIndex, Timeline.getTime. apply floor_div_ofZ. Qed.

(** [Math.floor] gives a whole number whenever it gives a finite one. *)
Lemma Math_floor_whole (x : Timeline.number) (q : Q) :
  Timeline.Math_floor x = Timeline.Finite q -> exists z : Z, q = inject_Z z.
Proof.
  destruct x as [p|s|]; try discriminate. cbn [Timeline.Math_floor].
  unfold Timeline.ofZ. intros [= <-]. eexists. reflexivity.
Qed.

Ltac whole :=
  repeat (rewrite ?dayIndex_Some, ?floor_div_ofZ, ?rem_ofZ, ?mul_ofZ,
            ?add_ofZ, ?sub_ofZ, ?max_ofZ, ?min_ofZ);
  change (Z.pos Timeline.DAY_MS) with 86400000%Z in *.

(** X16. For a whole week of life and a day of the week from 0 to 6,
    the date that [dateFromWeekAndDow] builds, when it is within the
    range of dates, is the start of the day that many days after the
    birth day, and [weekOfLife] gives the week back; from the birth
    week on, the remainder of the days by 7 gives the day of the week
    back.  A week that is not whole never comes back from
    [weekOfLife]. *)
Theorem week_and_dow_round_trip (birth week dow : Z) :
  (Z.abs birth <= Timeline.MAX_TIME)%Z ->
  (0 <= dow <= 6)%Z ->
  let idx := (birth / 86400000 + week * 7 + dow)%Z in
  (Z.abs (idx * 86400000) <= Timeline.MAX_TIME)%Z ->
  let d := Timeline.dateFromWeekAndDow (Some birth)
             (Timeline.ofZ week) (Timeline.ofZ dow) in
  d = Some (idx * 86400000)%Z
  /\ Timeline.dayIndex d = Timeline.ofZ idx
  /\ Timeline.weekOfLife d (Some birth) = Timeline.ofZ week
  /\ ((0 <= week)%Z ->
      Timeline.rem (Timeline.sub (Timeline.dayIndex d)
                                 (Timeline.dayIndex (Some birth))) 7
      = Timeline.ofZ dow)
  /\ (forall (q : Q) (x : Timeline.number) (b : Timeline.Date),
        Timeline.weekOfLife
          (Timeline.dateFromWeekAndDow b (Timeline.Finite q) x) b
        = Timeline.Finite q ->
        exists z : Z, q = inject_Z z).
Proof.
  intros Hbirth Hdow idx Hidx d.
  assert (d = Some (idx * 86400000)%Z) as Hd.
  { subst d. unfold Timeline.dateFromWeekAndDow. whole.
    apply Date_new_ofZ. split; [reflexivity | exact Hidx]. }
  rewrite Hd. unfold Timeline.weekOfLife. whole.
  rewrite Z.div_mul by discriminate.
  repeat split.
  - f_equal. subst idx. Z.to_euclidean_division_equations; lia.
  - intros Hweek. f_equal. subst idx.
    Z.to_euclidean_division_equations; lia.
  - intros q x b H. exact (Math_floor_whole _ _ H).
Qed.

Lemma week_and_dow_round_trip_witness :
  Timeline.weekOfLife
    (Timeline.dateFromWeekAndDow (Some 968716800000%Z)
       (Timeline.ofZ 1269) (Timeline.ofZ 3))
    (Some 968716800000%Z)
  = Timeline.ofZ 1269.
Proof.
  apply (week_and_dow_round_trip 968716800000 1269 3);
    vm_compute; try split; discriminate.
Defined.

(** X17. For a track whose week span is a whole number of weeks, at
    least one, the marker always sits on a tick of the rail.  A release
    on a tick commits a date; when that date is valid and its year has
    four digits, its text names a day that lies in the window of the
    rail, and with that day as the latest log the marker comes back to
    the very tick. *)
Theorem rail_position_round_trip
    (BIRTHDATE now today n pos : Z) (latest : option Z) :
  (Z.abs BIRTHDATE <= Timeline.MAX_TIME)%Z ->
  (Z.abs now <= Timeline.MAX_TIME)%Z ->
  (Z.abs today <= Timeline.MAX_TIME)%Z ->
  (1 <= n)%Z -> (n * 7 <= 9007199254740991)%Z ->
  let currentWeek := Timeline.weekOfLife (Some today) (Some BIRTHDATE) in
  let weekSpan := Timeline.ofZ n in
  (exists p : Z,
      Timeline.derivedPos BIRTHDATE (Some <$> latest) now currentWeek weekSpan
      = Timeline.ofZ p
      /\ (0 <= p <= n * 7 - 1)%Z)
  /\ ((0 <= pos <= n * 7 - 1)%Z ->
      forall t : Z,
        Timeline.commitDate BIRTHDATE (Timeline.ofZ pos) currentWeek weekSpan
        = Some t ->
        (Timeline.YEAR_0 <= t < Timeline.YEAR_10000)%Z ->
        exists day : Z,
          Timeline.toISODay (Some t) = Ok (Some day)
          /\ Timeline.Date_ofISODay day = Some t
          /\ Timeline.leq
               (Timeline.windowStart BIRTHDATE currentWeek weekSpan)
               (Timeline.ofZ day) = true
          /\ Timeline.leq
               (Timeline.ofZ day)
               (Timeline.windowEnd BIRTHDATE currentWeek weekSpan) = true
          /\ Timeline.derivedPos BIRTHDATE
               (Some (Timeline.Date_ofISODay day)) now currentWeek weekSpan
             = Timeline.ofZ pos).
Proof.
  intros HB Hnow Htoday Hn Hsafe currentWeek weekSpan.
  assert (currentWeek
          = Timeline.ofZ ((today / 86400000 - BIRTHDATE / 86400000) / 7))
    as Hcw by (subst currentWeek; unfold Timeline.weekOfLife; whole;
               reflexivity).
  rewrite Hcw. clear Hcw currentWeek.
  set (cw := ((today / 86400000 - BIRTHDATE / 86400000) / 7)%Z).
  subst weekSpan. unfold Timeline.MAX_TIME in *. split.
  - destruct latest as [t|]; cbn [fmap option_fmap option_map];
      unfold Timeline.derivedPos, Timeline.todayPos, Timeline.startWeek,
        Timeline.totalTicks, Timeline.weekOfLife; whole;
      eexists; (split; [reflexivity|]); lia.
  - intros Hpos t Ht Hyear.
    unfold Timeline.commitDate, Timeline.dateFromWeekAndDow,
      Timeline.startWeek in Ht.
    revert Ht. whole. intros Ht.
    apply Date_new_ofZ in Ht as [Ht Hrange]. unfold Timeline.MAX_TIME in *.
    set (sw := Z.max 0 (cw - n + 1)) in *.
    set (dB := (BIRTHDATE / 86400000)%Z) in *.
    assert (t / 86400000 = dB + (sw + pos / 7) * 7 + Z.rem pos 7)%Z as Hday
      by (rewrite Ht; apply Z.div_mul; discriminate).
    exists (t / 86400000)%Z.
    unfold Timeline.windowEnd.
    unfold Timeline.toISODay, Timeline.Date_ofISODay, Timeline.windowStart,
      Timeline.derivedPos, Timeline.weekOfLife,
      Timeline.dateFromWeekAndDow, Timeline.startWeek, Timeline.totalTicks.
    whole. fold sw dB.
    assert (Timeline.Date_new (Timeline.ofZ ((dB + sw * 7 + 0) * 86400000))
            = Some ((dB + sw * 7 + 0) * 86400000)%Z) as ->.
    { apply Date_new_ofZ. split; [reflexivity|]. unfold Timeline.MAX_TIME.
      subst dB sw. Z.to_euclidean_division_equations; lia. }
    whole. rewrite !Z.div_mul by discriminate. rewrite Hday.
    unfold Timeline.YEAR_0, Timeline.YEAR_10000 in *.
    repeat split.
    + destruct (_ <=? t)%Z eqn:E1; [|lia].
      destruct (t <? _)%Z eqn:E2; [|lia]. reflexivity.
    + f_equal. symmetry. exact Ht.
    + apply leq_ofZ. Z.to_euclidean_division_equations; lia.
    + apply leq_ofZ. Z.to_euclidean_division_equations; lia.
    + f_equal. subst sw dB. Z.to_euclidean_division_equations; lia.
Qed.

Lemma rail_position_round_trip_witness :
  exists day : Z,
    Timeline.derivedPos 968716800000
      (Some (Timeline.Date_ofISODay day)) 1736500000000
      (Timeline.weekOfLife (Some 1736500000000%Z) (Some 968716800000%Z))
      (Timeline.ofZ 8)
    = Timeline.ofZ 17.
Proof.
  destruct (rail_position_round_trip
              968716800000 1736500000000 1736500000000 8 17 None
              ltac:(vm_compute; discriminate) ltac:(vm_compute; discriminate)
              ltac:(vm_compute; discriminate) ltac:(lia) ltac:(lia))
    as [_ H].
  destruct (H ltac:(lia) 1733443200000%Z) as (day & _ & _ & _ & _ & Hd).
  - vm_compute. reflexivity.
  - unfold Timeline.YEAR_0, Timeline.YEAR_10000. lia.
  - exists day. exact Hd.
Defined.

(** A week span of a week and a half, which [addGoal] accepts: a
    release at tick 5 commits a noon, and the day of its text reads
    back as position 4.5, between two ticks. *)
Example rail_half_week_span :
  let weekSpan := Timeline.Finite (3 # 2) in
  let currentWeek := Timeline.ofZ 1269 in
  Timeline.commitDate 968716800000 (Timeline.ofZ 5) currentWeek weekSpan
  = Some 1736337600000%Z
  /\ Timeline.toISODay (Some 1736337600000%Z) = Ok (Some 20096%Z)
  /\ Timeline.derivedPos 968716800000
       (Some (Timeline.Date_ofISODay 20096)) 1736500000000
       currentWeek weekSpan
     = Timeline.Finite (9 # 2).
Proof. vm_compute. repeat split. Qed.

(** A week span that is no number: the release throws. *)
Example rail_week_span_not_a_number :
  Timeline.toISODay
    (Timeline.commitDate 968716800000 (Timeline.ofZ 5)
       (Timeline.ofZ 1269) Timeline.NotANumber)
  = Throw RangeError.
Proof. reflexivity. Qed.

End RailFacts.

(* ================================================================== *)
(** * Check-ins on the timeline *)
(* ================================================================== *)

Section CheckIns.

Lemma sort_insert_Sorted (x : string) (l : list string) :
  Sorted (fun a b => String.leb a b = true) l ->
  Sorted (fun a b => String.leb a b = true) (sort_insert String.leb x l).
Proof.
  induction 1 as [|y l Hl IH Hy]; cbn.
  - repeat constructor.
  - destruct (String.leb x y) eqn:E.
    + constructor; [constructor; assumption|]. constructor. exact E.
    + constructor; [exact IH|].
      assert (String.leb y x = true) as Hyx
        by (destruct (String.leb_total x y); congruence).
      destruct l as [|z l]; cbn.
      * constructor. exact Hyx.
      * destruct (String.leb x z); constructor;
          [exact Hyx | inversion Hy; assumption].
Qed.

Lemma sort_leb_Sorted (l : list string) :
  Sorted (fun a b => String.leb a b = true) (sort String.leb l).
Proof.
  induction l as [|x l IH]; cbn; [constructor|].
  apply sort_insert_Sorted, IH.
Qed.

(** What [commitCheckIn] does to one track. *)
Lemma commitCheckIn_lookup (id isoDate : string) (prev : list Timeline.Track)
    (i : nat) (t : Timeline.Track) :
  prev !! i = Some t ->
  Timeline.commitCheckIn id isoDate prev !! i
  = Some (if negb (String.eqb (Timeline.track_id t) id) then t
          else if bool_decide (isoDate ∈ Timeline.logs t) then t
          else Timeline.mkTrack (Timeline.track_id t) (Timeline.track_label t)
                 (Timeline.track_section t) (Timeline.weekSpan t)
                 (Timeline.weeklyTarget t)
                 (sort String.leb (Timeline.logs t ++ [isoDate]))).
Proof.
  intros Ht. unfold Timeline.commitCheckIn.
  rewrite list_lookup_fmap, Ht. reflexivity.
Qed.

(** X18. [commitCheckIn] keeps the number and order of the tracks and
    touches only the tracks named [id]; in such a track the date is
    logged afterwards, a date already logged changes nothing, and a new
    date is added once to the logs, which come out in ascending order
    and without repeats if they had none.  Committing the same date
    again changes nothing. *)
Theorem commitCheckIn_logs (id isoDate : string) (prev : list Timeline.Track) :
  let next := Timeline.commitCheckIn id isoDate prev in
  length next = length prev
  /\ (forall (i : nat) (t : Timeline.Track), prev !! i = Some t ->
      exists t' : Timeline.Track,
        next !! i = Some t'
        /\ Timeline.track_id t' = Timeline.track_id t
        /\ Timeline.track_label t' = Timeline.track_label t
        /\ Timeline.track_section t' = Timeline.track_section t
        /\ Timeline.weekSpan t' = Timeline.weekSpan t
        /\ (Timeline.track_id t <> id -> t' = t)
        /\ (Timeline.track_id t = id ->
            isoDate ∈ Timeline.logs t'
            /\ (isoDate ∈ Timeline.logs t -> t' = t)
            /\ (isoDate ∉ Timeline.logs t ->
                Timeline.logs t' ≡ₚ isoDate :: Timeline.logs t
                /\ Sorted (fun a b => String.leb a b = true)
                          (Timeline.logs t'))
            /\ (NoDup (Timeline.logs t) -> NoDup (Timeline.logs t'))))
  /\ Timeline.commitCheckIn id isoDate next = next.
Proof.
  cbn zeta. split; [apply length_fmap|]. split.
  - intros i t Ht. rewrite (commitCheckIn_lookup id isoDate prev i t Ht).
    eexists. split; [reflexivity|].
    destruct (String.eqb_spec (Timeline.track_id t) id) as [E|E]; cbn [negb].
    + case_bool_decide as Hin.
      * repeat split; auto; intros; exfalso; auto.
      * cbn [Timeline.track_id Timeline.track_label Timeline.track_section
             Timeline.weekSpan Timeline.logs].
        assert (sort String.leb (Timeline.logs t ++ [isoDate])
                ≡ₚ isoDate :: Timeline.logs t) as Hperm.
        { rewrite sort_Permutation. symmetry. apply Permutation_cons_append. }
        do 4 (split; [reflexivity|]). split; [contradiction|].
        intros _. split; [rewrite Hperm; left|].
        split; [contradiction|].
        split; [intros _; split; [exact Hperm | apply sort_leb_Sorted]|].
        intros Hnd. rewrite Hperm. apply NoDup_cons. split; assumption.
    + repeat split; auto; contradiction.
  - unfold Timeline.commitCheckIn. rewrite <- list_fmap_compose.
    apply Forall_fmap_ext_1, Forall_forall. intros t _. cbn.
    destruct (String.eqb_spec (Timeline.track_id t) id) as [E|E]; cbn [negb].
    + case_bool_decide as Hin.
      * destruct (String.eqb_spec (Timeline.track_id t) id); [|contradiction].
        cbn [negb]. rewrite bool_decide_eq_true_2 by assumption. reflexivity.
      * cbn [Timeline.track_id Timeline.logs].
        destruct (String.eqb_spec (Timeline.track_id t) id); [|contradiction].
        cbn [negb]. rewrite bool_decide_eq_true_2; [reflexivity|].
        rewrite sort_Permutation, elem_of_app, list_elem_of_singleton. tauto.
    + destruct (String.eqb_spec (Timeline.track_id t) id); [contradiction|].
      reflexivity.
Qed.

End CheckIns.

(* ================================================================== *)
(** * The difference of two dates in years, months and days *)
(* ================================================================== *)

Section DiffYMD.

Lemma lastDayOfPreviousMonth_range (y m : Z) :
  (28 <= Timeline.lastDayOfPreviousMonth y m <= 31)%Z.
Proof.
  unfold Timeline.lastDayOfPreviousMonth, Timeline.daysInMonth.
  repeat match goal with
         | |- context [if ?b then _ else _] => destruct b
         end; lia.
Qed.

(** X19. For calendar fields in range (months 0 to 11, days 1 to 31)
    [diffYMD] returns months from 0 to 11 and days from -2 to 30; years
    and months together count the whole months from one date to the
    other, one less when the day of the month of the later date is the
    smaller one.  The days are not negative when the earlier date falls
    on a day up to the 28th, and the years are not negative when the
    second date is not before the first. *)
Theorem diffYMD_bounds (from to : Timeline.Calendar) :
  (0 <= Timeline.month from <= 11)%Z ->
  (0 <= Timeline.month to <= 11)%Z ->
  (1 <= Timeline.date from <= 31)%Z ->
  (1 <= Timeline.date to <= 31)%Z ->
  let r := Timeline.diffYMD from to in
  (0 <= Timeline.months r <= 11)%Z
  /\ (-2 <= Timeline.days r <= 30)%Z
  /\ (Timeline.years r * 12 + Timeline.months r
      = (Timeline.fullYear to * 12 + Timeline.month to)
        - (Timeline.fullYear from * 12 + Timeline.month from)
        - (if (Timeline.date to <? Timeline.date from)%Z then 1 else 0))%Z
  /\ ((Timeline.date from <= 28)%Z -> (0 <= Timeline.days r)%Z)
  /\ ((Timeline.fullYear from < Timeline.fullYear to
       \/ (Timeline.fullYear from = Timeline.fullYear to
           /\ (Timeline.month from < Timeline.month to
               \/ (Timeline.month from = Timeline.month to
                   /\ Timeline.date from <= Timeline.date to))))%Z ->
      (0 <= Timeline.years r)%Z).
Proof.
  intros Hmf Hmt Hdf Hdt. cbn zeta. unfold Timeline.diffYMD.
  pose proof (lastDayOfPreviousMonth_range
                (Timeline.fullYear to) (Timeline.month to)) as Hprev.
  destruct (Z.ltb_spec (Timeline.date to - Timeline.date from) 0) as [Hd|Hd].
  - rewrite (proj2 (Z.ltb_lt (Timeline.date to) (Timeline.date from))) by lia.
    destruct (Z.ltb_spec (Timeline.month to - Timeline.month from - 1) 0);
      cbn [Timeline.years Timeline.months Timeline.days];
      repeat split; lia.
  - rewrite (proj2 (Z.ltb_ge (Timeline.date to) (Timeline.date from))) by lia.
    destruct (Z.ltb_spec (Timeline.month to - Timeline.month from) 0);
      cbn [Timeline.years Timeline.months Timeline.days];
      repeat split; lia.
Qed.

Lemma diffYMD_bounds_witness :
  Timeline.days (Timeline.diffYMD (Timeline.mkCalendar 2025 0 31)
                                  (Timeline.mkCalendar 2025 2 1))
  = (-2)%Z
  /\ (0 <= Timeline.months (Timeline.diffYMD (Timeline.mkCalendar 2025 0 31)
                                             (Timeline.mkCalendar 2025 2 1))
      <= 11)%Z.
Proof.
  split; [reflexivity|].
  apply (diffYMD_bounds (Timeline.mkCalendar 2025 0 31)
                        (Timeline.mkCalendar 2025 2 1)); cbn; lia.
Defined.

End DiffYMD.

(* ================================================================== *)
(** * A toggle and a note in either order *)
(* ================================================================== *)

Section Commute.

(** X20. A toggle and a note edit do not interfere: applied in either
    order, to the same or to different goals and days, they give the
    same state. *)
Theorem toggle_and_note_commute
    (st : TrackerState) (goalId taskId : string) (dIndex : nat)
    (noteGoalId : string) (noteIndex : nat) (newNote : string) :
  handleToggleTask goalId taskId dIndex
    (handleUpdateNote noteGoalId noteIndex newNote st)
  = handleUpdateNote noteGoalId noteIndex newNote
      (handleToggleTask goalId taskId dIndex st).
Proof.
  unfold handleToggleTask, handleUpdateNote.
  cbn [weekStartISO goals history]. f_equal.
  rewrite <- !list_fmap_compose.
  apply Forall_fmap_ext_1, Forall_forall. intros g _. cbn.
  destruct (String.eqb_spec (goal_id g) noteGoalId) as [En|En];
    destruct (String.eqb_spec (goal_id g) goalId) as [Et|Et];
    cbn [negb goal_id];
    repeat match goal with
           | |- context [String.eqb (goal_id g) ?x] =>
               destruct (String.eqb_spec (goal_id g) x);
               [|contradiction]
           | |- context [String.eqb (goal_id g) ?x] =>
               destruct (String.eqb_spec (goal_id g) x);
               [contradiction|]
           end;
    cbn [negb goal_id goal_label goal_section tasks days];
    try reflexivity.
  f_equal. apply list_eq. intros j. rewrite !list_lookup_imap.
  destruct (days g !! j) as [day|]; [|reflexivity]. cbn. f_equal.
  destruct (j =? noteIndex)%nat, (j =? dIndex)%nat; reflexivity.
Qed.

End Commute.

Section NoteTwice.

(** X21. Of two note edits of the same goal and day the later one
    wins: the state is the one the later edit alone gives. *)
Theorem handleUpdateNote_overwrites
    (st : TrackerState) (goalId : string) (dIndex : nat)
    (first later : string) :
  handleUpdateNote goalId dIndex later
    (handleUpdateNote goalId dIndex first st)
  = handleUpdateNote goalId dIndex later st.
Proof.
  unfold handleUpdateNote. cbn [weekStartISO goals history]. f_equal.
  rewrite <- list_fmap_compose.
  apply Forall_fmap_ext_1, Forall_forall. intros g _. cbn.
  destruct (String.eqb_spec (goal_id g) goalId) as [E|E]; cbn [negb goal_id].
  - destruct (String.eqb_spec (goal_id g) goalId); [|contradiction].
    cbn [negb goal_label goal_section tasks days]. f_equal.
    apply list_eq. intros j. rewrite !list_lookup_imap.
    destruct (days g !! j) as [day|]; [|reflexivity]. cbn. f_equal.
    destruct (j =? dIndex)%nat; reflexivity.
  - destruct (String.eqb_spec (goal_id g) goalId); [contradiction|].
    reflexivity.
Qed.

End NoteTwice.
